(** * aienvoy: the streaming adapters, the SSE relay and their helpers

    A shallow embedding of the Go sources: the provider adapters
    ([pkg/llm/claude], [claudeweb], [together]), the HTTP handlers that relay
    a stream as Server-Sent Events, the token accounting of [usage] and the
    constructor of the Bard client.

    Conventions.
    - A Go [string] and a [[]byte] are both a [string] here (a sequence of
      8-bit characters); [String.length] is Go's [len].
    - A Go [error] is a value of [error]; [nil] is [None] of [option error].
    - A goroutine that only sends on channels is modelled by the sequence of
      its sends, in program order: the channels of the sources are unbuffered,
      so every send completes before the next statement runs.
    - Logging through [slog] has no effect on any value and is left out.
    - What the sources import from other packages (the JSON codec, the HTTP
      session, the AWS SDK, tiktoken) is a method of a type class.
    - [llm.ParseSSE], the read loop the Together adapter starts, belongs to
      a package of the repository that is not among the sources: it is a
      method of the adapter's environment, and module [SSE] gives it as the
      spec describes the read loop. *)

From Stdlib Require Import List String Ascii ZArith Lia Bool Arith.
From Stdlib Require Import DecimalString Permutation.
From Equations Require Import Equations.
Import ListNotations.

Set Implicit Arguments.
Set Default Proof Using "Type".

Local Open Scope string_scope.
Local Open Scope list_scope.

(** ** Go errors *)

Module GoErr.

(** The error values the sources build or pass on: the sentinel [io.EOF], an
    error with a plain message ([errors.New], or [fmt.Errorf] whose verbs are
    [%v], [%d], [%s], [%T]), and an error that wraps another one
    ([fmt.Errorf] with [%w]). *)
Inductive error : Type :=
| io_EOF
| errors_New (msg : string)
| fmt_Errorf_w (prefix : string) (inner : error).

(** [err.Error()] *)
Fixpoint Error (e : error) : string :=
  match e with
  | io_EOF => "EOF"
  | errors_New msg => msg
  | fmt_Errorf_w prefix inner => prefix ++ Error inner
  end.

Fixpoint error_eqb (a b : error) : bool :=
  match a, b with
  | io_EOF, io_EOF => true
  | errors_New x, errors_New y => String.eqb x y
  | fmt_Errorf_w p x, fmt_Errorf_w q y => String.eqb p q && error_eqb x y
  | _, _ => false
  end.

(** [errors.Is(err, target)]: [err] or an error it wraps equals [target]. *)
Fixpoint errors_Is (err target : error) : bool :=
  error_eqb err target ||
  match err with
  | fmt_Errorf_w _ inner => errors_Is inner target
  | _ => false
  end.

(** [fmt.Errorf(prefix + "%v", err)]: the message is copied, nothing is
    wrapped. *)
Definition fmt_Errorf_v (prefix : string) (err : error) : error :=
  errors_New (prefix ++ Error err).

(** [%v] of an [error] variable that may be [nil]. *)
Definition show_err (err : option error) : string :=
  match err with
  | None => "<nil>"
  | Some e => Error e
  end.

(** [%d] of an [int]. *)
Definition itoa (z : Z) : string := NilZero.string_of_int (Z.to_int z).

End GoErr.
Import GoErr.

(** ** What a producer goroutine does, in order *)

Module Chan.

(** One observable action of an adapter: it issues a request to the upstream
    provider, it sends a record on the data channel, or it sends an error
    value on the error channel. The two channels have different element
    types in the sources ([chan llm.ChatCompletionStreamResponse] and
    [chan error]); the two constructors keep them apart. *)
Inductive action (Req Data : Type) : Type :=
| Upstream (r : Req)
| SendData (d : Data)
| SendErr (e : error).
Arguments Upstream {Req Data} r.
Arguments SendData {Req Data} d.
Arguments SendErr {Req Data} e.

Section Trace.
Context {Req Data : Type}.

Definition is_terminal (a : action Req Data) : bool :=
  match a with SendErr _ => true | _ => false end.

Definition is_data (a : action Req Data) : bool :=
  match a with SendData _ => true | _ => false end.

Definition is_upstream (a : action Req Data) : bool :=
  match a with Upstream _ => true | _ => false end.

(** The values received on the error channel, in order. *)
Fixpoint terminals (t : list (action Req Data)) : list error :=
  match t with
  | [] => []
  | SendErr e :: t' => e :: terminals t'
  | _ :: t' => terminals t'
  end.

(** The values received on the data channel, in order. *)
Fixpoint records (t : list (action Req Data)) : list Data :=
  match t with
  | [] => []
  | SendData d :: t' => d :: records t'
  | _ :: t' => records t'
  end.

(** The upstream requests issued, in order. *)
Fixpoint upstream_calls (t : list (action Req Data)) : list Req :=
  match t with
  | [] => []
  | Upstream r :: t' => r :: upstream_calls t'
  | _ :: t' => upstream_calls t'
  end.

(** What follows the first send on the error channel. *)
Fixpoint after_terminal (t : list (action Req Data)) : list (action Req Data) :=
  match t with
  | [] => []
  | SendErr _ :: t' => t'
  | _ :: t' => after_terminal t'
  end.

(** The sends alone, the upstream requests dropped: what a consumer of the
    two channels receives, in order. *)
Definition sends (t : list (action Req Data)) : list (action Req Data) :=
  filter (fun a => negb (is_upstream a)) t.

(** The number of sends on the error channel. *)
Definition count_terminals (t : list (action Req Data)) : nat :=
  List.length (terminals t).

(** One send on the error channel in all, and nothing after it. *)
Definition exactly_one_terminal (t : list (action Req Data)) : Prop :=
  count_terminals t = 1 /\ after_terminal t = [].

(** The sends are the records, in order, on the data channel, and then one
    value on the error channel. *)
Definition records_then_terminal (t : list (action Req Data)) : Prop :=
  exists e, sends t = map SendData (records t) ++ [SendErr e].

End Trace.
End Chan.
Import Chan.

(** ** Types of package [llm] the adapters share *)

Module LLM.

(** [llm.ChatCompletionRequest]: the fields the adapters read or write, and
    the remaining ones as one component. *)
Record ChatCompletionRequest (P : Type) : Type := {
  Model : string;
  Stream : bool;
  Params : P
}.

Definition set_Stream {P} (b : bool) (req : ChatCompletionRequest P) :
  ChatCompletionRequest P :=
  {| Model := Model req; Stream := b; Params := Params req |}.

End LLM.

(** ** [pkg/llm/claude]: Claude through AWS Bedrock *)

Module Bedrock.
Import LLM.

(** [types.ResponseStream]: what the event channel of the SDK yields. *)
Inductive ResponseStream : Type :=
| ResponseStreamMemberChunk (Bytes : string)
| UnknownUnionMember (Tag : string) (Value : string)
| OtherMember (type_name : string).

(** [bedrockruntime.InvokeModelWithResponseStreamInput] *)
Record InvokeModelWithResponseStreamInput : Type := {
  ModelId : string;
  Body : string;
  ContentType : string
}.

(** What [output.GetStream()] gives: the events its [Events()] channel
    yields until the SDK closes it, and the error [Err()] holds from then on,
    nil when the stream came to its end and the error that cut it short
    otherwise (the read failed, or the service sent an exception). *)
Record EventStream : Type := {
  Events : list ResponseStream;
  Err : option error
}.

(** The Bedrock runtime client and the request and response types of the
    package, which the adapter uses through these operations only.
    [InvokeModelWithResponseStream] answers with an error or with an event
    stream. *)
Class Runtime (P StreamResponse : Type) : Type := {
  BedrockRequest : Type;
  BedrockResponse : Type;
  FromChatCompletionRequest : ChatCompletionRequest P -> BedrockRequest;
  Marshal : BedrockRequest -> string;
  Decode : string -> error + BedrockResponse;
  Completion : BedrockResponse -> string;
  ToChatCompletionStreamResponse : BedrockResponse -> StreamResponse;
  InvokeModelWithResponseStream :
    InvokeModelWithResponseStreamInput -> error + EventStream
}.

Section Client.
Context {P StreamResponse : Type} `{RT : Runtime P StreamResponse}.

Definition trace : Type :=
  list (action InvokeModelWithResponseStreamInput StreamResponse).

(** [fmt.Errorf("unknown event type: %T", v)] *)
Definition unknown_event_type (type_name : string) : error :=
  errors_New ("unknown event type: " ++ type_name).

(** The [for event := range output.GetStream().Events()] loop; [sb] is the
    [strings.Builder] of the source. The loop ends when the channel is
    closed; the source does not call [Err()]. *)
Fixpoint events_loop (sb : string) (events : list ResponseStream) : trace :=
  match events with
  | [] => [SendErr io_EOF]
  | ResponseStreamMemberChunk bytes :: rest =>
      match Decode bytes with
      | inl err => [SendErr err]
      | inr resp =>
          SendData (ToChatCompletionStreamResponse resp)
            :: events_loop (sb ++ Completion resp) rest
      end
  | UnknownUnionMember _ _ :: _ =>
      [SendErr (unknown_event_type "*types.UnknownUnionMember")]
  | OtherMember type_name :: _ =>
      [SendErr (unknown_event_type type_name)]
  end.

Definition stream_input (req : ChatCompletionRequest P) :
  InvokeModelWithResponseStreamInput :=
  {| ModelId := Model req;
     Body := Marshal (FromChatCompletionRequest req);
     ContentType := "application/json" |}.

(** [Client.CreateChatCompletionStream] *)
Definition CreateChatCompletionStream (req : ChatCompletionRequest P) : trace :=
  let input := stream_input req in
  Upstream input ::
  match InvokeModelWithResponseStream input with
  | inl err => [SendErr err]
  | inr output => events_loop "" (Events output)
  end.

(** *** Runs of the upstream, for the statements below *)

(** The chunks [bytes] decode, one by one, to the responses [resps]. *)
Definition decode_all (bytes : list string) (resps : list BedrockResponse) : Prop :=
  Forall2 (fun b r => Decode b = inr r) bytes resps.

(** The events of a run that yields the chunks [bytes]. *)
Definition chunks (bytes : list string) : list ResponseStream :=
  map ResponseStreamMemberChunk bytes.

(** The records the adapter sends for the responses [resps]. *)
Definition forwarded (resps : list BedrockResponse) : trace :=
  map (fun r => SendData (ToChatCompletionStreamResponse r)) resps.

(** The run over [events] as the claim of an ordered sequence of records
    and one terminal signal has it: the responses decoded from the chunks
    that come before the first event that is not a chunk that decodes. *)
Fixpoint records_of_events (events : list ResponseStream) : list BedrockResponse :=
  match events with
  | ResponseStreamMemberChunk bytes :: rest =>
      match Decode bytes with
      | inr resp => resp :: records_of_events rest
      | inl _ => []
      end
  | _ => []
  end.

(** The signal that ends that run: the error of the first event that is not
    a chunk that decodes, and [io.EOF] when there is no such event. *)
Fixpoint terminal_of_events (events : list ResponseStream) : error :=
  match events with
  | [] => io_EOF
  | ResponseStreamMemberChunk bytes :: rest =>
      match Decode bytes with
      | inr _ => terminal_of_events rest
      | inl err => err
      end
  | UnknownUnionMember _ _ :: _ => unknown_event_type "*types.UnknownUnionMember"
  | OtherMember type_name :: _ => unknown_event_type type_name
  end.

(** An upstream failure that the loop meets: what
    [InvokeModelWithResponseStream] answered, the responses decoded before
    the failure, and the error that describes it. The initial call fails; or,
    after chunks that decode, comes a chunk whose JSON does not decode, or an
    event of an unknown type. *)
Inductive upstream_failure :
  error + EventStream -> list BedrockResponse -> error -> Prop :=
| initial_call_failed err :
    upstream_failure (inl err) [] err
| chunk_malformed output bytes resps bad rest err :
    Events output = chunks bytes ++ ResponseStreamMemberChunk bad :: rest ->
    decode_all bytes resps ->
    Decode bad = inl err ->
    upstream_failure (inr output) resps err
| unknown_union_member output bytes resps tag value rest :
    Events output = chunks bytes ++ UnknownUnionMember tag value :: rest ->
    decode_all bytes resps ->
    upstream_failure (inr output) resps
      (unknown_event_type "*types.UnknownUnionMember")
| unknown_member output bytes resps type_name rest :
    Events output = chunks bytes ++ OtherMember type_name :: rest ->
    decode_all bytes resps ->
    upstream_failure (inr output) resps (unknown_event_type type_name).

(** A stream that yields the chunks [bytes] and ends with no error. *)
Definition clean_stream (bytes : list string) : EventStream :=
  {| Events := chunks bytes; Err := None |}.

(** A stream that yields the chunks [bytes] and is then cut short by
    [err]. *)
Definition cut_stream (bytes : list string) (err : error) : EventStream :=
  {| Events := chunks bytes; Err := Some err |}.

End Client.
End Bedrock.

(** A value together with the equation that says where it comes from, for
    the loops whose termination depends on what a call returned. *)
Definition inspect {A : Type} (a : A) : {b : A | a = b} := exist _ a eq_refl.

(** ** HTTP requests, responses and buffered readers *)

Module HTTP.

Record Request : Type := {
  Method : string;
  URL : string;
  Header : list (string * string);
  Cookies : list (string * string);
  Payload : string
}.

Definition is_upper (c : ascii) : bool :=
  Nat.leb 65 (nat_of_ascii c) && Nat.leb (nat_of_ascii c) 90.

Definition is_lower (c : ascii) : bool :=
  Nat.leb 97 (nat_of_ascii c) && Nat.leb (nat_of_ascii c) 122.

Definition is_digit (c : ascii) : bool :=
  Nat.leb 48 (nat_of_ascii c) && Nat.leb (nat_of_ascii c) 57.

Fixpoint occurs (c : ascii) (s : string) : bool :=
  match s with
  | EmptyString => false
  | String c' s' => Ascii.eqb c c' || occurs c s'
  end.

(** [textproto]'s [validHeaderFieldByte]: the bytes of a token. *)
Definition validHeaderFieldByte (c : ascii) : bool :=
  is_upper c || is_lower c || is_digit c || occurs c "!#$%&'*+-.^_`|~".

Fixpoint all_valid (s : string) : bool :=
  match s with
  | EmptyString => true
  | String c s' => validHeaderFieldByte c && all_valid s'
  end.

(** The second loop of [canonicalMIMEHeaderKey]: a letter is made upper case
    at the start and after a dash, lower case elsewhere. *)
Fixpoint canonical_from (upper : bool) (s : string) : string :=
  match s with
  | EmptyString => EmptyString
  | String c s' =>
      let c' :=
        if upper then
          if is_lower c then ascii_of_nat (nat_of_ascii c - 32) else c
        else
          if is_upper c then ascii_of_nat (nat_of_ascii c + 32) else c in
      String c' (canonical_from (Ascii.eqb c' "-") s')
  end.

(** [textproto.CanonicalMIMEHeaderKey]: a key with a byte that is not a
    token byte is left as it is. *)
Definition CanonicalMIMEHeaderKey (s : string) : string :=
  if all_valid s then canonical_from true s else s.

(** [req.Header.Set(key, value)]: the value replaces the ones under the
    canonical form of [key]. *)
Definition Header_Set (key value : string) (req : Request) : Request :=
  let key := CanonicalMIMEHeaderKey key in
  {| Method := Method req;
     URL := URL req;
     Header :=
       filter (fun kv => negb (String.eqb (fst kv) key)) (Header req)
         ++ [(key, value)];
     Cookies := Cookies req;
     Payload := Payload req |}.

(** [req.Header.Add(key, value)]: the value is added under the canonical
    form of [key]. *)
Definition Header_Add (key value : string) (req : Request) : Request :=
  let key := CanonicalMIMEHeaderKey key in
  {| Method := Method req;
     URL := URL req;
     Header := Header req ++ [(key, value)];
     Cookies := Cookies req;
     Payload := Payload req |}.

(** [req.AddCookie] *)
Definition AddCookie (name value : string) (req : Request) : Request :=
  {| Method := Method req;
     URL := URL req;
     Header := Header req;
     Cookies := Cookies req ++ [(name, value)];
     Payload := Payload req |}.

(** [http.NewRequest(method, url, body)] *)
Definition NewRequest (method url body : string) : Request :=
  {| Method := method; URL := url; Header := []; Cookies := []; Payload := body |}.

(** A response body behind an [io.ReadCloser]: the bytes that arrive, and how
    the body ends, at its end ([None]: reads report [io.EOF]) or with a read
    error (the connection dropped). *)
Record ReadCloser : Type := {
  content : string;
  failure : option error
}.

Record Response : Type := {
  StatusCode : Z;
  Status : string;
  RespBody : ReadCloser
}.

Definition StatusOK : Z := 200.
Definition StatusBadRequest : Z := 400.
Definition StatusInternalServerError : Z := 500.

Definition newline : ascii := "010"%char.

(** The double quote character, as a string. *)
Definition quote : string := String "034"%char EmptyString.

(** The bytes up to and including the first newline, and the bytes after it. *)
Fixpoint cut_line (s : string) : option (string * string) :=
  match s with
  | EmptyString => None
  | String c s' =>
      if Ascii.eqb c newline then Some (String c EmptyString, s')
      else match cut_line s' with
           | Some (line, rest) => Some (String c line, rest)
           | None => None
           end
  end.

(** [bufio.Reader.ReadBytes('\n')]: the bytes up to and including the
    delimiter; when the body ends before a delimiter, the bytes read so far
    together with the error ([io.EOF] at the end of the body). *)
Definition ReadBytes (r : ReadCloser) : string * option error * ReadCloser :=
  match cut_line (content r) with
  | Some (line, rest) =>
      (line, None, {| content := rest; failure := failure r |})
  | None =>
      (content r,
       Some (match failure r with None => io_EOF | Some e => e end),
       {| content := EmptyString; failure := failure r |})
  end.

(** [b[n:]] *)
Fixpoint drop (n : nat) (s : string) : string :=
  match n, s with
  | O, _ => s
  | S n', String _ s' => drop n' s'
  | S _, EmptyString => EmptyString
  end.

(** The newline-terminated lines of [s], each with its newline; [cur] holds
    the bytes of the line being read. Bytes after the last newline belong to
    no line. *)
Fixpoint lines_from (cur s : string) : list string :=
  match s with
  | EmptyString => []
  | String ch s' =>
      if Ascii.eqb ch newline then
        (cur ++ String ch EmptyString)%string :: lines_from "" s'
      else lines_from (cur ++ String ch EmptyString) s'
  end.

Definition lines (s : string) : list string := lines_from "" s.

(** How the reads of a body end: [io.EOF] or the read error. *)
Definition end_of_body (body : ReadCloser) : error :=
  match failure body with None => io_EOF | Some e => e end.

(** Every successful read takes at least one byte off the body, so the read
    loops end: from [ReadBytes r = (line, None, r')] to
    [length (content r') < length (content r)], by induction on the body. *)
Ltac read_shrinks :=
  match goal with
  | Hread : ReadBytes ?r = (_, None, _) |- _ =>
      let l := fresh "l" in
      let rest := fresh "rest" in
      let Hcut := fresh "Hcut" in
      let ch := fresh "ch" in
      let s := fresh "s" in
      let IH := fresh "IH" in
      unfold ReadBytes in Hread;
      destruct (cut_line (content r)) as [[l rest]|] eqn:Hcut;
      [|discriminate Hread];
      injection Hread as _ <-; cbn [content];
      clear - Hcut; revert l rest Hcut;
      induction (content r) as [|ch s IH]; intros l rest Hcut;
      cbn [cut_line] in Hcut;
      [ discriminate Hcut
      | destruct (Ascii.eqb ch newline);
        [ injection Hcut as _ <-; cbn [String.length]; lia
        | let l' := fresh "l" in
          let rest' := fresh "rest" in
          destruct (cut_line s) as [[l' rest']|]; [|discriminate Hcut];
          injection Hcut as _ <-;
          specialize (IH _ _ eq_refl); cbn [String.length]; lia ] ]
  end.

End HTTP.

(** ** [claudeweb]: the Claude web session *)

Module ClaudeWeb.
Import HTTP.

Definition defaultModel : string := "claude-2".
Definition defaultTimezone : string := "Asia/Shanghai".
Definition defaultHost : string := "https://claude.ai".
Definition defaultUserAgent : string :=
  "Mozilla/5.0 (Windows NT 10.0; WOW64) AppleWebKit/537.36 (KHTML, like Gecko) Chrome/86.0.4240.198 Safari/537.36".

(** The fields of [ClaudeWeb] that are plain data. *)
Record ClaudeWeb : Type := {
  sessionKey : string;
  orgId : string;
  model : string
}.

(** The struct [Completion] of the source, under another name: [Completion]
    is the field of [ChatMessageResponse] below. *)
Record CompletionParams : Type := {
  Prompt : string;
  Timezone : string;
  Model : string
}.

(** [Attachment] is declared outside these sources; the client only ever
    sends the empty list. *)
Definition Attachment : Type := Empty_set.

Record CreateChatMessageRequest : Type := {
  completion : CompletionParams;
  OrganizationUUID : string;
  ConversationUUID : string;
  Text : string;
  Attachments : list Attachment
}.

(** [ChatMessageResponse]: the field the client reads, and the other fields
    as one component. *)
Record ChatMessageResponse (O : Type) : Type := {
  Completion : string;
  Other : O
}.

(** The session and the JSON codec. [json_Unmarshal data v] decodes [data]
    into the value [v] and gives the updated value; [zero_Other] is the zero
    value of the fields other than [Completion]. *)
Class Session (O : Type) : Type := {
  session_Do : Request -> error + Response;
  json_Marshal : CreateChatMessageRequest -> string;
  json_Unmarshal : string -> ChatMessageResponse O -> error + ChatMessageResponse O;
  zero_Other : O
}.

Section Client.
Context {O : Type} `{S : Session O}.

Definition zero_ChatMessageResponse : ChatMessageResponse O :=
  {| Completion := ""; Other := zero_Other |}.

Definition setReqHeaders (c : ClaudeWeb) (req : Request) : Request :=
  AddCookie "sessionKey" (sessionKey c)
    (Header_Set "Connection" "keep-alive"
    (Header_Set "Sec-Fetch-Site" "same-origin"
    (Header_Set "Sec-Fetch-Mode" "cors"
    (Header_Set "Sec-Fetch-Dest" "empty"
    (Header_Set "Content-Type" "application/json"
    (Header_Set "Referer" defaultHost
    (Header_Set "Accept-Language" "en-US,en;q=0.5"
    (Header_Set "User-Agent" defaultUserAgent req)))))))).

(** [request]: the request as sent, the status code, and the error or the
    body (the source returns a nil body exactly when it returns an error). *)
Definition request (c : ClaudeWeb) (req : Request) :
  Request * (Z * (error + ReadCloser)) :=
  let sent := setReqHeaders c req in
  (sent,
   match session_Do sent with
   | inl err =>
       (0%Z,
        inl (errors_New (Method req ++ " " ++ URL req ++ " err: " ++ Error err)))
   | inr r =>
       if (StatusBadRequest <=? StatusCode r)%Z then
         (StatusCode r,
          inl (errors_New (Method req ++ " " ++ URL req ++ " err: " ++ Status r)))
       else (StatusCode r, inr (RespBody r))
   end).

Definition createChatMessage (c : ClaudeWeb) (id prompt : string) :
  Request * (Z * (error + ReadCloser)) :=
  let uri := (defaultHost ++ "/api/append_message")%string in
  let payload :=
    {| completion :=
         {| Prompt := prompt; Timezone := defaultTimezone; Model := defaultModel |};
       OrganizationUUID := orgId c;
       ConversationUUID := id;
       Text := prompt;
       Attachments := [] |} in
  let req := NewRequest "POST" uri (json_Marshal payload) in
  request c (Header_Set "Content-Type" "text/event-stream" req).

(** The request [CreateChatMessageStream] and [CreateChatMessage] send. *)
Definition sent_request (c : ClaudeWeb) (id prompt : string) : Request :=
  fst (createChatMessage c id prompt).

Definition trace : Type := list (action Request (ChatMessageResponse O)).

(** The read loop of [CreateChatMessageStream]. *)
Equations? stream_loop (reader : ReadCloser) : trace
  by wf (String.length (content reader)) lt :=
stream_loop reader with inspect (ReadBytes reader) := {
  | exist _ (line, Some err, _) _ =>
      if error_eqb err io_EOF then [SendErr io_EOF]
      else [SendErr (fmt_Errorf_v
                       "createChatMessageStream read response body err: " err)]
  | exist _ (line, None, reader') Hread =>
      if Nat.ltb 6 (String.length line) then
        match json_Unmarshal (drop 6 line) zero_ChatMessageResponse with
        | inl err =>
            [SendErr (fmt_Errorf_v
                        "createChatMessageStream unmarshal response body err: " err)]
        | inr chatMessageResponse =>
            SendData chatMessageResponse :: stream_loop reader'
        end
      else stream_loop reader' }.
Proof.
  all: read_shrinks.
Defined.

(** [CreateChatMessageStream] *)
Definition CreateChatMessageStream (c : ClaudeWeb) (id prompt : string) : trace :=
  let '(sent, (statusCode, res)) := createChatMessage c id prompt in
  Upstream sent ::
  match res with
  | inl err =>
      [SendErr (errors_New ("CreateChatMessage failed with status_code "
                            ++ itoa statusCode ++ ", err: " ++ Error err))]
  | inr resp =>
      if (StatusBadRequest <=? statusCode)%Z then
        [SendErr (errors_New ("CreateChatMessage status_code "
                              ++ itoa statusCode ++ " err: " ++ show_err None))]
      else stream_loop resp
  end.

(** The read loop of [CreateChatMessage]: [chatMessageResponse] is declared
    before the loop and every line is decoded into it; [sb] is the
    [strings.Builder]. The loop ends with an error or, at [break], with the
    two variables. *)
Equations? message_loop (chatMessageResponse : ChatMessageResponse O)
  (sb : string) (reader : ReadCloser) : error + ChatMessageResponse O * string
  by wf (String.length (content reader)) lt :=
message_loop chatMessageResponse sb reader with inspect (ReadBytes reader) := {
  | exist _ (line, Some err, _) _ =>
      if error_eqb err io_EOF then inr (chatMessageResponse, sb)
      else inl (fmt_Errorf_v "CreateChatMessage read response body err: " err)
  | exist _ (line, None, reader') Hread =>
      if Nat.ltb 6 (String.length line) then
        match json_Unmarshal (drop 6 line) chatMessageResponse with
        | inl err =>
            inl (fmt_Errorf_v "CreateChatMessage unmarshal response body err: " err)
        | inr decoded =>
            message_loop decoded (sb ++ Completion decoded) reader'
        end
      else message_loop chatMessageResponse sb reader' }.
Proof.
  all: read_shrinks.
Defined.

(** [CreateChatMessage]: the request sent and what the source returns. *)
Definition CreateChatMessage (c : ClaudeWeb) (id prompt : string) :
  Request * (error + ChatMessageResponse O) :=
  let '(sent, (statusCode, res)) := createChatMessage c id prompt in
  (sent,
   match res with
   | inl err => inl (fmt_Errorf_v "CreateChatMessage err: " err)
   | inr resp =>
       if (StatusBadRequest <=? statusCode)%Z then
         inl (errors_New ("CreateChatMessage status_code "
                          ++ itoa statusCode ++ " err: " ++ show_err None))
       else
         match message_loop zero_ChatMessageResponse "" resp with
         | inl err => inl err
         | inr (chatMessageResponse, sb) =>
             inr {| Completion := sb; Other := Other chatMessageResponse |}
         end
   end).

(** *** The body as lines

    The second description of the two read loops, over the lines of the body
    rather than over the reader. *)

(** [len(line) > 6] *)
Definition long (line : string) : bool := Nat.ltb 6 (String.length line).

(** The terminal of the streaming loop for the error that ends the reads. *)
Definition stream_end (err : error) : error :=
  if error_eqb err io_EOF then io_EOF
  else fmt_Errorf_v "createChatMessageStream read response body err: " err.

(** The streaming loop over lines: every long line is decoded into a fresh
    value and sent, the first one that does not decode ends the stream. *)
Fixpoint stream_lines (ls : list string) (last : error) : trace :=
  match ls with
  | [] => [SendErr (stream_end last)]
  | line :: rest =>
      if long line then
        match json_Unmarshal (drop 6 line) zero_ChatMessageResponse with
        | inl err =>
            [SendErr (fmt_Errorf_v
                        "createChatMessageStream unmarshal response body err: " err)]
        | inr v => SendData v :: stream_lines rest last
        end
      else stream_lines rest last
  end.

(** Decoding the lines [ls] one after the other into one value that starts
    as [v]: the value after each line, or the first error. *)
Fixpoint decode_into (v : ChatMessageResponse O) (ls : list string) :
  error + list (ChatMessageResponse O) :=
  match ls with
  | [] => inr []
  | line :: rest =>
      match json_Unmarshal (drop 6 line) v with
      | inl err => inl err
      | inr v' =>
          match decode_into v' rest with
          | inl err => inl err
          | inr vs => inr (v' :: vs)
          end
      end
  end.

(** Decoding each of the lines [ls] into a fresh value. *)
Fixpoint decode_each (ls : list string) : error + list (ChatMessageResponse O) :=
  match ls with
  | [] => inr []
  | line :: rest =>
      match json_Unmarshal (drop 6 line) zero_ChatMessageResponse with
      | inl err => inl err
      | inr v =>
          match decode_each rest with
          | inl err => inl err
          | inr vs => inr (v :: vs)
          end
      end
  end.

(** The [Completion] fields of [vs], concatenated in order. *)
Definition completions (vs : list (ChatMessageResponse O)) : string :=
  fold_right (fun v acc => (Completion v ++ acc)%string) "" vs.

(** Whether decoding a frame gives a [Completion] that comes from the frame
    alone, whatever value the frame is decoded into: every frame carries its
    completion. *)
Definition completion_from_frame : Prop :=
  forall data v v' w',
    json_Unmarshal data v = inr v' ->
    json_Unmarshal data zero_ChatMessageResponse = inr w' ->
    Completion v' = Completion w'.

(** How [CreateChatMessage] leaves its loop for the error that ends the
    reads: [break] at [io.EOF], an error otherwise. *)
Definition message_end (err : error) (v : ChatMessageResponse O) (sb : string) :
  error + ChatMessageResponse O * string :=
  if error_eqb err io_EOF then inr (v, sb)
  else inl (fmt_Errorf_v "CreateChatMessage read response body err: " err).

(** The loop of [CreateChatMessage] over lines. *)
Fixpoint message_lines (v : ChatMessageResponse O) (sb : string)
  (ls : list string) (last : error) : error + ChatMessageResponse O * string :=
  match ls with
  | [] => message_end last v sb
  | line :: rest =>
      if long line then
        match json_Unmarshal (drop 6 line) v with
        | inl err =>
            inl (fmt_Errorf_v "CreateChatMessage unmarshal response body err: " err)
        | inr v' => message_lines v' (sb ++ Completion v') rest last
        end
      else message_lines v sb rest last
  end.

(** An upstream failure of a streaming run: what the session answered, the
    records decoded before the failure, and the terminal error the failure
    calls for. The call fails, or is answered with an error status; or, after
    long lines that decode, the read fails or a long line does not decode. *)
Inductive stream_failure :
  error + Response -> list (ChatMessageResponse O) -> error -> Prop :=
| call_failed err :
    stream_failure (inl err) []
      (errors_New
         ("CreateChatMessage failed with status_code 0, err: "
          ++ "POST https://claude.ai/api/append_message err: " ++ Error err))
| status_failed r :
    (StatusBadRequest <= StatusCode r)%Z ->
    stream_failure (inr r) []
      (errors_New
         ("CreateChatMessage failed with status_code " ++ itoa (StatusCode r)
          ++ ", err: " ++ "POST https://claude.ai/api/append_message err: "
          ++ Status r))
| read_failed r vs err :
    (StatusCode r < StatusBadRequest)%Z ->
    failure (RespBody r) = Some err ->
    error_eqb err io_EOF = false ->
    decode_each (filter long (lines (content (RespBody r)))) = inr vs ->
    stream_failure (inr r) vs
      (fmt_Errorf_v "createChatMessageStream read response body err: " err)
| frame_malformed r before bad after vs err :
    (StatusCode r < StatusBadRequest)%Z ->
    lines (content (RespBody r)) = before ++ bad :: after ->
    decode_each (filter long before) = inr vs ->
    long bad = true ->
    json_Unmarshal (drop 6 bad) zero_ChatMessageResponse = inl err ->
    stream_failure (inr r) vs
      (fmt_Errorf_v "createChatMessageStream unmarshal response body err: " err).

End Client.
End ClaudeWeb.


(** ** [together]: the Together.xyz HTTP API *)

Module Together.
Import LLM HTTP.

Definition baseUrl_default : string := "https://api.together.xyz".

(** The fields of [Client] that are plain data. *)
Record Client : Type := {
  baseUrl : string;
  Apikey : string
}.

(** What [llm.ParseSSE] sends on its two channels. *)
Inductive inner (R : Type) : Type :=
| InnerData (data : R)
| InnerErr (err : error).
Arguments InnerData {R} data.
Arguments InnerErr {R} err.

(** The request and response types of the package with their conversions,
    the JSON codec, the HTTP session, and [llm.ParseSSE]: the sends it
    performs, in order, when it runs on a response body.
    [ProviderStream] reads the streaming flag of the provider request. *)
Class Env (P ChatResponse StreamResponse : Type) : Type := {
  TogetherChatRequest : Type;
  TogetherChatResponse : Type;
  FromChatCompletionRequest : ChatCompletionRequest P -> TogetherChatRequest;
  ProviderStream : TogetherChatRequest -> bool;
  ToChatCompletionResponse : TogetherChatResponse -> ChatResponse;
  ToChatCompletionStreamResponse : TogetherChatResponse -> StreamResponse;
  json_Marshal : TogetherChatRequest -> error + string;
  json_Decode : ReadCloser -> error + TogetherChatResponse;
  session_Do : Request -> error + Response;
  ParseSSE : ReadCloser -> list (inner TogetherChatResponse)
}.

Section Client.
Context {P ChatResponse StreamResponse : Type}
  `{E : Env P ChatResponse StreamResponse}.

Definition setHeaders (c : Client) (req : Request) : Request :=
  Header_Set "User-Agent" "TogetherPythonOfficial/0.2.10"
    (Header_Set "Accept" "application/json"
    (Header_Set "Content-Type" "application/json"
    (Header_Set "Authorization" ("Bearer " ++ Apikey c) req))).

(** The provider request of [CreateChatCompletion]: [req.Stream = false],
    then the translation. *)
Definition completion_request (req : ChatCompletionRequest P) : TogetherChatRequest :=
  let req := set_Stream false req in
  FromChatCompletionRequest req.

(** The provider request of [CreateChatCompletionStream]: [req.Stream = true],
    then the translation. *)
Definition stream_request (req : ChatCompletionRequest P) : TogetherChatRequest :=
  let req := set_Stream true req in
  FromChatCompletionRequest req.

Definition post (c : Client) (reqBody : string) : Request :=
  setHeaders c (NewRequest "POST" (baseUrl c ++ "/v1/completions") reqBody).

(** [Client.CreateChatCompletion]: the provider requests that were marshalled,
    the HTTP requests that were sent, and what the source returns. *)
Definition CreateChatCompletion (c : Client) (req : ChatCompletionRequest P) :
  list TogetherChatRequest * list Request * (error + ChatResponse) :=
  let togReq := completion_request req in
  match json_Marshal togReq with
  | inl err =>
      ([togReq], [],
       inl (fmt_Errorf_w "create chat completion marshal request error: " err))
  | inr reqBody =>
      let httpReq := post c reqBody in
      ([togReq], [httpReq],
       match session_Do httpReq with
       | inl err => inl (fmt_Errorf_w "create chat completion error: " err)
       | inr resp =>
           match json_Decode (RespBody resp) with
           | inl err =>
               inl (fmt_Errorf_w
                      "create chat completion decode response error: " err)
           | inr togResp => inr (ToChatCompletionResponse togResp)
           end
       end)
  end.

Definition trace : Type := list (action Request StreamResponse).

(** The [for { select { ... } }] loop over what arrives on the two inner
    channels. The flag tells whether the function returned: when nothing more
    arrives, the [select] waits for ever. *)
Fixpoint select_loop (arrivals : list (inner TogetherChatResponse)) : trace * bool :=
  match arrivals with
  | [] => ([], false)
  | InnerData data :: rest =>
      let (t, returned) := select_loop rest in
      (SendData (ToChatCompletionStreamResponse data) :: t, returned)
  | InnerErr err :: _ => ([SendErr err], true)
  end.

(** [Client.CreateChatCompletionStream]: the provider requests that were
    marshalled, the actions of the goroutine, and whether it returned. *)
Definition CreateChatCompletionStream (c : Client) (req : ChatCompletionRequest P) :
  list TogetherChatRequest * (trace * bool) :=
  let togReq := stream_request req in
  ([togReq],
   match json_Marshal togReq with
   | inl err =>
       ([SendErr (fmt_Errorf_w
                    "create chat completion stream marshal request error: " err)],
        true)
   | inr reqBody =>
       let httpReq := post c reqBody in
       match session_Do httpReq with
       | inl err =>
           ([Upstream httpReq;
             SendErr (fmt_Errorf_w "create chat completion stream error: " err)],
            true)
       | inr resp =>
           let (t, returned) := select_loop (ParseSSE (RespBody resp)) in
           (Upstream httpReq :: t, returned)
       end
   end).

(** Whether [llm.ParseSSE] sends on its error channel at all. *)
Definition delivers_terminal (arrivals : list (inner TogetherChatResponse)) : bool :=
  existsb (fun m => match m with InnerErr _ => true | InnerData _ => false end)
    arrivals.

(** In the run of [CreateChatCompletionStream] on [req], [llm.ParseSSE], if
    the run gets as far as starting it, signals on its error channel. *)
Definition parser_signals (c : Client) (req : ChatCompletionRequest P) : Prop :=
  forall reqBody resp,
    json_Marshal (stream_request req) = inr reqBody ->
    session_Do (post c reqBody) = inr resp ->
    delivers_terminal (ParseSSE (RespBody resp)) = true.

(** The sends of a [ParseSSE] that forwards the chunks [datas] and then
    signals [err]. *)
Definition parsed (datas : list TogetherChatResponse) (err : error) :
  list (inner TogetherChatResponse) :=
  map InnerData datas ++ [InnerErr err].

(** The records the adapter sends for the chunks [datas]. *)
Definition relayed (datas : list TogetherChatResponse) : trace :=
  map SendData (map ToChatCompletionStreamResponse datas).

(** What the adapter does with one message of [llm.ParseSSE]: a chunk goes,
    converted, to the data channel, an error to the error channel. *)
Definition forward (m : inner TogetherChatResponse) :
  action Request StreamResponse :=
  match m with
  | InnerData data => SendData (ToChatCompletionStreamResponse data)
  | InnerErr err => SendErr err
  end.

(** The messages of [llm.ParseSSE] up to its first signal on the error
    channel, that signal included. *)
Fixpoint until_signal (arrivals : list (inner TogetherChatResponse)) :
  list (inner TogetherChatResponse) :=
  match arrivals with
  | [] => []
  | InnerData data :: rest => InnerData data :: until_signal rest
  | InnerErr err :: _ => [InnerErr err]
  end.

(** The actions of the goroutine of [CreateChatCompletionStream], and whether
    it returned. *)
Definition stream_actions (c : Client) (req : ChatCompletionRequest P) : trace :=
  fst (snd (CreateChatCompletionStream c req)).

Definition stream_returned (c : Client) (req : ChatCompletionRequest P) : bool :=
  snd (snd (CreateChatCompletionStream c req)).

End Client.
End Together.

(** ** [llm.ParseSSE], the read loop the Together adapter starts *)

Module SSE.
Import LLM HTTP Together.

Section Parser.
Context {R : Type}.
Variable payload : string -> option string.
Variable decode : string -> error + R.

(** Modelled from the spec: the loop of [llm.ParseSSE] over the lines of a
    body. [llm.ParseSSE] is a function of package [llm] of this repository
    that is not under src/. The spec has the read loop "read until EOF,
    forward each chunk", has "network errors and malformed-frame errors ...
    forwarded as the terminal error signal", and has "exactly one terminal
    signal (EOF-equivalent or error) ... always delivered, exactly once,
    even if the upstream connection drops mid-stream". The wire format is
    not in the spec: [payload] tells a line that is a data frame, giving its
    JSON, from a line to pass over, and [decode] decodes the JSON of a
    frame. [last] is how the reads of the body end. *)
Fixpoint parse_lines (ls : list string) (last : error) : list (inner R) :=
  match ls with
  | [] => [InnerErr last]
  | line :: rest =>
      match payload line with
      | None => parse_lines rest last
      | Some json =>
          match decode json with
          | inl err => [InnerErr err]
          | inr chunk => InnerData chunk :: parse_lines rest last
          end
      end
  end.

(** Modelled from the spec: [llm.ParseSSE] on a response body, the sends it
    performs in order; see [parse_lines]. *)
Definition ParseSSE (body : ReadCloser) : list (inner R) :=
  parse_lines (lines (content body)) (end_of_body body).

End Parser.

(** Modelled from the spec: the environment [E] of the Together adapter with
    [llm.ParseSSE] as the spec has it; see [parse_lines]. *)
Definition with_ParseSSE {P ChatResponse StreamResponse : Type}
  (E : Env P ChatResponse StreamResponse)
  (payload : string -> option string)
  (decode : string -> error + TogetherChatResponse (Env := E)) :
  Env P ChatResponse StreamResponse :=
  {| TogetherChatRequest := TogetherChatRequest (Env := E);
     TogetherChatResponse := TogetherChatResponse (Env := E);
     FromChatCompletionRequest := FromChatCompletionRequest (Env := E);
     ProviderStream := ProviderStream (Env := E);
     ToChatCompletionResponse := ToChatCompletionResponse (Env := E);
     ToChatCompletionStreamResponse := ToChatCompletionStreamResponse (Env := E);
     json_Marshal := json_Marshal (Env := E);
     json_Decode := json_Decode (Env := E);
     session_Do := session_Do (Env := E);
     Together.ParseSSE := ParseSSE payload decode |}.

End SSE.

(** ** [internal/ports/httpserver/handler]: the SSE relay *)

Module Handler.
Import HTTP.

(** What a handler does to the echo response, in order. [Respond] is the
    final [c.String(code, body)] whose result the handler returns. *)
Inductive effect : Type :=
| SetHeader (key value : string)
| WriteHeader (code : Z)
| Write (chunk : string)
| Flush
| Respond (code : Z) (body : string).

Definition done_line : string :=
  "data: [DONE]" ++ String newline (String newline EmptyString).

(** [fmt.Sprintf("data: %s\n\n", msg)] *)
Definition data_frame (msg : string) : string :=
  "data: " ++ msg ++ String newline (String newline EmptyString).

(** The JSON encoder and the response writer: [response_Write written chunk]
    is the error, if any, of writing [chunk] after the chunks [written]. *)
Class Echo (Data : Type) : Type := {
  json_Marshal : Data -> error + string;
  response_Write : list string -> string -> option error
}.

(** The chunks a handler has written so far. *)
Fixpoint written (log : list effect) : list string :=
  match log with
  | [] => []
  | Write chunk :: log' => chunk :: written log'
  | _ :: log' => written log'
  end.

Definition responses (log : list effect) : list (Z * string) :=
  flat_map (fun e => match e with Respond c b => [(c, b)] | _ => [] end) log.

Section OpenAIHandler.
Context {Data : Type} `{EC : Echo Data}.

(** The [for] loop of [OpenAIHandler.chatStream] over the results of the
    successive [stream.Recv()] calls; once they are used up the stream has
    ended and [Recv] reports [io.EOF]. [w] holds the chunks written so far. *)
Fixpoint recv_loop (w : list string) (stream : list (Data * option error)) :
  list effect :=
  match stream with
  | [] => [Respond StatusOK done_line]
  | (resp, err) :: rest =>
      if match err with Some e => errors_Is e io_EOF | None => false end then
        [Respond StatusOK done_line]
      else
        match json_Marshal resp with
        | inl err => [Respond StatusInternalServerError (Error err)]
        | inr msg =>
            match response_Write w (data_frame msg) with
            | Some err => [Respond StatusInternalServerError (Error err)]
            | None =>
                Write (data_frame msg) :: Flush
                  :: recv_loop (w ++ [data_frame msg]) rest
            end
        end
  end.

(** [OpenAIHandler.chatStream], given what [h.openai.ChatStream] returns. *)
Definition OpenAI_chatStream (ChatStream : error + list (Data * option error)) :
  list effect :=
  match ChatStream with
  | inl err => [Respond StatusInternalServerError (Error err)]
  | inr stream =>
      SetHeader "Content-Type" "application/json; charset=UTF-8"
        :: WriteHeader StatusOK :: recv_loop [] stream
  end.

End OpenAIHandler.

Section LLMHandler.
Context {Req Data : Type} `{EC : Echo Data}.

(** One round of the [select] of [LLMHandler.chatStream]: what the handler
    does with what arrives, after the chunks [w], and whether it returns.
    An upstream request of the goroutine is not a message and changes
    nothing. *)
Definition select_case (w : list string) (arrival : action Req Data) :
  list effect * bool :=
  match arrival with
  | Upstream _ => ([], false)
  | SendData data =>
      match json_Marshal data with
      | inl err => ([Respond StatusInternalServerError (Error err)], true)
      | inr msg =>
          match response_Write w (data_frame msg) with
          | Some err => ([Respond StatusInternalServerError (Error err)], true)
          | None => ([Write (data_frame msg); Flush], false)
          end
      end
  | SendErr err =>
      if errors_Is err io_EOF then ([Respond StatusOK done_line], true)
      else ([Respond StatusInternalServerError (Error err)], true)
  end.

(** The [for { select { ... } }] loop over what arrives on [dataChan] and
    [errChan]. The flag tells whether the handler returned: when nothing more
    arrives, the [select] waits for ever. *)
Fixpoint select_loop (w : list string) (arrivals : list (action Req Data)) :
  list effect * bool :=
  match arrivals with
  | [] => ([], false)
  | arrival :: rest =>
      let (log, returned) := select_case w arrival in
      if returned then (log, true)
      else
        let (log', returned') := select_loop (w ++ written log) rest in
        (log ++ log', returned')
  end.

(** [LLMHandler.chatStream], given the actions of the goroutine it starts. *)
Definition LLM_chatStream (producer : list (action Req Data)) : list effect * bool :=
  let (log, returned) := select_loop [] producer in
  (SetHeader "Content-Type" "text/event-stream"
     :: SetHeader "Cache-Control" "no-cache"
     :: SetHeader "Connection" "keep-alive"
     :: WriteHeader StatusOK :: log,
   returned).

End LLMHandler.
End Handler.

(** ** The goroutines of one streaming request

    [LLMHandler.chatStream] starts the adapter on a goroutine of its own and
    selects over [dataChan] and [errChan]; the Together adapter in turn starts
    [llm.ParseSSE] on a goroutine of its own and selects over
    [innerDataChan] and [innerErrChan]. All four channels are unbuffered: a
    send completes when the goroutine at the other end receives, and every
    step below is one such hand-over. Each function closes the channels it
    made when it returns ([defer close]); a send on a closed channel
    panics. *)

Module Goroutines.
Import LLM HTTP.

Section Pipeline.
Context {P ChatResponse Data : Type} `{E : Together.Env P ChatResponse Data}
  `{EC : Handler.Echo Data}.

(** The adapter goroutine: waiting in its [select], blocked in a send on
    [dataChan] or on [errChan], or returned. *)
Inductive adapter : Type :=
| Selecting
| SendingData (d : Data)
| SendingErr (e : error)
| Returned.

(** The handler: in its [select] after the chunks [w], or returned. *)
Inductive handler : Type :=
| Looping (w : list string)
| Finished.

Record state : Type := {
  parser : list (Together.inner Together.TogetherChatResponse);
  adapter_of : adapter;
  handler_of : handler;
  log : list Handler.effect;
  panicked : bool
}.

(** The handler receives [arrival], after the chunks [w]. *)
Definition receive (w : list string) (arrival : action Request Data) :
  handler * list Handler.effect :=
  let (effects, returned) := Handler.select_case w arrival in
  (if returned then Finished else Looping (w ++ Handler.written effects), effects).

(** One hand-over, if any goroutine can move. *)
Definition step (s : state) : option state :=
  if panicked s then None
  else
    match adapter_of s, handler_of s, parser s with
    | Selecting, _, Together.InnerData data :: rest =>
        Some {| parser := rest;
                adapter_of := SendingData (Together.ToChatCompletionStreamResponse data);
                handler_of := handler_of s; log := log s; panicked := false |}
    | Selecting, _, Together.InnerErr err :: rest =>
        Some {| parser := rest; adapter_of := SendingErr err;
                handler_of := handler_of s; log := log s; panicked := false |}
    | Selecting, _, [] => None
    | SendingData d, Looping w, _ =>
        let (h, effects) := receive w (SendData d) in
        Some {| parser := parser s; adapter_of := Selecting;
                handler_of := h; log := log s ++ effects; panicked := false |}
    | SendingErr e, Looping w, _ =>
        let (h, effects) := receive w (SendErr e) in
        Some {| parser := parser s; adapter_of := Returned;
                handler_of := h; log := log s ++ effects; panicked := false |}
    | SendingData _, Finished, _ | SendingErr _, Finished, _ =>
        Some {| parser := parser s; adapter_of := adapter_of s;
                handler_of := Finished; log := log s; panicked := true |}
    | Returned, _, _ :: _ =>
        Some {| parser := parser s; adapter_of := Returned;
                handler_of := handler_of s; log := log s; panicked := true |}
    | Returned, _, [] => None
    end.

(** [n] hand-overs in a row; [None] when the goroutines cannot make that
    many. *)
Fixpoint run (n : nat) (s : state) : option state :=
  match n with
  | O => Some s
  | S n' =>
      match step s with
      | Some s' => run n' s'
      | None => None
      end
  end.

(** The request is over: nothing is left to send, the adapter and the handler
    have returned, and no goroutine panicked. *)
Definition completed (s : state) : Prop :=
  parser s = [] /\ adapter_of s = Returned /\ handler_of s = Finished /\
  panicked s = false.

(** A goroutine is blocked for good: the request is not over and no
    hand-over is possible. *)
Definition stuck (s : state) : Prop :=
  step s = None /\ ~ completed s /\ panicked s = false.

(** The goroutines when the handler enters its loop: the adapter has
    marshalled the request and called the upstream, and is in its [select]
    with [llm.ParseSSE] running, or is about to report that the request could
    not be made. *)
Definition start (c : Together.Client) (req : ChatCompletionRequest P) : state :=
  match Together.json_Marshal (Together.stream_request req) with
  | inl err =>
      {| parser := [];
         adapter_of :=
           SendingErr
             (fmt_Errorf_w
                "create chat completion stream marshal request error: " err);
         handler_of := Looping []; log := []; panicked := false |}
  | inr reqBody =>
      match Together.session_Do (Together.post c reqBody) with
      | inl err =>
          {| parser := [];
             adapter_of :=
               SendingErr
                 (fmt_Errorf_w "create chat completion stream error: " err);
             handler_of := Looping []; log := []; panicked := false |}
      | inr resp =>
          {| parser := Together.ParseSSE (RespBody resp);
             adapter_of := Selecting;
             handler_of := Looping []; log := []; panicked := false |}
      end
  end.

(** The handler drains: every record is encoded and every write succeeds, so
    the handler leaves its loop at the terminal signal only. *)
Definition drains : Prop :=
  (forall d : Data, exists msg, Handler.json_Marshal d = inr msg) /\
  (forall w chunk, Handler.response_Write w chunk = None).

(** The encoding of a record that the handler writes. *)
Definition encode (d : Data) : string :=
  match Handler.json_Marshal d with
  | inr msg => msg
  | inl _ => ""
  end.

(** What a draining handler does for the records [ds], and for the terminal
    signal [e]. *)
Definition relay (ds : list Data) : list Handler.effect :=
  flat_map
    (fun d => [Handler.Write (Handler.data_frame (encode d)); Handler.Flush]) ds.

Definition frames (ds : list Data) : list string :=
  map (fun d => Handler.data_frame (encode d)) ds.

Definition respond (e : error) : Handler.effect :=
  if errors_Is e io_EOF then Handler.Respond StatusOK Handler.done_line
  else Handler.Respond StatusInternalServerError (Error e).

End Pipeline.
End Goroutines.

(** ** [usage]: token accounting *)

Module Usage.

(** Go's [int] on the 64-bit targets: the integers from [-2^63] to
    [2^63 - 1], addition wrapping around. *)
Definition int_max : Z := 2 ^ 63 - 1.
Definition int_wrap (z : Z) : Z := (z + 2 ^ 63) mod 2 ^ 64 - 2 ^ 63.
Definition int_add (a b : Z) : Z := int_wrap (a + b).

(** [len] of a slice *)
Definition len {A : Type} (s : list A) : Z := Z.of_nat (List.length s).

(** [openai.ChatCompletionMessage]: the fields that carry text. *)
Record ChatCompletionMessage : Type := {
  Role : string;
  Content : string;
  Name : string
}.

(** [Token] embeds a [*tiktoken.Tiktoken], which is nil when no encoding is
    known for the model. A non-nil one is the function
    [text => Encode(text, nil, nil)] from a text to its token ids. *)
Record Token : Type := {
  Tiktoken : option (string -> list Z)
}.

(** [tiktoken.EncodingForModel] *)
Class Encodings : Type := {
  EncodingForModel : string -> error + (string -> list Z)
}.

(** [NewTikToken]: the error is logged and the nil encoding kept. *)
Definition NewTikToken `{Encodings} (model : string) : Token :=
  match EncodingForModel model with
  | inl _ => {| Tiktoken := None |}
  | inr tk => {| Tiktoken := Some tk |}
  end.

(** [Token.Encode]; [None] is the panic of calling through the nil pointer. *)
Definition Encode (t : Token) (text : string) : option Z :=
  match Tiktoken t with
  | None => None
  | Some tk => Some (len (tk text))
  end.

(** The [for _, message := range messages] loop, from a value of
    [totalTokens]. *)
Fixpoint range_messages (t : Token) (totalTokens : Z)
  (messages : list ChatCompletionMessage) : option Z :=
  match messages with
  | [] => Some totalTokens
  | message :: rest =>
      match Encode t (Content message) with
      | None => None
      | Some n => range_messages t (int_add totalTokens n) rest
      end
  end.

(** [Token.CalculateTotalTokensFromMessages] *)
Definition CalculateTotalTokensFromMessages (t : Token)
  (messages : list ChatCompletionMessage) : option Z :=
  range_messages t 0 messages.

(** The sum the accounting is meant to compute, over the integers: the
    number of tokens of each message's [Content], added up in order. *)
Fixpoint sum_of_lengths (tk : string -> list Z)
  (messages : list ChatCompletionMessage) : Z :=
  match messages with
  | [] => 0
  | message :: rest => len (tk (Content message)) + sum_of_lengths tk rest
  end.

End Usage.

(** ** [bard]: the Bard web client *)

Module Bard.
Import HTTP.

Definition bardHome : string := "https://bard.google.com/".
Definition cookieTokenKey : string := "__Secure-1PSID".

(** The package-level [headers] map; a Go map is ranged over in no fixed
    order, this is one of them. *)
Definition headers : list (string * string) :=
  [("Host", "bard.google.com");
   ("X-Same-Domain", "1");
   ("User-Agent",
    "Mozilla/5.0 (Windows NT 10.0; WOW64) AppleWebKit/537.36 (KHTML, like Gecko) Chrome/114.0.0.0 Safari/537.36");
   ("Content-Type", "application/x-www-form-urlencoded;charset=utf-8");
   ("Origin", "https://bard.google.com");
   ("Referer", "https://bard.google.com/")].

(** The fields of [Client] that are plain data. [cookies] is a Go map: the
    list holds its entries in the order in which the run ranges over them,
    which Go does not fix. *)
Record Client : Type := {
  token : string;
  snlm0e : string;
  cfb2h : string;
  cookies : list (string * string);
  timeout : Z
}.

Definition ClientOption : Type := Client -> Client.

Definition WithTimeout (t : Z) : ClientOption :=
  fun bc =>
    {| token := token bc; snlm0e := snlm0e bc; cfb2h := cfb2h bc;
       cookies := cookies bc; timeout := t |}.

Definition WithCookies (cs : list (string * string)) : ClientOption :=
  fun bc =>
    {| token := token bc; snlm0e := snlm0e bc; cfb2h := cfb2h bc;
       cookies := cs; timeout := timeout bc |}.

(** [strings.HasSuffix]:
    [len(s) >= len(suffix) && s[len(s)-len(suffix):] == suffix] *)
Definition HasSuffix (s suffix : string) : bool :=
  Nat.leb (String.length suffix) (String.length s)
  && String.eqb (drop (String.length s - String.length suffix) s) suffix.

(** [jar.SetCookies]: a cookie replaces the one of the same name in the jar,
    which keeps its place; a cookie of a new name comes last. (All the
    cookies of the client have the one domain and path.) *)
Fixpoint jar_set (jar : list (string * string)) (name value : string) :
  list (string * string) :=
  match jar with
  | [] => [(name, value)]
  | (n, v) :: rest =>
      if String.eqb n name then (n, value) :: rest
      else (n, v) :: jar_set rest name value
  end.

Definition SetCookies (jar cookies : list (string * string)) :
  list (string * string) :=
  fold_left (fun j kv => jar_set j (fst kv) (snd kv)) cookies jar.

(** The session, whose cookie jar holds the cookies set at construction, and
    [regexp]: [FindStringSubmatch pattern s] is
    [regexp.MustCompile(pattern).FindStringSubmatch(s)]. *)
Class Net : Type := {
  session_Do : Request -> error + Response;
  FindStringSubmatch : string -> string -> list string
}.

Section Client.
Context `{N : Net}.

Definition setHeaders (req : Request) : Request :=
  fold_left (fun r kv => Header_Add (fst kv) (snd kv) r) headers req.

(** [io.ReadAll]: the end of the body is no error. *)
Definition ReadAll (r : ReadCloser) : string * option error :=
  match failure r with
  | Some e => if error_eqb e io_EOF then (content r, None) else (content r, Some e)
  | None => (content r, None)
  end.

(** The closure [extractFromHTML] of [initMeta]. *)
Definition extractFromHTML (body name : string) : error + string :=
  match FindStringSubmatch (name ++ quote ++ ":" ++ quote ++ "(.*?)" ++ quote) body with
  | [_; m] => inr m
  | _ =>
      inl (errors_New
             (name ++ " value not found in response. Check __Secure-1PSID value."))
  end.

(** [initMeta]: the requests sent, the client as updated, and the error. *)
Definition initMeta (jar : list (string * string)) (b : Client) :
  list Request * (Client * option error) :=
  let req := NewRequest "GET" bardHome "" in
  let req := setHeaders req in
  let req := fold_left (fun r kv => AddCookie (fst kv) (snd kv) r) jar req in
  ([req],
   match session_Do req with
   | inl err => (b, Some err)
   | inr resp =>
       if negb (StatusCode resp =? StatusOK)%Z then
         (b, Some (errors_New ("Response code not 200. Response Status is "
                               ++ itoa (StatusCode resp))))
       else
         match ReadAll (RespBody resp) with
         | (_, Some err) => (b, Some err)
         | (body, None) =>
             match extractFromHTML body "SNlM0e" with
             | inl err => (b, Some err)
             | inr v1 =>
                 let b1 :=
                   {| token := token b; snlm0e := v1; cfb2h := cfb2h b;
                      cookies := cookies b; timeout := timeout b |} in
                 match extractFromHTML body "cfb2h" with
                 | inl err => (b1, Some err)
                 | inr v2 =>
                     ({| token := token b1; snlm0e := snlm0e b1; cfb2h := v2;
                         cookies := cookies b1; timeout := timeout b1 |},
                      None)
                 end
             end
         end
   end).

(** [NewBardClient]: the requests sent over the network, and the pair the
    source returns, the client ([None] for nil) and the error. The jar is
    filled with the token cookie and then with the cookies of the map, so
    that a cookie of the map with the name of the token cookie replaces
    it. *)
Definition NewBardClient (tok : string) (opts : list ClientOption) :
  list Request * (option Client * option error) :=
  if String.eqb tok "" || negb (HasSuffix tok ".") then
    ([],
     (None,
      Some (errors_New
              ("__Secure-1PSID value must end with a single dot. Enter correct __Secure-1PSID value: "
               ++ tok))))
  else
    let b :=
      {| token := tok; snlm0e := ""; cfb2h := ""; cookies := []; timeout := 0 |} in
    let b := fold_left (fun b opt => opt b) opts b in
    let jar := SetCookies [] ((cookieTokenKey, token b) :: cookies b) in
    let (calls, r) := initMeta jar b in
    (calls, (Some (fst r), snd r)).

(** The last byte of a string, if it has one. *)
Fixpoint last_byte (s : string) : option ascii :=
  match s with
  | EmptyString => None
  | String ch EmptyString => Some ch
  | String _ s' => last_byte s'
  end.

(** The token is not empty and ends with the character [.]. *)
Definition ends_with_dot (tok : string) : bool :=
  match last_byte tok with
  | Some ch => Ascii.eqb ch "."%char
  | None => false
  end.

(** The error for a token that is refused. *)
Definition token_error (tok : string) : error :=
  errors_New
    ("__Secure-1PSID value must end with a single dot. Enter correct __Secure-1PSID value: "
     ++ tok).

End Client.
End Bard.

(** ** [usage]: saving the count *)

Module UsageSave.
Import Usage.

(** [llm.LlmUsages], the row that is written. *)
Record LlmUsages : Type := {
  UserId : string;
  ApiKey : string;
  TokenUsage : Z;
  Model : string
}.

(** What the request context and the database give: [ctxutils.GetUserId],
    [ctxutils.GetApiKey], [llm.SaveLlmUsage] with the error it returns for a
    row, and the dao's [RunInTransaction], which runs its function once and
    turns the error of the function into the error of the transaction. *)
Class Store : Type := {
  GetUserId : string;
  GetApiKey : string;
  SaveLlmUsage : LlmUsages -> option error;
  RunInTransaction : option error -> option error
}.

Section Save.
Context `{EN : Encodings} `{ST : Store}.

(** [Save]: the rows handed to [llm.SaveLlmUsage], and the error returned.
    [int64(usage)] is [usage], [int] having 64 bits. *)
Definition Save (model : string) (usage : Z) : list LlmUsages * option error :=
  let row :=
    {| UserId := GetUserId; ApiKey := GetApiKey; TokenUsage := usage;
       Model := model |} in
  ([row], RunInTransaction (SaveLlmUsage row)).

(** [SaveFromMessages]; [None] is a panic. *)
Definition SaveFromMessages (model : string)
  (messages : list ChatCompletionMessage) :
  option (list LlmUsages * option error) :=
  let tk := NewTikToken model in
  match CalculateTotalTokensFromMessages tk messages with
  | None => None
  | Some tokenUsage => Some (Save model tokenUsage)
  end.

(** [SaveFromText]; [None] is a panic. *)
Definition SaveFromText (model text : string) :
  option (list LlmUsages * option error) :=
  let tk := NewTikToken model in
  match Encode tk text with
  | None => None
  | Some tokenUsage => Some (Save model tokenUsage)
  end.

End Save.
End UsageSave.

(** ** [handler]: the relay of conversation messages *)

Module Messages.
Import HTTP Handler.

Section LLMHandler.
Context {Req Data : Type} `{EC : Echo Data}.

(** [LLMHandler.createMessageStream], given the actions of the goroutine
    [svc.CreateMessageStream] it starts: the headers and the loop are those
    of [LLMHandler.chatStream]. *)
Definition LLM_createMessageStream (producer : list (action Req Data)) :
  list effect * bool :=
  let (log, returned) := select_loop [] producer in
  (SetHeader "Content-Type" "text/event-stream"
     :: SetHeader "Cache-Control" "no-cache"
     :: SetHeader "Connection" "keep-alive"
     :: WriteHeader StatusOK :: log,
   returned).

End LLMHandler.
End Messages.

(** ** [claudeweb]: organizations and conversations *)

Module ClaudeWebAPI.
Import HTTP.

(** [req.Header.Values(key)]: the values under the canonical form of
    [key]. *)
Definition Header_Values (key : string) (req : Request) : list string :=
  let key := CanonicalMIMEHeaderKey key in
  map snd (filter (fun kv => String.eqb (fst kv) key) (Header req)).

(** [io.ReadAll]: the bytes read and the read error; the end of the body is
    no error. *)
Definition ReadAll (r : ReadCloser) : string * option error :=
  match failure r with
  | Some e => if error_eqb e io_EOF then (content r, None) else (content r, Some e)
  | None => (content r, None)
  end.

Record UpdateConversationRequest : Type := {
  OrganizationUUID : string;
  ConversationUUID : string;
  Title : string
}.

(** A call returns a value, or panics. *)
Inductive result (A : Type) : Type :=
| Returns (a : A)
| Panics.
Arguments Returns {A} a.
Arguments Panics {A}.

(** [Organization] and [Conversation] are declared outside these sources;
    the client reads the [UUID] of an organization. The JSON codec:
    [Unmarshal_orgs] and [Unmarshal_conversations] decode into a nil slice
    of pointers, an element being nil ([None]) where the JSON has [null],
    [Unmarshal_conversation] into a zero [Conversation]; [Marshal_params]
    encodes the map of [CreateConversation], given by its entries;
    [uuid_NewString] is what [uuid.NewString()] draws. *)
Class Codec (Organization Conversation : Type) : Type := {
  UUID : Organization -> string;
  Unmarshal_orgs : string -> error + list (option Organization);
  Unmarshal_conversations : string -> error + list (option Conversation);
  Unmarshal_conversation : string -> error + Conversation;
  Marshal_params : list (string * string) -> string;
  Marshal_update : UpdateConversationRequest -> string;
  uuid_NewString : string
}.

Section Client.
Context {O Organization Conversation : Type} `{S : ClaudeWeb.Session O}
  `{C : Codec Organization Conversation}.

(** The part the functions below share: read the whole body and decode it,
    [name] being the function's name in the messages. *)
Definition read_and_decode {A : Type} (name : string)
  (Unmarshal : string -> error + A) (resp : ReadCloser) : error + A :=
  match ReadAll resp with
  | (_, Some err) =>
      inl (fmt_Errorf_v (name ++ " read response body err: ") err)
  | (body, None) =>
      match Unmarshal body with
      | inl err =>
          inl (fmt_Errorf_v (name ++ " unmarshal response body err: ") err)
      | inr v => inr v
      end
  end.

(** [GetOrganizations]: the requests sent, and the result. *)
Definition GetOrganizations (c : ClaudeWeb.ClaudeWeb) :
  list Request * (error + list (option Organization)) :=
  let uri := (ClaudeWeb.defaultHost ++ "/api/organizations")%string in
  let req := NewRequest "GET" uri "" in
  let '(sent, (_, res)) := ClaudeWeb.request c req in
  ([sent],
   match res with
   | inl err => inl err
   | inr resp => read_and_decode "GetOrganizations" Unmarshal_orgs resp
   end).

(** [New]: [None] is the nil client; [orgs[0].UUID] panics when the first
    organization is a nil pointer. *)
Definition New (sessionKey : string) :
  list Request * result (option ClaudeWeb.ClaudeWeb) :=
  let claudeWeb :=
    {| ClaudeWeb.sessionKey := sessionKey; ClaudeWeb.orgId := "";
       ClaudeWeb.model := ClaudeWeb.defaultModel |} in
  let (calls, res) := GetOrganizations claudeWeb in
  (calls,
   match res with
   | inl _ => Returns None
   | inr [] => Returns None
   | inr (None :: _) => Panics
   | inr (Some org :: _) =>
       Returns
         (Some {| ClaudeWeb.sessionKey := ClaudeWeb.sessionKey claudeWeb;
                  ClaudeWeb.orgId := UUID org;
                  ClaudeWeb.model := ClaudeWeb.model claudeWeb |})
   end).

Definition GetOrgId (c : ClaudeWeb.ClaudeWeb) : string := ClaudeWeb.orgId c.
Definition GetModel (c : ClaudeWeb.ClaudeWeb) : string := ClaudeWeb.model c.

Definition conversations_uri (c : ClaudeWeb.ClaudeWeb) : string :=
  (ClaudeWeb.defaultHost ++ "/api/organizations/" ++ ClaudeWeb.orgId c
     ++ "/chat_conversations")%string.

Definition conversation_uri (c : ClaudeWeb.ClaudeWeb) (id : string) : string :=
  (ClaudeWeb.defaultHost ++ "/api/organizations/" ++ ClaudeWeb.orgId c
     ++ "/chat_conversations/" ++ id)%string.

Definition ListConversations (c : ClaudeWeb.ClaudeWeb) :
  list Request * (error + list (option Conversation)) :=
  let req := NewRequest "GET" (conversations_uri c) "" in
  let '(sent, (_, res)) := ClaudeWeb.request c req in
  ([sent],
   match res with
   | inl err => inl err
   | inr resp => read_and_decode "ListConversations" Unmarshal_conversations resp
   end).

Definition GetConversation (c : ClaudeWeb.ClaudeWeb) (id : string) :
  list Request * (error + Conversation) :=
  let req := NewRequest "GET" (conversation_uri c id) "" in
  let '(sent, (_, res)) := ClaudeWeb.request c req in
  ([sent],
   match res with
   | inl err => inl err
   | inr resp => read_and_decode "GetConversation" Unmarshal_conversation resp
   end).

Definition DeleteConversation (c : ClaudeWeb.ClaudeWeb) (id : string) :
  list Request * option error :=
  let req := NewRequest "DELETE" (conversation_uri c id) "" in
  let '(sent, (_, res)) := ClaudeWeb.request c req in
  ([sent], match res with inl err => Some err | inr _ => None end).

Definition CreateConversation (c : ClaudeWeb.ClaudeWeb) (name : string) :
  list Request * (error + Conversation) :=
  let params := [("name", name); ("uuid", uuid_NewString)] in
  let paramsBytes := Marshal_params params in
  let req := NewRequest "POST" (conversations_uri c) paramsBytes in
  let '(sent, (statusCode, res)) := ClaudeWeb.request c req in
  ([sent],
   match res with
   | inl err =>
       inl (errors_New ("CreateConversation status_code " ++ itoa statusCode
                        ++ " err: " ++ Error err))
   | inr resp => read_and_decode "CreateConversation" Unmarshal_conversation resp
   end).

Definition UpdateConversation (c : ClaudeWeb.ClaudeWeb) (id name : string) :
  list Request * option error :=
  let uri := (ClaudeWeb.defaultHost ++ "/api/rename_chat")%string in
  let updateReq :=
    {| OrganizationUUID := ClaudeWeb.orgId c; ConversationUUID := id;
       Title := name |} in
  let paramsBytes := Marshal_update updateReq in
  let req := NewRequest "POST" uri paramsBytes in
  let '(sent, (statusCode, res)) := ClaudeWeb.request c req in
  ([sent],
   match res with
   | inl err =>
       Some (errors_New ("UpdateConversation status_code " ++ itoa statusCode
                         ++ " err: " ++ Error err))
   | inr _ => None
   end).

End Client.
End ClaudeWebAPI.

(** ** [together]: the list of models and its cache file *)

Module TogetherModels.
Import HTTP.

Record Model : Type := {
  Id : string;
  Name : string;
  DisplayName : string;
  DisplayType : string;
  Description : string;
  ContextLength : Z;
  ChatPrompt : string;
  PromptFormat : string;
  Stop : list string
}.

(** The session, the JSON codec and the file system. [J] is the type of the
    values [json] decodes into [any]; [Decode_any] decodes a response body
    into a [[]any], [Encode_any] is what [json.Encoder.Encode] writes for
    one, [Decode_models] decodes the bytes of a file into a [[]Model];
    [os_Create] is the error, if any, of creating the cache file. *)
Class Files (J : Type) : Type := {
  session_Do : Request -> error + Response;
  Decode_any : ReadCloser -> error + list J;
  Encode_any : list J -> error + string;
  Decode_models : string -> error + list Model;
  os_Create : option error
}.

(** The file [cacheModelsFile]: absent, or its bytes. [os.Stat] and
    [os.Open] fail when it is absent. *)
Definition cache : Type := option string.

Section Client.
Context {J : Type} `{F : Files J}.

(** The loop of [readModelsCache] over the decoded models. *)
Fixpoint chat_names (models : list Model) : list string :=
  match models with
  | [] => []
  | model :: rest =>
      if String.eqb (DisplayType model) "chat" then Name model :: chat_names rest
      else chat_names rest
  end.

(** [readModelsCache]; the empty and the nil slice are both the empty
    list. *)
Definition readModelsCache (file : cache) : list string :=
  match file with
  | None => []
  | Some bytes =>
      match Decode_models bytes with
      | inl _ => []
      | inr models => chat_names models
      end
  end.

(** [saveModelsCache]: the file afterwards. [os.Create] leaves an empty
    file, which stays empty when the encoding fails. *)
Definition saveModelsCache (models : list J) (file : cache) : cache :=
  match os_Create with
  | Some _ => file
  | None =>
      match Encode_any models with
      | inl _ => Some ""
      | inr bytes => Some bytes
      end
  end.

(** [getModelsFromServer]: the requests sent, and the models. *)
Definition getModelsFromServer (c : Together.Client) : list Request * list J :=
  let req := NewRequest "GET" (Together.baseUrl c ++ "/models/info") "" in
  let req := Together.setHeaders c req in
  ([req],
   match session_Do req with
   | inl _ => []
   | inr resp =>
       match Decode_any (RespBody resp) with
       | inl _ => []
       | inr models => models
       end
   end).

(** [ListModels]: the requests sent, the file afterwards, and the names. *)
Definition ListModels (c : Together.Client) (file : cache) :
  list Request * cache * list string :=
  match file with
  | None =>
      let (calls, models) := getModelsFromServer c in
      let file' := saveModelsCache models file in
      (calls, file', readModelsCache file')
  | Some _ => ([], file, readModelsCache file)
  end.

End Client.
End TogetherModels.

(** ** [bard]: asking *)

Module BardAsk.
Import HTTP Bard.

Definition bardUrl : string :=
  "https://bard.google.com/_/BardChatUi/data/assistant.lamda.BardFrontendService/StreamGenerate".

(** The values the client hands to [json.Marshal]: nil, strings, and slices
    of them. *)
#[local] Unset Elimination Schemes.
Inductive json : Type :=
| JNull
| JString (s : string)
| JArray (elems : list json).
#[local] Set Elimination Schemes.

(** [rand.Intn], [url.Values.Encode] on the entries of the map,
    [json.Marshal], and the package's [parse], which is declared outside
    these sources: the answer (nil or not) and the error it returns. *)
Class Codec (Answer : Type) : Type := {
  rand_Intn : Z -> Z;
  Values_Encode : list (string * list string) -> string;
  json_Marshal : json -> error + string;
  parse : string -> option Answer * option error
}.

(** A call returns its pair of results, or panics. *)
Inductive outcome (A : Type) : Type :=
| Returns (answer : option A) (err : option error)
| Panics.
Arguments Returns {A} answer err.
Arguments Panics {A}.

(** [bytes.Split(s, "\n")]: the pieces between the newlines; [cur] holds the
    bytes of the piece being read. *)
Fixpoint Split_from (cur s : string) : list string :=
  match s with
  | EmptyString => [cur]
  | String ch s' =>
      if Ascii.eqb ch newline then cur :: Split_from "" s'
      else Split_from (cur ++ String ch EmptyString) s'
  end.

Definition Split (s : string) : list string := Split_from "" s.

(** The number of newline bytes of [s]. *)
Fixpoint newlines (s : string) : nat :=
  match s with
  | EmptyString => O
  | String ch s' =>
      if Ascii.eqb ch newline then S (newlines s') else newlines s'
  end.

Section Client.
Context {Answer : Type} `{N : Net} `{C : Codec Answer}.

(** [buildRequest] *)
Definition buildRequest (b : Client)
  (prompt conversationID responseID choiceID : string) (reqID : Z) :
  error + Request :=
  let reqID := if (reqID =? 0)%Z then (100000 + rand_Intn 10000)%Z else reqID in
  let params :=
    [("bl", [cfb2h b]); ("_reqid", [itoa reqID]); ("rt", ["c"])] in
  let reqURL := (bardUrl ++ "?" ++ Values_Encode params)%string in
  let inputTextStruct :=
    JArray [JArray [JString prompt]; JNull;
            JArray [JString conversationID; JString responseID;
                    JString choiceID]] in
  match json_Marshal inputTextStruct with
  | inl err => inl (fmt_Errorf_w "encode input text error: " err)
  | inr inputText =>
      let data := JArray [JNull; JString inputText] in
      match json_Marshal data with
      | inl err => inl (fmt_Errorf_w "encode input data error: " err)
      | inr jsonData =>
          let reqData := [("f.req", [jsonData]); ("at", [snlm0e b])] in
          let req := NewRequest "POST" reqURL (Values_Encode reqData) in
          inr (setHeaders req)
      end
  end.

(** [Ask]: the requests sent (with the cookies of the session's jar), and
    the outcome. [data1[3]] panics when there is no fourth piece. *)
Definition Ask (jar : list (string * string)) (b : Client)
  (prompt conversationID responseID choiceID : string) (reqID : Z) :
  list Request * outcome Answer :=
  match buildRequest b prompt conversationID responseID choiceID reqID with
  | inl err =>
      ([], Returns None (Some (fmt_Errorf_w "build bard request error: " err)))
  | inr req =>
      let req := fold_left (fun r kv => AddCookie (fst kv) (snd kv) r) jar req in
      ([req],
       match session_Do req with
       | inl err =>
           Returns None (Some (fmt_Errorf_w "request to bard error: " err))
       | inr resp =>
           match ReadAll (RespBody resp) with
           | (_, Some err) =>
               Returns None
                 (Some (fmt_Errorf_w "read bard response body error: " err))
           | (body, None) =>
               let data1 := Split body in
               match nth_error data1 3 with
               | None => Panics
               | Some piece => let (answer, err) := parse piece in Returns answer err
               end
           end
       end)
  end.

(** [FirstAsk] *)
Definition FirstAsk (jar : list (string * string)) (b : Client) (prompt : string) :
  list Request * outcome Answer :=
  Ask jar b prompt "" "" "" 0.

End Client.
End BardAsk.

(** ** Sample environments

    Small concrete upstreams, codecs and writers, on which the definitions
    above run to a value. *)

Module Sample.
Import HTTP.

Definition nl : string := String newline EmptyString.

(** [s] without its last byte when that byte is a newline. *)
Fixpoint chomp (s : string) : string :=
  match s with
  | EmptyString => EmptyString
  | String ch EmptyString =>
      if Ascii.eqb ch newline then EmptyString else String ch EmptyString
  | String ch s' => String ch (chomp s')
  end.

(** A Bedrock runtime. A chunk decodes when it opens with a brace; decoding
    no bytes at all reports [io.EOF], as [json.Decoder] does. The model name
    selects how the upstream behaves. *)
Definition bedrock : Bedrock.Runtime unit string :=
  {| Bedrock.BedrockRequest := string;
     Bedrock.BedrockResponse := string;
     Bedrock.FromChatCompletionRequest := fun req => LLM.Model req;
     Bedrock.Marshal := fun r => r;
     Bedrock.Decode := fun bytes =>
       match bytes with
       | EmptyString => inl io_EOF
       | String "{" s => inr s
       | _ => inl (errors_New "invalid character")
       end;
     Bedrock.Completion := fun r => r;
     Bedrock.ToChatCompletionStreamResponse := fun r => r;
     Bedrock.InvokeModelWithResponseStream := fun input =>
       if String.eqb (Bedrock.ModelId input) "down" then
         inl (errors_New "dial tcp: connection refused")
       else if String.eqb (Bedrock.ModelId input) "garbled" then
         inr {| Bedrock.Events :=
                  [Bedrock.ResponseStreamMemberChunk "{Hel";
                   Bedrock.ResponseStreamMemberChunk "lo";
                   Bedrock.ResponseStreamMemberChunk "{!"];
                Bedrock.Err := None |}
       else if String.eqb (Bedrock.ModelId input) "unknown" then
         inr {| Bedrock.Events :=
                  [Bedrock.ResponseStreamMemberChunk "{Hel";
                   Bedrock.UnknownUnionMember "tag" "value"];
                Bedrock.Err := None |}
       else if String.eqb (Bedrock.ModelId input) "dropped" then
         inr {| Bedrock.Events := [Bedrock.ResponseStreamMemberChunk "{Hel"];
                Bedrock.Err :=
                  Some (errors_New "read tcp: connection reset by peer") |}
       else
         inr {| Bedrock.Events :=
                  [Bedrock.ResponseStreamMemberChunk "{Hel";
                   Bedrock.ResponseStreamMemberChunk "{lo"];
                Bedrock.Err := None |} |}.

Definition request (model : string) : LLM.ChatCompletionRequest unit :=
  {| LLM.Model := model; LLM.Stream := false; LLM.Params := tt |}.

(** A Claude web session. The request body is the prompt; the prompt selects
    how the upstream behaves, and otherwise the upstream answers with the
    prompt as its body. A frame decodes unless it opens with an exclamation
    mark; a frame that opens with a dash carries no completion and leaves the
    value it is decoded into as it is. *)
Definition claudeweb : ClaudeWeb.Session unit :=
  {| ClaudeWeb.session_Do := fun req =>
       if String.eqb (Payload req) "down" then
         inl (errors_New "connection refused")
       else if String.eqb (Payload req) "denied" then
         inr {| StatusCode := 403; Status := "403 Forbidden";
                RespBody := {| content := ""; failure := None |} |}
       else if String.eqb (Payload req) "cut" then
         inr {| StatusCode := 200; Status := "200 OK";
                RespBody :=
                  {| content := ("data: Hel" ++ nl ++ "data: l")%string;
                     failure := Some (errors_New "unexpected EOF") |} |}
       else
         inr {| StatusCode := 200; Status := "200 OK";
                RespBody := {| content := Payload req; failure := None |} |};
     ClaudeWeb.json_Marshal := fun payload => ClaudeWeb.Text payload;
     ClaudeWeb.json_Unmarshal := fun data v =>
       match data with
       | String "!" _ => inl (errors_New "invalid character")
       | String "-" _ => inr v
       | _ => inr {| ClaudeWeb.Completion := chomp data; ClaudeWeb.Other := tt |}
       end;
     ClaudeWeb.zero_Other := tt |}.

Definition web : ClaudeWeb.ClaudeWeb :=
  {| ClaudeWeb.sessionKey := "sk"; ClaudeWeb.orgId := "org";
     ClaudeWeb.model := ClaudeWeb.defaultModel |}.

(** An SSE body of two frames, each followed by an empty line. *)
Definition two_frames : string :=
  ("data: Hel" ++ nl ++ nl ++ "data: lo" ++ nl ++ nl)%string.

(** A Together environment. The provider request is the model name and the
    streaming flag; [ParseSSE] forwards every line of the body and then
    signals how the body ended. *)
Definition together : Together.Env unit string string :=
  {| Together.TogetherChatRequest := string * bool;
     Together.TogetherChatResponse := string;
     Together.FromChatCompletionRequest := fun req => (LLM.Model req, LLM.Stream req);
     Together.ProviderStream := fun r => snd r;
     Together.ToChatCompletionResponse := fun r => r;
     Together.ToChatCompletionStreamResponse := fun r => r;
     Together.json_Marshal := fun r =>
       if String.eqb (fst r) "" then inl (errors_New "json: unsupported value")
       else inr (fst r ++ (if snd r then " stream" else ""))%string;
     Together.json_Decode := fun body => inr (content body);
     Together.session_Do := fun req =>
       if String.eqb (Payload req) "down stream" then
         inl (errors_New "connection refused")
       else
         inr {| StatusCode := 200; Status := "200 OK";
                RespBody := {| content := two_frames; failure := None |} |};
     Together.ParseSSE := fun body =>
       map Together.InnerData (lines (content body))
         ++ [Together.InnerErr (end_of_body body)] |}.

Definition together_client : Together.Client :=
  {| Together.baseUrl := Together.baseUrl_default; Together.Apikey := "key" |}.

(** An echo response that encodes a record as itself; its writes succeed,
    or succeed until [limit] chunks are written when there is a limit (the
    client went away). *)
Definition echo (limit : option nat) : Handler.Echo string :=
  {| Handler.json_Marshal := fun d => inr d;
     Handler.response_Write := fun w _ =>
       match limit with
       | None => None
       | Some n =>
           if Nat.ltb (List.length w) n then None
           else Some (errors_New "write: broken pipe")
       end |}.

(** A tokenizer with one token for every byte of the text. *)
Definition bytes_tokenizer (text : string) : list Z :=
  map (fun ch => Z.of_nat (nat_of_ascii ch)) (list_ascii_of_string text).

(** A network for the Bard client: the home page carries both values. *)
Definition bard_net : Bard.Net :=
  {| Bard.session_Do := fun _ =>
       inr {| StatusCode := 200; Status := "200 OK";
              RespBody := {| content := "page"; failure := None |} |};
     Bard.FindStringSubmatch := fun _ _ => ["match"; "value"] |}.


(** The encodings tiktoken knows: one model, with the tokenizer above. *)
Definition encodings : Usage.Encodings :=
  {| Usage.EncodingForModel := fun model =>
       if String.eqb model "gpt-4" then inr bytes_tokenizer
       else inl (errors_New "no encoding for model") |}.

(** A store that refuses rows of more than 1000 tokens. *)
Definition store : UsageSave.Store :=
  {| UsageSave.GetUserId := "user";
     UsageSave.GetApiKey := "key";
     UsageSave.SaveLlmUsage := fun row =>
       if (1000 <? UsageSave.TokenUsage row)%Z then
         Some (errors_New "quota exceeded")
       else None;
     UsageSave.RunInTransaction := fun err => err |}.

(** A codec for the organizations and conversations of the Claude web
    client: a body is the list of its lines. *)
Definition claudeweb_codec : ClaudeWebAPI.Codec string string :=
  {| ClaudeWebAPI.UUID := fun org => org;
     ClaudeWebAPI.Unmarshal_orgs := fun body =>
       inr (map (fun line => Some (chomp line)) (lines body));
     ClaudeWebAPI.Unmarshal_conversations := fun body =>
       inr (map (fun line => Some (chomp line)) (lines body));
     ClaudeWebAPI.Unmarshal_conversation := fun body => inr (chomp body);
     ClaudeWebAPI.Marshal_params := fun kvs => String.concat nl (map snd kvs);
     ClaudeWebAPI.Marshal_update := fun u => ClaudeWebAPI.Title u;
     ClaudeWebAPI.uuid_NewString := "00000000-0000-4000-8000-000000000000" |}.

(** A Claude web session whose server knows one organization. *)
Definition claudeweb_org : ClaudeWeb.Session unit :=
  {| ClaudeWeb.session_Do := fun req =>
       inr {| StatusCode := 200; Status := "200 OK";
              RespBody := {| content := ("org-1" ++ nl)%string;
                             failure := None |} |};
     ClaudeWeb.json_Marshal := fun payload => ClaudeWeb.Text payload;
     ClaudeWeb.json_Unmarshal := fun data v => inr v;
     ClaudeWeb.zero_Other := tt |}.

(** A Claude web session whose server refuses every request. *)
Definition claudeweb_denied : ClaudeWeb.Session unit :=
  {| ClaudeWeb.session_Do := fun req =>
       inr {| StatusCode := 403; Status := "403 Forbidden";
              RespBody := {| content := ""; failure := None |} |};
     ClaudeWeb.json_Marshal := fun payload => ClaudeWeb.Text payload;
     ClaudeWeb.json_Unmarshal := fun data v => inr v;
     ClaudeWeb.zero_Other := tt |}.

(** A model of the Together list, read off a line: the line is its name, and
    it is a chat model when the line opens with the letter c. *)
Definition model_of_line (line : string) : TogetherModels.Model :=
  {| TogetherModels.Id := "";
     TogetherModels.Name := chomp line;
     TogetherModels.DisplayName := "";
     TogetherModels.DisplayType :=
       match line with String "c" _ => "chat" | _ => "language" end;
     TogetherModels.Description := "";
     TogetherModels.ContextLength := 0;
     TogetherModels.ChatPrompt := "";
     TogetherModels.PromptFormat := "";
     TogetherModels.Stop := [] |}.

(** The Together server and the file system for the list of models: the
    server is up or down, and a JSON value is a line. *)
Definition files (up : bool) : TogetherModels.Files string :=
  {| TogetherModels.session_Do := fun req =>
       if up then
         inr {| StatusCode := 200; Status := "200 OK";
                RespBody :=
                  {| content := ("chat-llama" ++ nl ++ "bert" ++ nl
                                   ++ "code-llama" ++ nl)%string;
                     failure := None |} |}
       else inl (errors_New "connection refused");
     TogetherModels.Decode_any := fun body => inr (lines (content body));
     TogetherModels.Encode_any := fun models => inr (String.concat "" models);
     TogetherModels.Decode_models := fun bytes =>
       inr (map model_of_line (lines bytes));
     TogetherModels.os_Create := None |}.

(** A codec for the requests and answers of the Bard client. *)
Definition bard_codec : BardAsk.Codec string :=
  {| BardAsk.rand_Intn := fun _ => 42%Z;
     BardAsk.Values_Encode := fun kvs =>
       String.concat "&" (map (fun kv => (fst kv ++ "=" ++ String.concat "," (snd kv))%string) kvs);
     BardAsk.json_Marshal := fun _ => inr "[]";
     BardAsk.parse := fun piece => (Some piece, None) |}.

(** A Bard client as [NewBardClient] leaves it. *)
Definition bard_client : Bard.Client :=
  {| Bard.token := "abcd."; Bard.snlm0e := "value"; Bard.cfb2h := "value";
     Bard.cookies := []; Bard.timeout := 0 |}.

(** A network whose answer to a question has five lines. *)
Definition bard_answers : Bard.Net :=
  {| Bard.session_Do := fun _ =>
       inr {| StatusCode := 200; Status := "200 OK";
              RespBody :=
                {| content := (")]}'" ++ nl ++ nl ++ "245" ++ nl ++ "answer"
                                 ++ nl ++ "57" ++ nl)%string;
                   failure := None |} |};
     Bard.FindStringSubmatch := fun _ _ => ["match"; "value"] |}.


(** The Together environment above when the server closes the connection
    before it answers: the session reports an error that wraps [io.EOF]. *)
Definition together_closed : Together.Env unit string string :=
  {| Together.TogetherChatRequest := string * bool;
     Together.TogetherChatResponse := string;
     Together.FromChatCompletionRequest := fun req => (LLM.Model req, LLM.Stream req);
     Together.ProviderStream := fun r => snd r;
     Together.ToChatCompletionResponse := fun r => r;
     Together.ToChatCompletionStreamResponse := fun r => r;
     Together.json_Marshal := fun r => inr (fst r);
     Together.json_Decode := fun body => inr (content body);
     Together.session_Do := fun req =>
       inl (fmt_Errorf_w "Post https://api.together.xyz/v1/completions: " io_EOF);
     Together.ParseSSE := fun body => [Together.InnerErr (end_of_body body)] |}.

(** The wire format of the sample read loop: a line of more than 6 bytes is
    a data frame, whose JSON is the line after its first 6 bytes, without
    the newline; a frame decodes unless it opens with an exclamation
    mark. *)
Definition sse_payload (line : string) : option string :=
  if Nat.ltb 6 (String.length line) then Some (chomp (drop 6 line)) else None.

Definition sse_decode (json : string) : error + string :=
  match json with
  | String "!" _ => inl (errors_New "invalid character")
  | _ => inr json
  end.

(** The Together environment above with the read loop of the spec. *)
Definition together_sse : Together.Env unit string string :=
  SSE.with_ParseSSE together sse_payload sse_decode.


End Sample.

(** * Properties *)

(** ** Traces *)

Section TraceFacts.
Context {Req Data : Type}.
Implicit Types (t : list (action Req Data)) (ds : list Data) (e : error).

Lemma terminals_app t1 t2 : terminals (t1 ++ t2) = terminals t1 ++ terminals t2.
Proof.
  induction t1 as [|[r|d|e] t1 IH]; simpl; rewrite ?IH; reflexivity.
Qed.

Lemma records_app t1 t2 : records (t1 ++ t2) = records t1 ++ records t2.
Proof.
  induction t1 as [|[r|d|e] t1 IH]; simpl; rewrite ?IH; reflexivity.
Qed.

Lemma terminals_data ds : terminals (map (@SendData Req Data) ds) = [].
Proof. induction ds; simpl; auto. Qed.

Lemma records_data ds : records (map (@SendData Req Data) ds) = ds.
Proof. induction ds; simpl; congruence. Qed.

Lemma sends_data ds :
  sends (map (@SendData Req Data) ds) = map (@SendData Req Data) ds.
Proof. unfold sends. induction ds; simpl; congruence. Qed.

Lemma sends_app t1 t2 : sends (t1 ++ t2) = sends t1 ++ sends t2.
Proof. unfold sends. apply filter_app. Qed.

Lemma after_terminal_data ds t :
  after_terminal (map (@SendData Req Data) ds ++ t) = after_terminal t.
Proof. induction ds; simpl; auto. Qed.

(** A trace made of records and then one terminal: what each projection
    gives. *)
Lemma data_then_terminal_facts ds e t :
  t = map (@SendData Req Data) ds ++ [SendErr e] ->
  terminals t = [e] /\ records t = ds /\ after_terminal t = [] /\
  count_terminals t = 1 /\ sends t = t /\ upstream_calls t = [].
Proof.
  intros ->. unfold count_terminals.
  rewrite terminals_app, records_app, after_terminal_data, sends_app.
  rewrite terminals_data, records_data, sends_data. simpl.
  rewrite app_nil_r. repeat split; try reflexivity.
  induction ds; simpl; auto.
Qed.

End TraceFacts.

(** ** The Bedrock adapter *)

Section BedrockFacts.
Import LLM Bedrock.
Context {P StreamResponse : Type} `{RT : Runtime P StreamResponse}.

(** Whatever the events, the loop sends records and then one terminal. *)
Lemma events_loop_shape sb events :
  exists ds e, events_loop sb events = map SendData ds ++ [SendErr e].
Proof.
  revert sb; induction events as [|[bytes|tag value|ty] rest IH]; intros sb; simpl.
  - exists [], io_EOF. reflexivity.
  - destruct (Decode bytes) as [err|resp].
    + exists [], err. reflexivity.
    + destruct (IH (sb ++ Completion resp)%string) as (ds & e & ->).
      exists (ToChatCompletionStreamResponse resp :: ds), e. reflexivity.
  - exists [], (unknown_event_type "*types.UnknownUnionMember"). reflexivity.
  - exists [], (unknown_event_type ty). reflexivity.
Qed.

(** Chunks that decode are forwarded one for one; the loop goes on with what
    follows them. *)
Lemma events_loop_chunks bytes resps rest sb :
  decode_all bytes resps ->
  exists sb',
    events_loop sb (chunks bytes ++ rest) = forwarded resps ++ events_loop sb' rest.
Proof.
  intros Hall; revert sb; induction Hall as [|b r bs rs Hb _ IH]; intros sb; simpl.
  - exists sb. reflexivity.
  - rewrite Hb. destruct (IH (sb ++ Completion r)%string) as (sb' & ->).
    exists sb'. reflexivity.
Qed.

Lemma forwarded_is_data resps :
  forwarded resps = map SendData (map ToChatCompletionStreamResponse resps).
Proof. unfold forwarded. rewrite map_map. reflexivity. Qed.

Lemma bedrock_stream_shape req :
  exists ds e,
    CreateChatCompletionStream req
    = Upstream (stream_input req) :: map SendData ds ++ [SendErr e].
Proof.
  unfold CreateChatCompletionStream.
  destruct (InvokeModelWithResponseStream (stream_input req)) as [err|output].
  - exists [], err. reflexivity.
  - destruct (events_loop_shape "" (Events output)) as (ds & e & ->). eauto.
Qed.

(** An upstream failure ends the run: the records decoded before it are
    forwarded, then its error is sent on the error channel, and nothing
    else. *)
Lemma bedrock_failure_trace req resps term :
  upstream_failure (InvokeModelWithResponseStream (stream_input req)) resps term ->
  CreateChatCompletionStream req
  = Upstream (stream_input req) :: forwarded resps ++ [SendErr term].
Proof.
  unfold CreateChatCompletionStream. intros Hf.
  remember (InvokeModelWithResponseStream (stream_input req)) as answer eqn:Ha.
  clear Ha. destruct Hf as [err|output bytes resps bad rest err He Hd Hbad
                            |output bytes resps tag value rest He Hd
                            |output bytes resps ty rest He Hd].
  - reflexivity.
  - rewrite He.
    destruct (events_loop_chunks (ResponseStreamMemberChunk bad :: rest) "" Hd)
      as (sb' & ->).
    simpl. now rewrite Hbad.
  - rewrite He.
    destruct (events_loop_chunks (UnknownUnionMember tag value :: rest) "" Hd)
      as (sb' & ->).
    reflexivity.
  - rewrite He.
    destruct (events_loop_chunks (OtherMember ty :: rest) "" Hd) as (sb' & ->).
    reflexivity.
Qed.

(** A stream of chunks that all decode: each is forwarded, then [io.EOF],
    whether the stream came to its end or was cut short. *)
Lemma bedrock_chunks_trace req output bytes resps :
  InvokeModelWithResponseStream (stream_input req) = inr output ->
  Events output = chunks bytes ->
  decode_all bytes resps ->
  CreateChatCompletionStream req
  = Upstream (stream_input req) :: forwarded resps ++ [SendErr io_EOF].
Proof.
  unfold CreateChatCompletionStream. intros -> -> Hd.
  destruct (events_loop_chunks [] "" Hd) as (sb' & Hl).
  rewrite app_nil_r in Hl. rewrite Hl. reflexivity.
Qed.

Lemma bedrock_clean_trace req bytes resps :
  InvokeModelWithResponseStream (stream_input req) = inr (clean_stream bytes) ->
  decode_all bytes resps ->
  CreateChatCompletionStream req
  = Upstream (stream_input req) :: forwarded resps ++ [SendErr io_EOF].
Proof. intros Hi Hd. exact (bedrock_chunks_trace req Hi eq_refl Hd). Qed.

End BedrockFacts.

(** ** Strings and lines *)

Lemma cut_line_length s line rest :
  HTTP.cut_line s = Some (line, rest) ->
  String.length s = String.length line + String.length rest.
Proof.
  revert line rest; induction s as [|c s IH]; intros line rest; simpl.
  - discriminate.
  - destruct (Ascii.eqb c HTTP.newline).
    + intros [= <- <-]. reflexivity.
    + destruct (HTTP.cut_line s) as [[l r]|]; [|discriminate].
      intros [= <- <-]. simpl. rewrite (IH l r eq_refl). reflexivity.
Qed.

Lemma cut_line_nonempty s line rest :
  HTTP.cut_line s = Some (line, rest) -> 0 < String.length line.
Proof.
  destruct s as [|c s]; simpl; [discriminate|].
  destruct (Ascii.eqb c HTTP.newline).
  - intros [= <- <-]. simpl. lia.
  - destruct (HTTP.cut_line s) as [[l r]|]; [|discriminate].
    intros [= <- <-]. simpl. lia.
Qed.

(** A successful read leaves a shorter body. *)
Lemma ReadBytes_shrinks r line r' :
  HTTP.ReadBytes r = (line, None, r') ->
  String.length (HTTP.content r') < String.length (HTTP.content r).
Proof.
  unfold HTTP.ReadBytes.
  destruct (HTTP.cut_line (HTTP.content r)) as [[l rest]|] eqn:E.
  - intros [= <- <-]. simpl.
    pose proof (cut_line_length _ E). pose proof (cut_line_nonempty _ E). lia.
  - discriminate.
Qed.

Lemma string_app_assoc (a b c : string) : ((a ++ b) ++ c = a ++ (b ++ c))%string.
Proof. induction a as [|x a IH]; simpl; [reflexivity | now rewrite IH]. Qed.

Lemma string_app_nil_r (a : string) : (a ++ "" = a)%string.
Proof. induction a as [|x a IH]; simpl; [reflexivity | now rewrite IH]. Qed.

Lemma string_app_length (a b : string) :
  String.length (a ++ b) = String.length a + String.length b.
Proof. induction a as [|x a IH]; simpl; [reflexivity | now rewrite IH]. Qed.

Lemma last_cons_default {A : Type} (x : A) (l : list A) (d : A) :
  List.last (x :: l) d = List.last l x.
Proof.
  revert x d; induction l as [|y l IH]; intros x d; [reflexivity|].
  change (List.last (x :: y :: l) d) with (List.last (y :: l) d).
  rewrite IH. symmetry. apply IH.
Qed.

(** ** The Claude web client *)

Section ClaudeWebFacts.
Import HTTP ClaudeWeb.
Context {O : Type} `{S : Session O}.

(** [lines] follows [cut_line]: the first line is what [ReadBytes] returns
    first, the other lines are the lines of the rest. *)
Lemma lines_from_cut s cur :
  lines_from cur s =
  match cut_line s with
  | Some (line, rest) => (cur ++ line)%string :: lines rest
  | None => []
  end.
Proof.
  revert cur; induction s as [|ch s IH]; intros cur; simpl; [reflexivity|].
  destruct (Ascii.eqb ch newline); [reflexivity|].
  rewrite IH. destruct (cut_line s) as [[line rest]|]; [|reflexivity].
  rewrite string_app_assoc. reflexivity.
Qed.

Lemma lines_cut s :
  lines s =
  match cut_line s with
  | Some (line, rest) => line :: lines rest
  | None => []
  end.
Proof. unfold lines at 1. rewrite lines_from_cut. reflexivity. Qed.

(** What one [ReadBytes] gives, read off [lines]. *)
Lemma ReadBytes_line reader line reader' :
  ReadBytes reader = (line, None, reader') ->
  lines (content reader) = line :: lines (content reader') /\
  failure reader' = failure reader.
Proof.
  unfold ReadBytes. rewrite (lines_cut (content reader)).
  destruct (cut_line (content reader)) as [[l rest]|]; [|discriminate].
  intros [= <- <-]. simpl. auto.
Qed.

Lemma ReadBytes_end reader fragment err reader' :
  ReadBytes reader = (fragment, Some err, reader') ->
  lines (content reader) = [] /\ err = end_of_body reader /\
  fragment = content reader.
Proof.
  unfold ReadBytes, end_of_body. rewrite (lines_cut (content reader)).
  destruct (cut_line (content reader)) as [[l rest]|]; [discriminate|].
  intros [= <- <- _]. auto.
Qed.

(** The streaming loop over the reader is the streaming loop over the lines
    of the body. *)
Lemma stream_loop_lines reader :
  stream_loop reader = stream_lines (lines (content reader)) (end_of_body reader).
Proof.
  funelim (stream_loop reader); try clear Heqcall.
  - match goal with E : ReadBytes _ = _ |- _ =>
      destruct (ReadBytes_end _ E) as (-> & -> & _) end.
    simpl. unfold stream_end. destruct (error_eqb _ _); reflexivity.
  - match goal with E : ReadBytes _ = _ |- _ =>
      destruct (ReadBytes_line _ E) as (-> & Hf) end.
    assert (Hend : end_of_body reader' = end_of_body reader)
      by (unfold end_of_body; now rewrite Hf).
    simpl. unfold long.
    all: match goal with IH : stream_loop _ = _ |- _ => rewrite IH, Hend end.
    all: reflexivity.
Qed.

(** The loop of [CreateChatMessage] over the reader is the loop over the
    lines of the body. *)
Lemma message_loop_lines v sb reader :
  message_loop v sb reader
  = message_lines v sb (lines (content reader)) (end_of_body reader).
Proof.
  funelim (message_loop v sb reader); try clear Heqcall.
  - match goal with E : ReadBytes _ = _ |- _ =>
      destruct (ReadBytes_end _ E) as (-> & -> & _) end.
    reflexivity.
  - match goal with E : ReadBytes _ = _ |- _ =>
      destruct (ReadBytes_line _ E) as (-> & Hf) end.
    assert (Hend : end_of_body reader' = end_of_body reader)
      by (unfold end_of_body; now rewrite Hf).
    simpl. unfold long. destruct (Nat.ltb 6 (String.length line)).
    + destruct (json_Unmarshal _ _) as [err|decoded]; [reflexivity|].
      match goal with IH : forall _, message_loop _ _ _ = _ |- _ =>
        rewrite IH, Hend end.
      reflexivity.
    + match goal with IH : message_loop _ _ _ = _ |- _ => rewrite IH, Hend end.
      reflexivity.
Qed.

(** The loop over lines, through [decode_into]: the long lines are decoded
    one after the other into the one value; the loop keeps the last value and
    the concatenation of the [Completion] each decoding left. *)
Lemma message_lines_decode ls v sb last :
  message_lines v sb ls last =
  match decode_into v (filter long ls) with
  | inl err =>
      inl (fmt_Errorf_v "CreateChatMessage unmarshal response body err: " err)
  | inr vs => message_end last (List.last vs v) (sb ++ completions vs)
  end.
Proof.
  revert v sb; induction ls as [|line rest IH]; intros v sb.
  - simpl. now rewrite string_app_nil_r.
  - cbn [message_lines filter]. destruct (long line); [|apply IH].
    cbn [decode_into].
    destruct (json_Unmarshal (drop 6 line) v) as [err|v']; [reflexivity|].
    rewrite IH. destruct (decode_into v' (filter long rest)) as [err|vs];
      [reflexivity|].
    rewrite string_app_assoc. cbn [completions fold_right].
    now rewrite last_cons_default.
Qed.

(** Long lines that all decode are sent one for one; the stream then ends as
    the reads end. *)
Lemma stream_lines_each ls vs last :
  decode_each (filter long ls) = inr vs ->
  stream_lines ls last = map SendData vs ++ [SendErr (stream_end last)].
Proof.
  revert vs; induction ls as [|line rest IH]; intros vs.
  - intros [= <-]. reflexivity.
  - cbn [filter stream_lines]. destruct (long line); [|apply IH].
    cbn [decode_each].
    destruct (json_Unmarshal (drop 6 line) zero_ChatMessageResponse) as [err|v];
      [discriminate|].
    destruct (decode_each (filter long rest)) as [err|vs']; [discriminate|].
    intros [= <-]. rewrite (IH vs' eq_refl). reflexivity.
Qed.

(** A long line that does not decode ends the stream with its error, after
    the records of the lines before it. *)
Lemma stream_lines_malformed before bad after vs err last :
  decode_each (filter long before) = inr vs ->
  long bad = true ->
  json_Unmarshal (drop 6 bad) zero_ChatMessageResponse = inl err ->
  stream_lines (before ++ bad :: after) last
  = map SendData vs
      ++ [SendErr (fmt_Errorf_v
                     "createChatMessageStream unmarshal response body err: " err)].
Proof.
  intros Hd Hlong Hbad. revert vs Hd.
  induction before as [|line rest IH]; intros vs.
  - intros [= <-]. cbn [app stream_lines]. now rewrite Hlong, Hbad.
  - cbn [app filter stream_lines]. destruct (long line); [|apply IH].
    cbn [decode_each].
    destruct (json_Unmarshal (drop 6 line) zero_ChatMessageResponse) as [e|v];
      [discriminate|].
    destruct (decode_each (filter long rest)) as [e|vs']; [discriminate|].
    intros [= <-]. rewrite (IH vs' eq_refl). reflexivity.
Qed.

Lemma stream_lines_shape ls last :
  exists ds e, stream_lines ls last = map SendData ds ++ [SendErr e].
Proof.
  induction ls as [|line rest (ds & e & IH)]; simpl.
  - exists [], (stream_end last). reflexivity.
  - destruct (long line); [|eauto].
    destruct (json_Unmarshal _ _) as [err|v].
    + eexists [], _. reflexivity.
    + rewrite IH. exists (v :: ds), e. reflexivity.
Qed.

Lemma claudeweb_stream_shape c id prompt :
  exists ds e,
    CreateChatMessageStream c id prompt
    = Upstream (sent_request c id prompt) :: map SendData ds ++ [SendErr e].
Proof.
  unfold CreateChatMessageStream, sent_request, createChatMessage, request.
  cbn [fst].
  destruct (session_Do _) as [err|r].
  - eexists [], _. reflexivity.
  - destruct (StatusBadRequest <=? StatusCode r)%Z eqn:Hs.
    + eexists [], _. reflexivity.
    + rewrite Hs, stream_loop_lines.
      destruct (stream_lines_shape (lines (content (RespBody r)))
                  (end_of_body (RespBody r))) as (ds & e & ->).
      eauto.
Qed.

(** What [createChatMessage] returns, by what the session answers. *)
Lemma createChatMessage_answer c id prompt :
  createChatMessage c id prompt =
  (sent_request c id prompt,
   match session_Do (sent_request c id prompt) with
   | inl err =>
       (0%Z,
        inl (errors_New
               ("POST https://claude.ai/api/append_message err: " ++ Error err)))
   | inr r =>
       if (StatusBadRequest <=? StatusCode r)%Z then
         (StatusCode r,
          inl (errors_New
                 ("POST https://claude.ai/api/append_message err: " ++ Status r)))
       else (StatusCode r, inr (RespBody r))
   end).
Proof. reflexivity. Qed.

(** An upstream failure ends the streaming run: the records decoded before
    it are sent, then the terminal error of the failure, and nothing else. *)
Lemma claudeweb_failure_trace c id prompt vs term :
  stream_failure (session_Do (sent_request c id prompt)) vs term ->
  CreateChatMessageStream c id prompt
  = Upstream (sent_request c id prompt) :: map SendData vs ++ [SendErr term].
Proof.
  unfold CreateChatMessageStream. rewrite createChatMessage_answer.
  intros Hf.
  remember (session_Do (sent_request c id prompt)) as answer eqn:Ha. clear Ha.
  destruct Hf as [err|r Hs|r vs err Hs Hfail Hne Hd
                  |r before bad after vs err Hs Hl Hd Hlong Hbad].
  - reflexivity.
  - apply Z.leb_le in Hs. rewrite Hs. reflexivity.
  - apply Z.leb_gt in Hs. rewrite !Hs, stream_loop_lines.
    rewrite (stream_lines_each _ _ Hd).
    unfold end_of_body, stream_end. now rewrite Hfail, Hne.
  - apply Z.leb_gt in Hs. rewrite !Hs, stream_loop_lines, Hl.
    now erewrite stream_lines_malformed by eassumption.
Qed.

(** A body that is read to its end and whose long lines all decode. *)
Lemma claudeweb_clean_trace c id prompt r vs :
  session_Do (sent_request c id prompt) = inr r ->
  (StatusCode r < StatusBadRequest)%Z ->
  failure (RespBody r) = None ->
  decode_each (filter long (lines (content (RespBody r)))) = inr vs ->
  CreateChatMessageStream c id prompt
  = Upstream (sent_request c id prompt) :: map SendData vs ++ [SendErr io_EOF].
Proof.
  unfold CreateChatMessageStream. rewrite createChatMessage_answer.
  intros -> Hs Hfail Hd. apply Z.leb_gt in Hs.
  rewrite !Hs, stream_loop_lines, (stream_lines_each _ _ Hd).
  unfold end_of_body. now rewrite Hfail.
Qed.

(** What [CreateChatMessage] returns when the session answers with a body. *)
Lemma CreateChatMessage_answer c id prompt r :
  session_Do (sent_request c id prompt) = inr r ->
  (StatusCode r < StatusBadRequest)%Z ->
  snd (CreateChatMessage c id prompt) =
  match decode_into zero_ChatMessageResponse
          (filter long (lines (content (RespBody r)))) with
  | inl err =>
      inl (fmt_Errorf_v "CreateChatMessage unmarshal response body err: " err)
  | inr vs =>
      if error_eqb (end_of_body (RespBody r)) io_EOF then
        inr {| Completion := completions vs;
               Other := Other (List.last vs zero_ChatMessageResponse) |}
      else
        inl (fmt_Errorf_v "CreateChatMessage read response body err: "
               (end_of_body (RespBody r)))
  end.
Proof.
  unfold CreateChatMessage. rewrite createChatMessage_answer.
  intros -> Hs. apply Z.leb_gt in Hs. rewrite !Hs. cbn [snd].
  rewrite message_loop_lines, message_lines_decode.
  destruct (decode_into _ _) as [err|vs]; [reflexivity|].
  unfold message_end. destruct (error_eqb _ _); reflexivity.
Qed.

End ClaudeWebFacts.

(** ** The Together adapter *)

Section TogetherFacts.
Import LLM HTTP Together.
Context {P ChatResponse StreamResponse : Type}
  `{E : Env P ChatResponse StreamResponse}.

(** Chunks that arrive are forwarded one for one; the loop goes on with what
    arrives after them. *)
Lemma select_loop_data datas rest :
  select_loop (map InnerData datas ++ rest)
  = (relayed datas ++ fst (select_loop rest), snd (select_loop rest)).
Proof.
  induction datas as [|d datas IH]; simpl.
  - now destruct (select_loop rest).
  - rewrite IH. reflexivity.
Qed.

(** The first error that arrives is forwarded and ends the loop, whatever
    would arrive after it. *)
Lemma select_loop_terminal datas err rest :
  select_loop (map InnerData datas ++ InnerErr err :: rest)
  = (relayed datas ++ [SendErr err], true).
Proof. rewrite select_loop_data. reflexivity. Qed.

(** A sequence of arrivals with an error in it: the chunks before the first
    error, that error, and the rest. *)
Lemma delivers_terminal_split arrivals :
  delivers_terminal arrivals = true ->
  exists datas err rest, arrivals = map InnerData datas ++ InnerErr err :: rest.
Proof.
  induction arrivals as [|[d|err] rest IH]; simpl; intros H.
  - discriminate.
  - destruct (IH H) as (datas & err & rest' & ->).
    exists (d :: datas), err, rest'. reflexivity.
  - exists [], err, rest. reflexivity.
Qed.

(** When no error ever arrives the loop forwards the chunks and then waits
    for ever: it sends nothing on the error channel and does not return. *)
Lemma select_loop_starved arrivals :
  delivers_terminal arrivals = false ->
  terminals (fst (select_loop arrivals)) = [] /\ snd (select_loop arrivals) = false.
Proof.
  induction arrivals as [|[d|err] rest IH]; simpl; intros H.
  - auto.
  - destruct (select_loop rest) as [t b]. simpl in *. auto.
  - discriminate.
Qed.

(** Whatever arrives, the loop sends on the error channel at most once, and
    nothing after that. *)
Lemma select_loop_at_most_one arrivals :
  List.length (terminals (fst (select_loop arrivals))) <= 1 /\
  after_terminal (fst (select_loop arrivals)) = [].
Proof.
  induction arrivals as [|[d|err] rest IH]; simpl.
  - split; [lia | reflexivity].
  - destruct (select_loop rest) as [t b]. exact IH.
  - split; [lia | reflexivity].
Qed.

Lemma together_stream_shape c req :
  parser_signals c req ->
  stream_returned c req = true /\
  exists ups ds e,
    stream_actions c req = map Upstream ups ++ map SendData ds ++ [SendErr e].
Proof.
  intros Hp. unfold stream_returned, stream_actions, CreateChatCompletionStream.
  cbn [fst snd].
  destruct (json_Marshal (stream_request req)) as [err|reqBody] eqn:Hm.
  - split; [reflexivity|]. eexists [], [], _. reflexivity.
  - destruct (session_Do (post c reqBody)) as [err|resp] eqn:Hdo.
    + split; [reflexivity|]. eexists [post c reqBody], [], _. reflexivity.
    + destruct (delivers_terminal_split _ (Hp reqBody resp Hm Hdo))
        as (datas & err & rest & ->).
      rewrite select_loop_terminal. split; [reflexivity|].
      eexists [post c reqBody], _, err. reflexivity.
Qed.

(** When [llm.ParseSSE] never signals, the adapter sends nothing on the
    error channel and does not return. *)
Lemma together_stream_starved c req :
  ~ parser_signals c req ->
  terminals (stream_actions c req) = [] /\ stream_returned c req = false.
Proof.
  intros Hn. unfold stream_returned, stream_actions, CreateChatCompletionStream.
  cbn [fst snd].
  destruct (json_Marshal (stream_request req)) as [err|reqBody] eqn:Hm.
  - exfalso. apply Hn. intros reqBody resp Hm'. congruence.
  - destruct (session_Do (post c reqBody)) as [err|resp] eqn:Hdo.
    + exfalso. apply Hn. intros reqBody' resp Hm' Hdo'. congruence.
    + destruct (delivers_terminal (ParseSSE (RespBody resp))) eqn:Hd.
      * exfalso. apply Hn. intros reqBody' resp' Hm' Hdo'.
        assert (reqBody' = reqBody) by congruence. subst reqBody'.
        assert (resp' = resp) by congruence. subst resp'. exact Hd.
      * destruct (select_loop_starved _ Hd) as [Ht Hr].
        destruct (select_loop (ParseSSE (RespBody resp))) as [t b].
        cbn [fst snd] in *. split; assumption.
Qed.

(** A run in which [ParseSSE] forwards the chunks [datas] and then signals
    [err]. *)
Lemma together_parsed_trace c req reqBody resp datas err :
  json_Marshal (stream_request req) = inr reqBody ->
  session_Do (post c reqBody) = inr resp ->
  ParseSSE (RespBody resp) = parsed datas err ->
  stream_actions c req = Upstream (post c reqBody) :: relayed datas ++ [SendErr err]
  /\ stream_returned c req = true.
Proof.
  unfold stream_returned, stream_actions, CreateChatCompletionStream, parsed.
  intros -> -> ->. rewrite select_loop_terminal. split; reflexivity.
Qed.

End TogetherFacts.

(** ** Shapes of traces *)

Section ShapeFacts.
Context {Req Data : Type}.
Implicit Types (t : list (action Req Data)) (ds : list Data) (e : error).

Lemma upstream_prefix_facts ups ds e t :
  t = map (@Upstream Req Data) ups ++ map SendData ds ++ [SendErr e] ->
  terminals t = [e] /\ records t = ds /\ after_terminal t = [] /\
  count_terminals t = 1 /\ sends t = map SendData ds ++ [SendErr e] /\
  upstream_calls t = ups.
Proof.
  intros ->.
  destruct (data_then_terminal_facts (Req := Req) ds e eq_refl)
    as (Ht & Hr & Ha & Hc & Hs & Hu).
  unfold count_terminals in *.
  induction ups as [|u ups IH]; simpl.
  - repeat split; assumption.
  - destruct IH as (IH1 & IH2 & IH3 & IH4 & IH5 & IH6).
    repeat split; try assumption. now rewrite IH6.
Qed.

Lemma shape_exactly_one_terminal ups ds e t :
  t = map (@Upstream Req Data) ups ++ map SendData ds ++ [SendErr e] ->
  exactly_one_terminal t.
Proof.
  intros H. destruct (upstream_prefix_facts _ _ _ H) as (_ & _ & Ha & Hc & _).
  split; assumption.
Qed.

Lemma shape_records_then_terminal ups ds e t :
  t = map (@Upstream Req Data) ups ++ map SendData ds ++ [SendErr e] ->
  records_then_terminal t.
Proof.
  intros H. destruct (upstream_prefix_facts _ _ _ H) as (_ & Hr & _ & _ & Hs & _).
  exists e. now rewrite Hr.
Qed.

End ShapeFacts.

(** ** The runs of the adapters, record by record *)

Section RunFacts.
Import LLM HTTP.
Context {P StreamResponse : Type} `{RT : Bedrock.Runtime P StreamResponse}.
Context {P' ChatResponse StreamResponse' : Type}
  `{E : Together.Env P' ChatResponse StreamResponse'}.

(** The loop of the Bedrock adapter forwards the responses decoded before
    the first event that is not a chunk that decodes, and then sends the
    signal of that event, or [io.EOF]. *)
Lemma events_loop_run sb events :
  Bedrock.events_loop sb events
  = Bedrock.forwarded (Bedrock.records_of_events events)
      ++ [SendErr (Bedrock.terminal_of_events events)].
Proof.
  revert sb; induction events as [|[bytes|tag value|ty] rest IH]; intros sb;
    cbn [Bedrock.events_loop Bedrock.records_of_events
         Bedrock.terminal_of_events]; try reflexivity.
  destruct (Bedrock.Decode bytes) as [err|resp]; [reflexivity|].
  rewrite IH. reflexivity.
Qed.

(** The loop of the Together adapter forwards, in order, what
    [llm.ParseSSE] sends up to its first signal. *)
Lemma select_loop_forward arrivals :
  fst (Together.select_loop arrivals)
  = map Together.forward (Together.until_signal arrivals).
Proof.
  induction arrivals as [|[d|err] rest IH];
    cbn [Together.select_loop Together.until_signal map Together.forward];
    try reflexivity.
  destruct (Together.select_loop rest) as [t b]. cbn [fst] in *.
  now rewrite IH.
Qed.

Lemma sends_forward arrivals :
  sends (map Together.forward arrivals) = map Together.forward arrivals.
Proof.
  unfold sends. induction arrivals as [|[d|err] rest IH]; cbn; congruence.
Qed.

Lemma until_signal_parsed datas err :
  Together.until_signal (Together.parsed datas err) = Together.parsed datas err.
Proof.
  unfold Together.parsed. induction datas as [|d datas IH]; cbn; congruence.
Qed.

Lemma forward_parsed datas err :
  map Together.forward (Together.parsed datas err)
  = map SendData (map Together.ToChatCompletionStreamResponse datas)
      ++ [SendErr err].
Proof.
  unfold Together.parsed. rewrite map_app, !map_map. reflexivity.
Qed.

(** The read loop of the spec sends chunks and then exactly one signal. *)
Lemma parse_lines_parsed {R : Type} (payload : string -> option string)
  (decode : string -> error + R) ls last :
  exists datas err,
    SSE.parse_lines payload decode ls last
    = map Together.InnerData datas ++ [Together.InnerErr err].
Proof.
  induction ls as [|line rest (datas & err & IH)]; cbn [SSE.parse_lines].
  - exists [], last. reflexivity.
  - destruct (payload line) as [json|]; [|eauto].
    destruct (decode json) as [e|chunk].
    + exists [], e. reflexivity.
    + rewrite IH. exists (chunk :: datas), err. reflexivity.
Qed.

Lemma spec_ParseSSE_parsed (payload : string -> option string)
  (decode : string -> error + Together.TogetherChatResponse) body :
  exists datas err,
    Together.ParseSSE (Env := SSE.with_ParseSSE E payload decode) body
    = Together.parsed (E := SSE.with_ParseSSE E payload decode) datas err.
Proof.
  exact (parse_lines_parsed payload decode (lines (content body))
           (end_of_body body)).
Qed.

Lemma spec_parser_signals (payload : string -> option string)
  (decode : string -> error + Together.TogetherChatResponse)
  (tc : Together.Client) (treq : ChatCompletionRequest P') :
  Together.parser_signals (E := SSE.with_ParseSSE E payload decode) tc treq.
Proof.
  intros reqBody resp _ _.
  destruct (spec_ParseSSE_parsed payload decode (RespBody resp))
    as (datas & err & ->).
  unfold Together.parsed, Together.delivers_terminal.
  rewrite existsb_app. cbn [existsb]. apply orb_true_r.
Qed.

(** With any [llm.ParseSSE]: the adapter sends exactly one value on the
    error channel, and returns, exactly when [llm.ParseSSE] signals on its
    error channel in the run. *)
Lemma together_terminal_iff_parser_signals
  (tc : Together.Client) (treq : ChatCompletionRequest P') :
  (Together.parser_signals tc treq ->
   exactly_one_terminal (Together.stream_actions tc treq) /\
   Together.stream_returned tc treq = true) /\
  (exactly_one_terminal (Together.stream_actions tc treq) ->
   Together.parser_signals tc treq).
Proof.
  split.
  - intros Hparse.
    destruct (together_stream_shape Hparse) as (Hr & ups & ds & e & H).
    split; [exact (shape_exactly_one_terminal ups ds e H) | exact Hr].
  - intros [Hone _] reqBody resp Hm Hdo.
    destruct (Together.delivers_terminal (Together.ParseSSE (RespBody resp)))
      eqn:Hd; [reflexivity|].
    exfalso.
    assert (Hn : ~ Together.parser_signals tc treq).
    { intros Hp. rewrite (Hp reqBody resp Hm Hdo) in Hd. discriminate. }
    destruct (together_stream_starved Hn) as [Ht _].
    unfold count_terminals in Hone. rewrite Ht in Hone. discriminate.
Qed.

End RunFacts.

(** ** The streaming contract of the adapters *)

Section Streaming.
Context {P StreamResponse : Type} `{RT : Bedrock.Runtime P StreamResponse}.
Context {O : Type} `{S : ClaudeWeb.Session O}.
Context {P' ChatResponse StreamResponse' : Type}
  `{E : Together.Env P' ChatResponse StreamResponse'}.

(** C1. Every run of a streaming operation, whatever the upstream does (the
    initial call fails, a frame is malformed, the read fails or the stream is
    cut short in the middle, or the stream runs to its end), sends exactly
    one value on the error channel, [io.EOF] or an error, and nothing after
    it. This holds for [Client.CreateChatCompletionStream] of the Bedrock
    adapter and for [ClaudeWeb.CreateChatMessageStream] as they are, and for
    [Client.CreateChatCompletionStream] of the Together adapter, which
    passes on what [llm.ParseSSE] signals, with the read loop
    [llm.ParseSSE] as the spec has it, whatever its wire format; the
    function then returns. *)
Theorem stream_delivers_exactly_one_terminal
  (req : LLM.ChatCompletionRequest P)
  (c : ClaudeWeb.ClaudeWeb) (id prompt : string)
  (tc : Together.Client) (treq : LLM.ChatCompletionRequest P')
  (payload : string -> option string)
  (decode : string -> error + Together.TogetherChatResponse) :
  exactly_one_terminal (Bedrock.CreateChatCompletionStream req) /\
  exactly_one_terminal (ClaudeWeb.CreateChatMessageStream c id prompt) /\
  exactly_one_terminal
    (Together.stream_actions (E := SSE.with_ParseSSE E payload decode)
       tc treq) /\
  Together.stream_returned (E := SSE.with_ParseSSE E payload decode) tc treq
  = true.
Proof.
  split; [|split].
  - destruct (bedrock_stream_shape req) as (ds & e & H).
    exact (shape_exactly_one_terminal [Bedrock.stream_input req] ds e H).
  - destruct (claudeweb_stream_shape c id prompt) as (ds & e & H).
    exact (shape_exactly_one_terminal
             [ClaudeWeb.sent_request c id prompt] ds e H).
  - destruct (together_stream_shape (spec_parser_signals payload decode tc treq))
      as (Hr & ups & ds & e & H).
    split; [exact (shape_exactly_one_terminal ups ds e H) | exact Hr].
Qed.

(** C2. The output of a run of a streaming operation is the data records, in
    order, on the data channel, followed by the terminal signal on the error
    channel; that signal is the last action of the run, so no record follows
    it, and a record is never an error value. For the Bedrock adapter the
    records are the conversions of the responses decoded from the chunks
    that come before the first event that is not a chunk that decodes, and
    the signal is the error of that event, or [io.EOF] when there is none.
    The Together adapter sends, in order, what [llm.ParseSSE] hands it up
    to its first signal, the chunks converted on the data channel and the
    signal on the error channel; with the read loop [llm.ParseSSE] as the
    spec has it, that is the chunks and then one signal in every run. *)
Theorem stream_is_records_then_terminal
  (req : LLM.ChatCompletionRequest P)
  (tc : Together.Client) (treq : LLM.ChatCompletionRequest P')
  (payload : string -> option string)
  (decode : string -> error + Together.TogetherChatResponse) :
  ((forall output,
       Bedrock.InvokeModelWithResponseStream (Bedrock.stream_input req)
       = inr output ->
       sends (Bedrock.CreateChatCompletionStream req)
       = map SendData
           (map Bedrock.ToChatCompletionStreamResponse
              (Bedrock.records_of_events (Bedrock.Events output)))
           ++ [SendErr (Bedrock.terminal_of_events (Bedrock.Events output))]) /\
   (forall err,
       Bedrock.InvokeModelWithResponseStream (Bedrock.stream_input req)
       = inl err ->
       sends (Bedrock.CreateChatCompletionStream req) = [SendErr err]) /\
   records_then_terminal (Bedrock.CreateChatCompletionStream req) /\
   after_terminal (Bedrock.CreateChatCompletionStream req) = [] /\
   forall bytes resps,
     Bedrock.InvokeModelWithResponseStream (Bedrock.stream_input req)
     = inr (Bedrock.clean_stream bytes) ->
     Bedrock.decode_all bytes resps ->
     terminals (Bedrock.CreateChatCompletionStream req) = [io_EOF]) /\
  ((forall reqBody resp,
       Together.json_Marshal (Together.stream_request treq) = inr reqBody ->
       Together.session_Do (Together.post tc reqBody) = inr resp ->
       sends (Together.stream_actions tc treq)
       = map Together.forward
           (Together.until_signal (Together.ParseSSE (HTTP.RespBody resp)))) /\
   (forall reqBody resp datas,
       Together.json_Marshal (Together.stream_request treq) = inr reqBody ->
       Together.session_Do (Together.post tc reqBody) = inr resp ->
       Together.ParseSSE (HTTP.RespBody resp) = Together.parsed datas io_EOF ->
       terminals (Together.stream_actions tc treq) = [io_EOF])) /\
  (records_then_terminal
     (Together.stream_actions (E := SSE.with_ParseSSE E payload decode)
        tc treq) /\
   after_terminal
     (Together.stream_actions (E := SSE.with_ParseSSE E payload decode)
        tc treq) = [] /\
   forall reqBody resp,
     Together.json_Marshal (Together.stream_request treq) = inr reqBody ->
     Together.session_Do (Together.post tc reqBody) = inr resp ->
     exists datas err,
       SSE.ParseSSE payload decode (HTTP.RespBody resp)
       = map Together.InnerData datas ++ [Together.InnerErr err] /\
       sends (Together.stream_actions (E := SSE.with_ParseSSE E payload decode)
                tc treq)
       = map SendData (map Together.ToChatCompletionStreamResponse datas)
           ++ [SendErr err]).
Proof.
  split; [|split].
  - destruct (bedrock_stream_shape req) as (ds & e & H).
    pose proof (H' := H : _ = map Upstream [Bedrock.stream_input req] ++ _).
    split; [|split; [|split; [|split]]].
    + intros output Hi. unfold Bedrock.CreateChatCompletionStream.
      rewrite Hi, events_loop_run, forwarded_is_data.
      apply (upstream_prefix_facts [Bedrock.stream_input req] _ _ eq_refl).
    + intros err Hi. unfold Bedrock.CreateChatCompletionStream.
      rewrite Hi. reflexivity.
    + exact (shape_records_then_terminal _ _ _ H').
    + exact (proj2 (shape_exactly_one_terminal _ _ _ H')).
    + intros bytes resps Hi Hd.
      rewrite (bedrock_clean_trace req Hi Hd), forwarded_is_data.
      apply (upstream_prefix_facts [Bedrock.stream_input req] _ _ eq_refl).
  - split.
    + intros reqBody resp Hm Hdo.
      unfold Together.stream_actions, Together.CreateChatCompletionStream.
      rewrite Hm, Hdo. cbn [fst snd].
      pose proof (select_loop_forward (Together.ParseSSE (HTTP.RespBody resp)))
        as Hf.
      destruct (Together.select_loop (Together.ParseSSE (HTTP.RespBody resp)))
        as [t b].
      cbn [fst] in *. subst t. cbn -[Together.forward Together.until_signal].
      apply sends_forward.
    + intros reqBody resp datas Hm Hdo Hp.
      destruct (together_parsed_trace tc treq datas io_EOF Hm Hdo Hp) as (-> & _).
      apply (upstream_prefix_facts [Together.post tc reqBody] _ _ eq_refl).
  - destruct (together_stream_shape (spec_parser_signals payload decode tc treq))
      as (_ & ups & ds & e & H).
    split; [exact (shape_records_then_terminal _ _ _ H)|].
    split; [exact (proj2 (shape_exactly_one_terminal _ _ _ H))|].
    intros reqBody resp Hm Hdo.
    destruct (spec_ParseSSE_parsed payload decode (HTTP.RespBody resp))
      as (datas & err & Hp).
    exists datas, err. split; [exact Hp|].
    destruct (together_parsed_trace (E := SSE.with_ParseSSE E payload decode)
                tc treq datas err Hm Hdo Hp) as (-> & _).
    apply (upstream_prefix_facts [Together.post tc reqBody] _ _ eq_refl).
Qed.

(** C5. When the upstream yields well-formed chunks until its end, the
    adapter forwards exactly one record for every chunk, in the order in
    which the chunks were read, and then [io.EOF]: the records on the data
    channel are the conversions of the decoded chunks, none dropped,
    duplicated or moved. For the Bedrock adapter the chunks are the events of
    the stream, for the Together adapter what [llm.ParseSSE] hands over. *)
Theorem chunks_forwarded_one_for_one
  (req : LLM.ChatCompletionRequest P) bytes resps
  (tc : Together.Client) (treq : LLM.ChatCompletionRequest P') reqBody resp datas :
  Bedrock.InvokeModelWithResponseStream (Bedrock.stream_input req)
  = inr (Bedrock.clean_stream bytes) ->
  Bedrock.decode_all bytes resps ->
  Together.json_Marshal (Together.stream_request treq) = inr reqBody ->
  Together.session_Do (Together.post tc reqBody) = inr resp ->
  Together.ParseSSE (HTTP.RespBody resp) = Together.parsed datas io_EOF ->
  (records (Bedrock.CreateChatCompletionStream req)
   = map Bedrock.ToChatCompletionStreamResponse resps /\
   List.length (records (Bedrock.CreateChatCompletionStream req))
   = List.length bytes /\
   terminals (Bedrock.CreateChatCompletionStream req) = [io_EOF]) /\
  (records (Together.stream_actions tc treq)
   = map Together.ToChatCompletionStreamResponse datas /\
   List.length (records (Together.stream_actions tc treq)) = List.length datas /\
   terminals (Together.stream_actions tc treq) = [io_EOF]).
Proof.
  intros Hi Hd Hm Hdo Hp. split.
  - rewrite (bedrock_clean_trace req Hi Hd), forwarded_is_data.
    destruct (upstream_prefix_facts [Bedrock.stream_input req]
                (map Bedrock.ToChatCompletionStreamResponse resps) io_EOF eq_refl)
      as (Ht & Hr & _).
    cbn [map app] in Ht, Hr.
    rewrite Hr, Ht, length_map. repeat split.
    symmetry. exact (Forall2_length Hd).
  - destruct (together_parsed_trace tc treq datas io_EOF Hm Hdo Hp) as (-> & _).
    destruct (upstream_prefix_facts [Together.post tc reqBody]
                (map Together.ToChatCompletionStreamResponse datas) io_EOF eq_refl)
      as (Ht & Hr & _).
    cbn [map app] in Ht, Hr.
    unfold Together.relayed. rewrite Hr, Ht, length_map. repeat split.
Qed.

(** The upstream failures that the adapters do forward. For
    the Bedrock adapter: the initial call fails, a chunk does not decode, or
    an event has an unknown type. For the Claude web client: the call fails
    or is refused, the read of the body fails, or a line does not decode. In
    each case the adapter forwards the records read before the failure, then
    sends the error of the failure on the error channel, and does nothing
    more; in particular the one upstream request of the run is the only one,
    nothing is retried. *)
Theorem upstream_failure_is_forwarded
  (req : LLM.ChatCompletionRequest P) resps term
  (c : ClaudeWeb.ClaudeWeb) (id prompt : string) vs term' :
  Bedrock.upstream_failure
    (Bedrock.InvokeModelWithResponseStream (Bedrock.stream_input req)) resps term ->
  ClaudeWeb.stream_failure
    (ClaudeWeb.session_Do (ClaudeWeb.sent_request c id prompt)) vs term' ->
  (Bedrock.CreateChatCompletionStream req
   = Upstream (Bedrock.stream_input req)
       :: Bedrock.forwarded resps ++ [SendErr term] /\
   upstream_calls (Bedrock.CreateChatCompletionStream req)
   = [Bedrock.stream_input req]) /\
  (ClaudeWeb.CreateChatMessageStream c id prompt
   = Upstream (ClaudeWeb.sent_request c id prompt)
       :: map SendData vs ++ [SendErr term'] /\
   upstream_calls (ClaudeWeb.CreateChatMessageStream c id prompt)
   = [ClaudeWeb.sent_request c id prompt]).
Proof.
  intros Hb Hc. split.
  - rewrite (bedrock_failure_trace req Hb). split; [reflexivity|].
    rewrite forwarded_is_data.
    apply (upstream_prefix_facts [Bedrock.stream_input req] _ _ eq_refl).
  - rewrite (claudeweb_failure_trace c id prompt Hc). split; [reflexivity|].
    apply (upstream_prefix_facts [ClaudeWeb.sent_request c id prompt] _ _ eq_refl).
Qed.

(** A Bedrock stream that is cut short after chunks that decode, by a failed
    read or by an exception of the service: the adapter forwards the chunks
    and then sends [io.EOF]; the error of the stream is sent nowhere. *)
Lemma bedrock_cut_stream_ends_with_EOF
  (req : LLM.ChatCompletionRequest P) bytes resps err :
  Bedrock.InvokeModelWithResponseStream (Bedrock.stream_input req)
  = inr (Bedrock.cut_stream bytes err) ->
  Bedrock.decode_all bytes resps ->
  Bedrock.CreateChatCompletionStream req
  = Upstream (Bedrock.stream_input req)
      :: Bedrock.forwarded resps ++ [SendErr io_EOF] /\
  terminals (Bedrock.CreateChatCompletionStream req) = [io_EOF].
Proof.
  intros Hi Hd. rewrite (bedrock_chunks_trace req Hi eq_refl Hd).
  split; [reflexivity|]. rewrite forwarded_is_data.
  apply (upstream_prefix_facts [Bedrock.stream_input req] _ _ eq_refl).
Qed.

End Streaming.

Lemma sample_parser_signals (req : LLM.ChatCompletionRequest unit) :
  Together.parser_signals (E := Sample.together) Sample.together_client req.
Proof.
  intros reqBody resp _ _. unfold Together.delivers_terminal. simpl.
  rewrite existsb_app. simpl. apply orb_true_r.
Qed.

(** The three sample upstreams, the Bedrock stream with a chunk that does
    not decode and the Claude web body cut in the middle of a line: one
    terminal each. *)
Lemma stream_delivers_exactly_one_terminal_witness :
  exactly_one_terminal
    (Bedrock.CreateChatCompletionStream (RT := Sample.bedrock)
       (Sample.request "garbled")) /\
  exactly_one_terminal
    (ClaudeWeb.CreateChatMessageStream (S := Sample.claudeweb)
       Sample.web "conversation" "cut") /\
  exactly_one_terminal
    (Together.stream_actions (E := Sample.together_sse)
       Sample.together_client (Sample.request "llama")) /\
  Together.stream_returned (E := Sample.together_sse)
    Sample.together_client (Sample.request "llama") = true.
Proof.
  exact (stream_delivers_exactly_one_terminal
           (RT := Sample.bedrock) (S := Sample.claudeweb)
           (E := Sample.together)
           (Sample.request "garbled") Sample.web "conversation" "cut"
           Sample.together_client (Sample.request "llama")
           Sample.sse_payload Sample.sse_decode).
Defined.

(** The Bedrock sample whose second chunk does not decode, and the Together
    sample with the read loop of the spec on a body of two frames: the
    records, then the one signal. *)
Lemma stream_is_records_then_terminal_witness :
  sends (Bedrock.CreateChatCompletionStream (RT := Sample.bedrock)
           (Sample.request "garbled"))
  = [SendData "Hel"; SendErr (errors_New "invalid character")] /\
  sends (Together.stream_actions (E := Sample.together_sse)
           Sample.together_client (Sample.request "llama"))
  = [SendData "Hel"; SendData "lo"; SendErr io_EOF].
Proof.
  pose proof (stream_is_records_then_terminal
                (RT := Sample.bedrock) (E := Sample.together_sse)
                (Sample.request "garbled") Sample.together_client
                (Sample.request "llama") Sample.sse_payload Sample.sse_decode)
    as ((Hb & _) & (Ht & _) & _).
  split.
  - exact (Hb _ eq_refl).
  - exact (Ht "llama stream"
             {| HTTP.StatusCode := 200; HTTP.Status := "200 OK";
                HTTP.RespBody :=
                  {| HTTP.content := Sample.two_frames;
                     HTTP.failure := None |} |}
             eq_refl eq_refl).
Defined.

(** Two chunks on the Bedrock sample, four lines on the Together sample. *)
Lemma chunks_forwarded_one_for_one_witness :
  (records (Bedrock.CreateChatCompletionStream (RT := Sample.bedrock)
              (Sample.request "claude"))
   = map (Bedrock.ToChatCompletionStreamResponse (Runtime := Sample.bedrock))
       ["Hel"; "lo"] /\
   List.length (records (Bedrock.CreateChatCompletionStream (RT := Sample.bedrock)
                           (Sample.request "claude")))
   = List.length ["{Hel"; "{lo"] /\
   terminals (Bedrock.CreateChatCompletionStream (RT := Sample.bedrock)
                (Sample.request "claude")) = [io_EOF]) /\
  (records (Together.stream_actions (E := Sample.together)
              Sample.together_client (Sample.request "llama"))
   = map (Together.ToChatCompletionStreamResponse (Env := Sample.together))
       (HTTP.lines Sample.two_frames) /\
   List.length (records (Together.stream_actions (E := Sample.together)
                           Sample.together_client (Sample.request "llama")))
   = List.length (HTTP.lines Sample.two_frames) /\
   terminals (Together.stream_actions (E := Sample.together)
                Sample.together_client (Sample.request "llama")) = [io_EOF]).
Proof.
  apply (chunks_forwarded_one_for_one
           (RT := Sample.bedrock) (E := Sample.together)
           (Sample.request "claude") (bytes := ["{Hel"; "{lo"])
           Sample.together_client (Sample.request "llama")
           (reqBody := "llama stream")
           (resp := {| HTTP.StatusCode := 200; HTTP.Status := "200 OK";
                       HTTP.RespBody :=
                         {| HTTP.content := Sample.two_frames;
                            HTTP.failure := None |} |})).
  - reflexivity.
  - repeat constructor.
  - reflexivity.
  - reflexivity.
  - reflexivity.
Defined.

(** A chunk that does not decode on the Bedrock sample, and a body cut in
    the middle of a line on the Claude web sample. *)
Lemma upstream_failure_is_forwarded_witness :
  (Bedrock.CreateChatCompletionStream (RT := Sample.bedrock)
     (Sample.request "garbled")
   = Upstream (Bedrock.stream_input (RT := Sample.bedrock)
                 (Sample.request "garbled"))
       :: Bedrock.forwarded (RT := Sample.bedrock) ["Hel"]
       ++ [SendErr (errors_New "invalid character")] /\
   upstream_calls (Bedrock.CreateChatCompletionStream (RT := Sample.bedrock)
                     (Sample.request "garbled"))
   = [Bedrock.stream_input (RT := Sample.bedrock) (Sample.request "garbled")]) /\
  (ClaudeWeb.CreateChatMessageStream (S := Sample.claudeweb)
     Sample.web "conversation" "cut"
   = Upstream (ClaudeWeb.sent_request (S := Sample.claudeweb)
                 Sample.web "conversation" "cut")
       :: map SendData
            [{| ClaudeWeb.Completion := "Hel"; ClaudeWeb.Other := tt |}]
       ++ [SendErr (fmt_Errorf_v
                      "createChatMessageStream read response body err: "
                      (errors_New "unexpected EOF"))] /\
   upstream_calls (ClaudeWeb.CreateChatMessageStream (S := Sample.claudeweb)
                     Sample.web "conversation" "cut")
   = [ClaudeWeb.sent_request (S := Sample.claudeweb)
        Sample.web "conversation" "cut"]).
Proof.
  apply (upstream_failure_is_forwarded
           (RT := Sample.bedrock) (S := Sample.claudeweb)
           (Sample.request "garbled") Sample.web "conversation" "cut").
  - exact (Bedrock.chunk_malformed (RT := Sample.bedrock)
             {| Bedrock.Events :=
                  [Bedrock.ResponseStreamMemberChunk "{Hel";
                   Bedrock.ResponseStreamMemberChunk "lo";
                   Bedrock.ResponseStreamMemberChunk "{!"];
                Bedrock.Err := None |}
             (bytes := ["{Hel"]) (resps := ["Hel"]) "lo"
             [Bedrock.ResponseStreamMemberChunk "{!"]
             eq_refl (ltac:(repeat constructor)) eq_refl).
  - exact (ClaudeWeb.read_failed (S := Sample.claudeweb)
             {| HTTP.StatusCode := 200; HTTP.Status := "200 OK";
                HTTP.RespBody :=
                  {| HTTP.content := ("data: Hel" ++ Sample.nl ++ "data: l")%string;
                     HTTP.failure := Some (errors_New "unexpected EOF") |} |}
             (vs := [{| ClaudeWeb.Completion := "Hel"; ClaudeWeb.Other := tt |}])
             eq_refl eq_refl eq_refl eq_refl).
Defined.

(** C3, at a Bedrock stream whose connection is reset after the first chunk:
    the SDK closes the event channel and keeps the error for [Err()], which
    the adapter never calls. The adapter forwards the chunk and then sends
    [io.EOF] on the error channel, the signal of a stream that came to its
    end; the network error is not forwarded. *)
Theorem Bedrock_read_error_sent_as_EOF :
  Bedrock.InvokeModelWithResponseStream (Runtime := Sample.bedrock)
    (Bedrock.stream_input (RT := Sample.bedrock) (Sample.request "dropped"))
  = inr (Bedrock.cut_stream ["{Hel"]
           (errors_New "read tcp: connection reset by peer")) /\
  Bedrock.CreateChatCompletionStream (RT := Sample.bedrock)
    (Sample.request "dropped")
  = [Upstream (Bedrock.stream_input (RT := Sample.bedrock)
                 (Sample.request "dropped"));
     SendData "Hel";
     SendErr io_EOF].
Proof. split; reflexivity. Qed.

(** The same failure in the Claude web client, whose read loop looks at the
    error of every read: the error is forwarded. *)
Example ClaudeWeb_read_error_forwarded :
  terminals (ClaudeWeb.CreateChatMessageStream (S := Sample.claudeweb)
               Sample.web "conversation" "cut")
  = [errors_New
       "createChatMessageStream read response body err: unexpected EOF"].
Proof. reflexivity. Qed.

(** ** The completion of [CreateChatMessage] *)

Section ChatMessage.
Import HTTP ClaudeWeb.
Context {O : Type} `{S : Session O}.

Lemma completions_into_each ls v vs ws :
  completion_from_frame ->
  decode_into v ls = inr vs ->
  decode_each ls = inr ws ->
  completions vs = completions ws.
Proof.
  intros Hc. revert v vs ws; induction ls as [|line rest IH]; intros v vs ws.
  - intros [= <-] [= <-]. reflexivity.
  - cbn [decode_into decode_each].
    destruct (json_Unmarshal (drop 6 line) v) as [e|v'] eqn:Hv; [discriminate|].
    destruct (json_Unmarshal (drop 6 line) zero_ChatMessageResponse)
      as [e|w'] eqn:Hw; [discriminate|].
    destruct (decode_into v' rest) as [e|vs'] eqn:Hvs; [discriminate|].
    destruct (decode_each rest) as [e|ws'] eqn:Hws; [discriminate|].
    intros [= <-] [= <-]. cbn [completions fold_right].
    rewrite (Hc _ _ _ _ Hv Hw). f_equal. exact (IH _ _ _ Hvs eq_refl).
Qed.

(** When the session answers with a body that is read to its end, the
    response [CreateChatMessage] returns has, as its [Completion], the
    [Completion] fields decoded from the lines of more than 6 bytes,
    concatenated in the order of the lines; the lines of 6 bytes or fewer
    take no part: they are not decoded, add nothing and raise no error. The
    lines are the newline-terminated lines [ReadBytes] returns, each with its
    newline, and each long line is decoded, from its seventh byte on, into
    the one response value of the loop ([vs]); when every frame carries its
    completion this is the concatenation of the [Completion] of each long
    line decoded on its own ([ws]). In the streaming variant the records sent
    are the long lines, each decoded into a fresh value, and nothing is sent
    for a short line. *)
Theorem CreateChatMessage_concatenates_long_lines
  (c : ClaudeWeb) (id prompt : string) (r : Response)
  (vs : list (ChatMessageResponse O)) :
  session_Do (sent_request c id prompt) = inr r ->
  (StatusCode r < StatusBadRequest)%Z ->
  failure (RespBody r) = None ->
  decode_into zero_ChatMessageResponse
    (filter long (lines (content (RespBody r)))) = inr vs ->
  exists resp,
    snd (CreateChatMessage c id prompt) = inr resp /\
    Completion resp = completions vs /\
    forall ws,
      decode_each (filter long (lines (content (RespBody r)))) = inr ws ->
      (completion_from_frame -> Completion resp = completions ws) /\
      records (CreateChatMessageStream c id prompt) = ws.
Proof.
  intros Hdo Hs Hfail Hinto.
  rewrite (CreateChatMessage_answer c id prompt Hdo Hs), Hinto.
  unfold end_of_body. rewrite Hfail. simpl. eexists.
  split; [reflexivity|]. split; [reflexivity|].
  intros ws Heach. split.
  - intros Hc. cbn [Completion].
    eapply completions_into_each; eassumption.
  - rewrite (claudeweb_clean_trace c id prompt Hdo Hs Hfail Heach).
    apply (upstream_prefix_facts [sent_request c id prompt] ws io_EOF eq_refl).
Qed.

(** A line of 6 bytes or fewer is never handed to the decoder: the result of
    [CreateChatMessage] is the same whether or not such a line is there. *)
Lemma message_lines_skips_short v sb before short after last :
  long short = false ->
  message_lines v sb (before ++ short :: after) last
  = message_lines v sb (before ++ after) last.
Proof.
  intros Hshort. rewrite !message_lines_decode, !filter_app.
  cbn [filter]. now rewrite Hshort.
Qed.

(** The bytes after the last newline are read with [io.EOF] and dropped,
    however many they are. *)
Lemma lines_without_newline s :
  cut_line s = None -> lines s = [].
Proof. intros H. rewrite lines_cut, H. reflexivity. Qed.

End ChatMessage.

(** The sample session answers with the prompt as its body: two frames, each
    followed by an empty line. *)
Lemma CreateChatMessage_concatenates_long_lines_witness :
  exists resp,
    snd (ClaudeWeb.CreateChatMessage (S := Sample.claudeweb)
           Sample.web "conversation" Sample.two_frames) = inr resp /\
    ClaudeWeb.Completion resp
    = ClaudeWeb.completions
        [{| ClaudeWeb.Completion := "Hel"; ClaudeWeb.Other := tt |};
         {| ClaudeWeb.Completion := "lo"; ClaudeWeb.Other := tt |}] /\
    records (ClaudeWeb.CreateChatMessageStream (S := Sample.claudeweb)
               Sample.web "conversation" Sample.two_frames)
    = [{| ClaudeWeb.Completion := "Hel"; ClaudeWeb.Other := tt |};
       {| ClaudeWeb.Completion := "lo"; ClaudeWeb.Other := tt |}].
Proof.
  destruct (CreateChatMessage_concatenates_long_lines
              (S := Sample.claudeweb) Sample.web "conversation" Sample.two_frames
              (r := {| HTTP.StatusCode := 200; HTTP.Status := "200 OK";
                       HTTP.RespBody :=
                         {| HTTP.content := Sample.two_frames;
                            HTTP.failure := None |} |})
              (vs := [{| ClaudeWeb.Completion := "Hel"; ClaudeWeb.Other := tt |};
                      {| ClaudeWeb.Completion := "lo"; ClaudeWeb.Other := tt |}])
              eq_refl eq_refl eq_refl eq_refl)
    as (resp & Hresp & Hcompletion & Heach).
  exists resp. split; [exact Hresp|]. split; [exact Hcompletion|].
  exact (proj2 (Heach _ eq_refl)).
Defined.

(** C10, at a body of two frames of which the second carries no completion
    (in JSON: an object without the [completion] field, which
    [json.Unmarshal] decodes leaving that field of its target as it is):
    [CreateChatMessage] decodes every line into the one variable declared
    before its loop, so the [Completion] left by the first frame is still
    there after the second and is appended once more. It returns [HelHel],
    where the [Completion] fields parsed from the two lines are [Hel] and
    the empty string, whose concatenation is [Hel]; the streaming variant,
    which declares its variable inside the loop, sends those two. *)
Theorem CreateChatMessage_repeats_earlier_completion :
  snd (ClaudeWeb.CreateChatMessage (S := Sample.claudeweb)
         Sample.web "conversation"
         ("data: Hel" ++ Sample.nl ++ "data: -" ++ Sample.nl)%string)
  = inr {| ClaudeWeb.Completion := "HelHel"; ClaudeWeb.Other := tt |}
  /\
  ClaudeWeb.decode_each (S := Sample.claudeweb)
    (filter ClaudeWeb.long
       (HTTP.lines ("data: Hel" ++ Sample.nl ++ "data: -" ++ Sample.nl)%string))
  = inr [{| ClaudeWeb.Completion := "Hel"; ClaudeWeb.Other := tt |};
         {| ClaudeWeb.Completion := ""; ClaudeWeb.Other := tt |}]
  /\
  ClaudeWeb.completions
    [{| ClaudeWeb.Completion := "Hel"; ClaudeWeb.Other := tt |};
     {| ClaudeWeb.Completion := ""; ClaudeWeb.Other := tt |}] = "Hel"
  /\
  records (ClaudeWeb.CreateChatMessageStream (S := Sample.claudeweb)
             Sample.web "conversation"
             ("data: Hel" ++ Sample.nl ++ "data: -" ++ Sample.nl)%string)
  = [{| ClaudeWeb.Completion := "Hel"; ClaudeWeb.Other := tt |};
     {| ClaudeWeb.Completion := ""; ClaudeWeb.Other := tt |}].
Proof. repeat split; reflexivity. Qed.

(** On the sample session: the completion of two frames; a last frame with
    no newline after it is left out; a frame that carries no completion adds
    the completion of the frame before it once more. *)
Example CreateChatMessage_two_frames :
  snd (ClaudeWeb.CreateChatMessage (S := Sample.claudeweb)
         Sample.web "conversation" Sample.two_frames)
  = inr {| ClaudeWeb.Completion := "Hello"; ClaudeWeb.Other := tt |}.
Proof. reflexivity. Qed.

Example CreateChatMessage_unterminated_frame :
  snd (ClaudeWeb.CreateChatMessage (S := Sample.claudeweb)
         Sample.web "conversation"
         ("data: Hel" ++ Sample.nl ++ "data: lo-and-more")%string)
  = inr {| ClaudeWeb.Completion := "Hel"; ClaudeWeb.Other := tt |}.
Proof. reflexivity. Qed.

Example CreateChatMessage_frame_without_completion :
  snd (ClaudeWeb.CreateChatMessage (S := Sample.claudeweb)
         Sample.web "conversation"
         ("data: Hel" ++ Sample.nl ++ "data: -" ++ Sample.nl)%string)
  = inr {| ClaudeWeb.Completion := "HelHel"; ClaudeWeb.Other := tt |}
  /\
  records (ClaudeWeb.CreateChatMessageStream (S := Sample.claudeweb)
             Sample.web "conversation"
             ("data: Hel" ++ Sample.nl ++ "data: -" ++ Sample.nl)%string)
  = [{| ClaudeWeb.Completion := "Hel"; ClaudeWeb.Other := tt |};
     {| ClaudeWeb.Completion := ""; ClaudeWeb.Other := tt |}].
Proof. split; reflexivity. Qed.

(** ** The goroutines of a streaming request *)

Section GoroutineFacts.
Import LLM HTTP Goroutines.
Context {P ChatResponse Data : Type} `{E : Together.Env P ChatResponse Data}
  `{EC : Handler.Echo Data}.

Lemma run_app n m (s : state) :
  run (n + m) s = match run n s with Some s' => run m s' | None => None end.
Proof.
  revert s; induction n as [|n IH]; intros s; simpl; [reflexivity|].
  destruct (step s); [apply IH | reflexivity].
Qed.

Lemma drains_receive_data w d :
  drains -> receive w (SendData d)
            = (Looping (w ++ [Handler.data_frame (encode d)]),
               [Handler.Write (Handler.data_frame (encode d)); Handler.Flush]).
Proof.
  intros [Hm Hw]. unfold receive, encode. cbn [Handler.select_case].
  destruct (Hm d) as [msg ->]. rewrite Hw. reflexivity.
Qed.

Lemma receive_terminal w e :
  receive w (SendErr e) = (Finished, [respond e]).
Proof.
  unfold receive, respond. cbn [Handler.select_case].
  destruct (errors_Is e io_EOF); reflexivity.
Qed.

(** Chunks go through in two hand-overs each: from [ParseSSE] to the adapter,
    from the adapter to the handler. *)
Lemma run_chunks datas rest w l :
  drains ->
  run (2 * List.length datas)
    {| parser := map Together.InnerData datas ++ rest; adapter_of := Selecting;
       handler_of := Looping w; log := l; panicked := false |}
  = Some {| parser := rest; adapter_of := Selecting;
            handler_of :=
              Looping (w ++ frames (map Together.ToChatCompletionStreamResponse datas));
            log := l ++ relay (map Together.ToChatCompletionStreamResponse datas);
            panicked := false |}.
Proof.
  intros Hd. revert w l; induction datas as [|d datas IH]; intros w l.
  - simpl. now rewrite !app_nil_r.
  - replace (2 * List.length (d :: datas)) with (2 + 2 * List.length datas)
      by (simpl; lia).
    rewrite run_app. cbn [run step map app parser adapter_of handler_of log panicked].
    rewrite (drains_receive_data _ _ Hd). cbn [parser log].
    rewrite IH. cbn [map frames relay flat_map].
    rewrite <- !app_assoc. reflexivity.
Qed.

(** The terminal signal goes through in two hand-overs, after which the
    adapter and the handler have returned. *)
Lemma run_terminal e w l :
  run 2 {| parser := [Together.InnerErr e]; adapter_of := Selecting;
           handler_of := Looping w; log := l; panicked := false |}
  = Some {| parser := []; adapter_of := Returned; handler_of := Finished;
            log := l ++ [respond e]; panicked := false |}.
Proof.
  cbn [run step parser adapter_of handler_of log panicked].
  rewrite receive_terminal. reflexivity.
Qed.

Lemma run_parsed datas e :
  drains ->
  run (2 * List.length datas + 2)
    {| parser := Together.parsed datas e; adapter_of := Selecting;
       handler_of := Looping []; log := []; panicked := false |}
  = Some {| parser := []; adapter_of := Returned; handler_of := Finished;
            log := relay (map Together.ToChatCompletionStreamResponse datas)
                     ++ [respond e];
            panicked := false |}.
Proof.
  intros Hd. unfold Together.parsed.
  rewrite run_app, (run_chunks _ _ _ _ Hd). apply run_terminal.
Qed.

(** What the handler does, as a function of what the adapter sends, when it
    drains. *)
Lemma drains_select_loop (ups : list Request) ds e w :
  drains ->
  Handler.select_loop w (map Upstream ups ++ map SendData ds ++ [SendErr e])
  = (relay ds ++ [respond e], true).
Proof.
  intros [Hm Hw]. induction ups as [|u ups IH]; cbn [map app].
  - revert w; induction ds as [|d ds IHd]; intros w; cbn [map app].
    + unfold respond. cbn [Handler.select_loop Handler.select_case].
      destruct (errors_Is e io_EOF); reflexivity.
    + assert (Hd : Handler.json_Marshal d = inr (encode d))
        by (unfold encode; destruct (Hm d) as [msg ->]; reflexivity).
      cbn [Handler.select_loop Handler.select_case].
      rewrite Hd, Hw. cbn [Handler.written]. rewrite IHd. reflexivity.
  - cbn [Handler.select_loop Handler.select_case Handler.written].
    rewrite app_nil_r, IH. reflexivity.
Qed.

Lemma completed_no_step (s : state) : completed s -> step s = None.
Proof.
  intros (Hp & Ha & _ & Hk). unfold step. now rewrite Hk, Ha, Hp.
Qed.

(** A run that ends with the request over never passes through a state in
    which a goroutine is blocked for good. *)
Lemma run_to_completion_never_stuck n (s0 final : state) :
  run n s0 = Some final -> completed final ->
  forall k s, run k s0 = Some s -> ~ stuck s.
Proof.
  revert s0; induction n as [|n IH]; intros s0 Hrun Hfin k s Hk.
  - injection Hrun as ->. destruct k as [|k].
    + injection Hk as <-. intros (_ & Hne & _). contradiction.
    + simpl in Hk. now rewrite (completed_no_step Hfin) in Hk.
  - simpl in Hrun. destruct (step s0) as [s1|] eqn:Hs; [|discriminate].
    destruct k as [|k].
    + injection Hk as <-. intros (Hnone & _). congruence.
    + simpl in Hk. rewrite Hs in Hk. exact (IH s1 Hrun Hfin k s Hk).
Qed.

(** C6. For every streaming request through the Together adapter the three
    goroutines (the handler, the adapter it starts, and the read loop
    [llm.ParseSSE] the adapter starts) hand the stream over on two pairs of
    channels, records on the data channel of a pair and the terminal signal
    on its error channel. When the handler drains (it encodes and writes
    every record, and so leaves its loop at the terminal signal only) and the
    read loop sends chunks and then one terminal signal, no goroutine is ever
    blocked for good: after finitely many hand-overs the read loop has sent
    everything, the adapter and the handler have returned, nothing panicked,
    and the handler has relayed what the adapter sent. *)
Theorem producer_never_blocks_while_handler_drains
  (c : Together.Client) (req : ChatCompletionRequest P) :
  drains ->
  (forall body, exists datas err,
      Together.ParseSSE body = Together.parsed datas err) ->
  exists n final,
    run n (start c req) = Some final /\
    completed final /\
    log final = fst (Handler.select_loop [] (Together.stream_actions c req)) /\
    (forall k s, run k (start c req) = Some s -> ~ stuck s).
Proof.
  intros Hd Hp.
  assert (H : exists n final,
             run n (start c req) = Some final /\ completed final /\
             log final
             = fst (Handler.select_loop [] (Together.stream_actions c req))).
  { unfold start, Together.stream_actions, Together.CreateChatCompletionStream.
    cbn [fst snd].
    destruct (Together.json_Marshal (Together.stream_request req))
      as [err|reqBody].
    - exists 1. eexists. cbn [run step adapter_of handler_of parser panicked].
      rewrite receive_terminal. split; [reflexivity|].
      split; [repeat split|].
      cbn [log app fst snd].
      match goal with |- context [SendErr ?e] =>
        pose proof (drains_select_loop [] [] e [] Hd) as Hs end.
      cbn [map app] in Hs. now rewrite Hs.
    - destruct (Together.session_Do (Together.post c reqBody)) as [err|resp].
      + exists 1. eexists. cbn [run step adapter_of handler_of parser panicked].
        rewrite receive_terminal. split; [reflexivity|].
        split; [repeat split|].
        cbn [log app fst snd].
        match goal with |- context [SendErr ?e] =>
          pose proof (drains_select_loop [Together.post c reqBody] [] e [] Hd)
            as Hs end.
        cbn [map app] in Hs. now rewrite Hs.
      + destruct (Hp (RespBody resp)) as (datas & err & ->).
        exists (2 * List.length datas + 2). eexists.
        split; [apply (run_parsed _ _ Hd)|].
        split; [repeat split|].
        unfold Together.parsed. rewrite select_loop_terminal. cbn [log fst snd].
        unfold Together.relayed.
        pose proof (drains_select_loop [Together.post c reqBody]
                      (map Together.ToChatCompletionStreamResponse datas)
                      err [] Hd) as Hs.
        cbn [map app] in Hs. now rewrite Hs. }
  destruct H as (n & final & Hrun & Hfin & Hlog).
  exists n, final. repeat split; try assumption.
  all: try apply Hfin.
  exact (run_to_completion_never_stuck _ _ Hrun Hfin).
Qed.

End GoroutineFacts.

Lemma sample_echo_drains : Goroutines.drains (EC := Sample.echo None).
Proof.
  split.
  - intros d. exists d. reflexivity.
  - reflexivity.
Qed.

Lemma sample_ParseSSE_parsed body :
  exists datas err,
    Together.ParseSSE (Env := Sample.together) body = Together.parsed datas err.
Proof. eexists _, _. reflexivity. Qed.

(** The sample request through the sample adapter to a handler whose writes
    succeed. *)
Lemma producer_never_blocks_while_handler_drains_witness :
  Goroutines.drains (EC := Sample.echo None) /\
  (forall body, exists datas err,
      Together.ParseSSE (Env := Sample.together) body
      = Together.parsed datas err) /\
  exists n final,
    Goroutines.run (EC := Sample.echo None) n
      (Goroutines.start (E := Sample.together)
         Sample.together_client (Sample.request "llama")) = Some final /\
    Goroutines.completed final /\
    Goroutines.log final
    = fst (Handler.select_loop (EC := Sample.echo None) []
             (Together.stream_actions (E := Sample.together)
                Sample.together_client (Sample.request "llama"))) /\
    (forall k s,
        Goroutines.run (EC := Sample.echo None) k
          (Goroutines.start (E := Sample.together)
             Sample.together_client (Sample.request "llama")) = Some s ->
        ~ Goroutines.stuck (EC := Sample.echo None) s).
Proof.
  split; [exact sample_echo_drains|].
  split; [exact sample_ParseSSE_parsed|].
  exact (producer_never_blocks_while_handler_drains
           (E := Sample.together) (EC := Sample.echo None)
           Sample.together_client (Sample.request "llama")
           sample_echo_drains sample_ParseSSE_parsed).
Defined.

(** The same request when the second write fails: the handler returns before
    the terminal signal, closing its channels, and the next send of the
    adapter panics. *)
Example handler_gone_adapter_panics :
  exists s,
    Goroutines.run (EC := Sample.echo (Some 1)) 6
      (Goroutines.start (E := Sample.together)
         Sample.together_client (Sample.request "llama")) = Some s /\
    Goroutines.handler_of s = Goroutines.Finished /\
    Goroutines.panicked s = true.
Proof. eexists. split; [reflexivity|]. split; reflexivity. Qed.

(** ** The SSE relay loops *)

Section RelayFacts.
Import HTTP Handler.
Context {Req Data : Type} `{EC : Echo Data}.

(** [LLMHandler.chatStream] stops at the first value that arrives on the
    error channel, whatever would arrive after it: with the line
    [data: [DONE]] when the value is [io.EOF], with an error response
    otherwise. *)
Lemma LLM_select_loop_stops_at_terminal w (e : error)
  (rest : list (action Req Data)) :
  select_loop w (SendErr e :: rest)
  = ([if errors_Is e io_EOF then Respond StatusOK done_line
      else Respond StatusInternalServerError (Error e)], true).
Proof.
  cbn [select_loop select_case]. destruct (errors_Is e io_EOF); reflexivity.
Qed.

(** Whatever arrives, the handler responds at most once and does nothing
    after its response. *)
Lemma LLM_select_loop_one_response w (arrivals : list (action Req Data)) :
  (snd (select_loop w arrivals) = true ->
   exists before code body,
     fst (select_loop w arrivals) = before ++ [Respond code body] /\
     responses before = []) /\
  (snd (select_loop w arrivals) = false ->
   responses (fst (select_loop w arrivals)) = []).
Proof.
  revert w; induction arrivals as [|[r|d|e] rest IH]; intros w.
  - split; [discriminate | reflexivity].
  - cbn [select_loop select_case written]. rewrite app_nil_r.
    destruct (IH w) as [IH1 IH2].
    destruct (select_loop w rest) as [l b]; cbn [fst snd app] in *. now split.
  - cbn [select_loop select_case].
    destruct (json_Marshal d) as [err|msg].
    + split; [|discriminate]. intros _.
      exists [], StatusInternalServerError, (Error err). now split.
    + destruct (response_Write w (data_frame msg)) as [err|].
      * split; [|discriminate]. intros _.
        exists [], StatusInternalServerError, (Error err). now split.
      * cbn [written]. destruct (IH (w ++ [data_frame msg])) as [IH1 IH2].
        destruct (select_loop (w ++ [data_frame msg]) rest) as [l b].
        cbn [fst snd app] in *. split.
        -- intros Hb. destruct (IH1 Hb) as (before & code & body & -> & Hr).
           exists (Write (data_frame msg) :: Flush :: before), code, body.
           now split.
        -- intros Hb. exact (IH2 Hb).
  - rewrite LLM_select_loop_stops_at_terminal. split; [|discriminate].
    intros _. destruct (errors_Is e io_EOF); eexists [], _, _; now split.
Qed.

(** [OpenAIHandler.chatStream] treats a [Recv] that fails with an error other
    than [io.EOF] exactly as one that succeeds: the error is never looked
    at. *)
Lemma recv_loop_ignores_error w (resp : Data) (err : error) rest :
  errors_Is err io_EOF = false ->
  recv_loop w ((resp, Some err) :: rest) = recv_loop w ((resp, None) :: rest).
Proof. intros H. cbn [recv_loop]. now rewrite H. Qed.

(** At [io.EOF] it stops with the line [data: [DONE]]. *)
Lemma recv_loop_stops_at_EOF w (resp : Data) (err : error) rest :
  errors_Is err io_EOF = true ->
  recv_loop w ((resp, Some err) :: rest) = [Respond StatusOK done_line].
Proof. intros H. cbn [recv_loop]. now rewrite H. Qed.

End RelayFacts.

(** C4, at a stream whose second [Recv] fails with an error other than
    [io.EOF]: [OpenAIHandler.chatStream] does not look at that error. It
    writes the response that came with the error as one more data frame,
    goes on to the third [Recv], relays its response too, and ends with
    [data: [DONE]] and status 200 when the stream ends; no error response is
    returned. *)
Theorem OpenAI_chatStream_relays_after_error :
  Handler.OpenAI_chatStream (EC := Sample.echo None)
    (inr [("Hel", None);
          ("", Some (errors_New "stream error: connection reset"));
          ("lo", None)])
  = [Handler.SetHeader "Content-Type" "application/json; charset=UTF-8";
     Handler.WriteHeader 200;
     Handler.Write (Handler.data_frame "Hel"); Handler.Flush;
     Handler.Write (Handler.data_frame ""); Handler.Flush;
     Handler.Write (Handler.data_frame "lo"); Handler.Flush;
     Handler.Respond 200 Handler.done_line].
Proof. reflexivity. Qed.

(** The same stream of values through [LLMHandler.chatStream]: it stops at
    the error with an error response. *)
Example LLM_chatStream_stops_at_error :
  Handler.LLM_chatStream (Req := unit) (EC := Sample.echo None)
    [SendData "Hel";
     SendErr (errors_New "stream error: connection reset");
     SendData "lo"]
  = ([Handler.SetHeader "Content-Type" "text/event-stream";
      Handler.SetHeader "Cache-Control" "no-cache";
      Handler.SetHeader "Connection" "keep-alive";
      Handler.WriteHeader 200;
      Handler.Write (Handler.data_frame "Hel"); Handler.Flush;
      Handler.Respond 500 "stream error: connection reset"],
     true).
Proof. reflexivity. Qed.

(** ** Token accounting *)

Section UsageFacts.
Import Usage.

Lemma int_wrap_small z : (- 2 ^ 63 <= z <= int_max)%Z -> int_wrap z = z.
Proof.
  unfold int_wrap, int_max. intros H.
  rewrite Z.mod_small; lia.
Qed.

Lemma int_wrap_add_l a b : int_wrap (int_wrap a + b) = int_wrap (a + b).
Proof.
  unfold int_wrap.
  replace ((a + 2 ^ 63) mod 2 ^ 64 - 2 ^ 63 + b + 2 ^ 63)%Z
    with ((a + 2 ^ 63) mod 2 ^ 64 + b)%Z by lia.
  rewrite Zplus_mod_idemp_l. f_equal. f_equal. lia.
Qed.

Lemma sum_of_lengths_nonneg tk messages : (0 <= sum_of_lengths tk messages)%Z.
Proof.
  induction messages as [|m rest IH]; simpl; [lia|]. unfold len. lia.
Qed.

(** The loop, for any list and any starting value: the sum taken in [int],
    that is, wrapped around. *)
Lemma range_messages_wraps tk messages totalTokens :
  range_messages {| Tiktoken := Some tk |} (int_wrap totalTokens) messages
  = Some (int_wrap (totalTokens + sum_of_lengths tk messages)).
Proof.
  revert totalTokens; induction messages as [|m rest IH]; intros totalTokens.
  - simpl. now rewrite Z.add_0_r.
  - cbn [range_messages Encode Tiktoken sum_of_lengths]. unfold int_add.
    rewrite int_wrap_add_l, IH. f_equal. f_equal. lia.
Qed.

(** C7. With a token encoding at hand, [CalculateTotalTokensFromMessages]
    returns the sum, over the messages in order, of the number of tokens the
    encoding gives for the [Content] of each message, as long as that sum is
    a value of [int]; for the empty list it returns 0. *)
Theorem CalculateTotalTokensFromMessages_is_sum
  (tk : string -> list Z) (messages : list ChatCompletionMessage) :
  (sum_of_lengths tk messages <= int_max)%Z ->
  CalculateTotalTokensFromMessages {| Tiktoken := Some tk |} messages
  = Some (sum_of_lengths tk messages) /\
  CalculateTotalTokensFromMessages {| Tiktoken := Some tk |} [] = Some 0%Z.
Proof.
  intros Hfit. split; [|reflexivity].
  unfold CalculateTotalTokensFromMessages.
  change 0%Z with (int_wrap 0). rewrite range_messages_wraps.
  rewrite Z.add_0_l, int_wrap_small; [reflexivity|].
  pose proof (sum_of_lengths_nonneg tk messages). lia.
Qed.

(** Without an encoding (the model is unknown to tiktoken) the first message
    makes [Encode] fail on the nil pointer; the empty list still gives 0. *)
Lemma CalculateTotalTokensFromMessages_no_encoding messages :
  CalculateTotalTokensFromMessages {| Tiktoken := None |} messages
  = match messages with [] => Some 0%Z | _ :: _ => None end.
Proof. destruct messages; reflexivity. Qed.

End UsageFacts.

(** Three messages under the tokenizer with one token for every byte. *)
Lemma CalculateTotalTokensFromMessages_is_sum_witness :
  Usage.CalculateTotalTokensFromMessages
    {| Usage.Tiktoken := Some Sample.bytes_tokenizer |}
    [{| Usage.Role := "system"; Usage.Content := "Be brief."; Usage.Name := "" |};
     {| Usage.Role := "user"; Usage.Content := "Hi"; Usage.Name := "" |};
     {| Usage.Role := "assistant"; Usage.Content := ""; Usage.Name := "" |}]
  = Some (Usage.sum_of_lengths Sample.bytes_tokenizer
            [{| Usage.Role := "system"; Usage.Content := "Be brief.";
                Usage.Name := "" |};
             {| Usage.Role := "user"; Usage.Content := "Hi"; Usage.Name := "" |};
             {| Usage.Role := "assistant"; Usage.Content := "";
                Usage.Name := "" |}]) /\
  Usage.CalculateTotalTokensFromMessages
    {| Usage.Tiktoken := Some Sample.bytes_tokenizer |} [] = Some 0%Z.
Proof.
  apply CalculateTotalTokensFromMessages_is_sum.
  vm_compute. discriminate.
Defined.

Example CalculateTotalTokensFromMessages_eleven :
  Usage.CalculateTotalTokensFromMessages
    {| Usage.Tiktoken := Some Sample.bytes_tokenizer |}
    [{| Usage.Role := "system"; Usage.Content := "Be brief."; Usage.Name := "" |};
     {| Usage.Role := "user"; Usage.Content := "Hi"; Usage.Name := "" |}]
  = Some 11%Z.
Proof. reflexivity. Qed.

(** ** The Bard client *)

Section BardFacts.
Import HTTP Bard.
Context `{N : Net}.

Lemma drop_all_but_last ch s :
  s <> EmptyString ->
  drop (String.length (String ch s) - 1) (String ch s)
  = drop (String.length s - 1) s.
Proof.
  destruct s as [|ch' s]; [congruence|]. intros _.
  cbn [String.length]. rewrite !Nat.sub_succ, !Nat.sub_0_r. reflexivity.
Qed.

(** [strings.HasSuffix(tok, ".")] looks at the last byte. *)
Lemma HasSuffix_dot tok : HasSuffix tok "." = ends_with_dot tok.
Proof.
  unfold HasSuffix, ends_with_dot.
  induction tok as [|ch s IH]; [reflexivity|].
  destruct s as [|ch' s].
  - cbn. destruct (Ascii.eqb_spec ch "."%char) as [->|Hne].
    + reflexivity.
    + destruct (String.eqb_spec (String ch "") ".") as [Heq|_];
        [congruence | reflexivity].
  - change (last_byte (String ch (String ch' s)))
      with (last_byte (String ch' s)).
    rewrite <- IH. rewrite drop_all_but_last by discriminate.
    reflexivity.
Qed.

Lemma empty_token_has_no_dot : ends_with_dot "" = false.
Proof. reflexivity. Qed.

Lemma AddCookies_keep jar (req : Request) :
  Method (fold_left (fun r kv => AddCookie (fst kv) (snd kv) r) jar req)
  = Method req /\
  URL (fold_left (fun r kv => AddCookie (fst kv) (snd kv) r) jar req)
  = URL req.
Proof.
  revert req; induction jar as [|kv jar IH]; intros req; [now split|].
  cbn [fold_left]. destruct (IH (AddCookie (fst kv) (snd kv) req)) as [-> ->].
  now split.
Qed.

(** C8. For every token that is empty or does not end with the character
    [.], [NewBardClient] returns a nil client and an error, and no request
    has gone over the network; for a token that is not empty and ends with
    [.] it builds the client, which it returns (non-nil) after the one
    request of [initMeta], a GET of the Bard home page. *)
Theorem NewBardClient_checks_token (tok : string) (opts : list ClientOption) :
  if ends_with_dot tok then
    exists req b err,
      NewBardClient tok opts = ([req], (Some b, err)) /\
      Method req = "GET" /\ URL req = bardHome
  else
    NewBardClient tok opts = ([], (None, Some (token_error tok))).
Proof.
  unfold NewBardClient. rewrite HasSuffix_dot.
  destruct (ends_with_dot tok) eqn:Hdot.
  - destruct (String.eqb_spec tok "") as [->|_]; [discriminate|].
    cbn [orb negb]. unfold initMeta. eexists _, _, _.
    split; [reflexivity|]. apply AddCookies_keep.
  - rewrite orb_true_r. reflexivity.
Qed.

End BardFacts.

Example NewBardClient_refuses :
  Bard.NewBardClient (N := Sample.bard_net) "" [] =
    ([], (None, Some (Bard.token_error ""))) /\
  Bard.NewBardClient (N := Sample.bard_net) "abc.d" [] =
    ([], (None, Some (Bard.token_error "abc.d"))) /\
  fst (Bard.NewBardClient (N := Sample.bard_net) "abcd." [Bard.WithTimeout 30])
  = [{| HTTP.Method := "GET"; HTTP.URL := Bard.bardHome;
        HTTP.Header := Bard.headers;
        HTTP.Cookies := [(Bard.cookieTokenKey, "abcd.")];
        HTTP.Payload := "" |}].
Proof. repeat split; reflexivity. Qed.

(** ** The Together adapter and the [Stream] flag *)

Section TogetherStream.
Import LLM HTTP Together.
Context {P ChatResponse StreamResponse : Type}
  `{E : Env P ChatResponse StreamResponse}.


(** What goes over the wire is the marshalled provider request. *)
Lemma CreateChatCompletion_sends c (req : ChatCompletionRequest P) reqBody :
  json_Marshal (completion_request req) = inr reqBody ->
  snd (fst (CreateChatCompletion c req)) = [post c reqBody].
Proof. unfold CreateChatCompletion. now intros ->. Qed.

End TogetherStream.



Example Together_sends_flag :
  snd (fst (Together.CreateChatCompletion (E := Sample.together)
              Sample.together_client
              (LLM.set_Stream true (Sample.request "llama"))))
  = [Together.post Sample.together_client "llama"] /\
  upstream_calls
    (Together.stream_actions (E := Sample.together)
       Sample.together_client (Sample.request "llama"))
  = [Together.post Sample.together_client "llama stream"].
Proof. split; reflexivity. Qed.

(** * Further properties of the code *)

(** ** Token accounting and the row that is saved *)

Section UsageMore.
Import Usage UsageSave.

Lemma int_wrap_add_r a b : int_wrap (a + int_wrap b) = int_wrap (a + b).
Proof.
  rewrite Z.add_comm, int_wrap_add_l, Z.add_comm. reflexivity.
Qed.

Lemma sum_of_lengths_app tk a b :
  sum_of_lengths tk (a ++ b) = (sum_of_lengths tk a + sum_of_lengths tk b)%Z.
Proof.
  induction a as [|m a IH]; cbn [app sum_of_lengths]; [reflexivity|].
  rewrite IH. lia.
Qed.

Lemma sum_of_lengths_Permutation tk a b :
  Permutation a b -> sum_of_lengths tk a = sum_of_lengths tk b.
Proof.
  induction 1; cbn [sum_of_lengths]; lia.
Qed.

(** The total in [int], whatever the sum. *)
Lemma Calculate_wrapped tk messages :
  CalculateTotalTokensFromMessages {| Tiktoken := Some tk |} messages
  = Some (int_wrap (sum_of_lengths tk messages)).
Proof.
  unfold CalculateTotalTokensFromMessages.
  change 0%Z with (int_wrap 0). rewrite range_messages_wraps.
  now rewrite Z.add_0_l.
Qed.

Lemma Calculate_fits tk messages :
  (sum_of_lengths tk messages <= int_max)%Z ->
  CalculateTotalTokensFromMessages {| Tiktoken := Some tk |} messages
  = Some (sum_of_lengths tk messages).
Proof.
  intros Hfit. rewrite Calculate_wrapped, int_wrap_small; [reflexivity|].
  pose proof (sum_of_lengths_nonneg tk messages). lia.
Qed.

(** X1. The total of two lists of messages put end to end is the total of
    the first plus the total of the second, added in [int] (so also when a
    total wraps around); it panics exactly when one of the two does. *)
Theorem CalculateTotalTokensFromMessages_app (t : Token)
  (a b : list ChatCompletionMessage) :
  CalculateTotalTokensFromMessages t (a ++ b)
  = match CalculateTotalTokensFromMessages t a,
          CalculateTotalTokensFromMessages t b with
    | Some x, Some y => Some (int_add x y)
    | _, _ => None
    end.
Proof.
  destruct t as [[tk|]].
  - rewrite !Calculate_wrapped. unfold int_add.
    rewrite int_wrap_add_l, int_wrap_add_r, sum_of_lengths_app. reflexivity.
  - rewrite !CalculateTotalTokensFromMessages_no_encoding.
    destruct a as [|m a]; [destruct b as [|m b]|]; reflexivity.
Qed.

(** X2. The total does not depend on the order of the messages: two lists
    with the same messages in another order give the same result. *)
Theorem CalculateTotalTokensFromMessages_any_order (t : Token)
  (a b : list ChatCompletionMessage) :
  Permutation a b ->
  CalculateTotalTokensFromMessages t a = CalculateTotalTokensFromMessages t b.
Proof.
  intros Hp. destruct t as [[tk|]].
  - rewrite !Calculate_wrapped. now rewrite (sum_of_lengths_Permutation tk Hp).
  - rewrite !CalculateTotalTokensFromMessages_no_encoding.
    destruct a as [|m a].
    + now rewrite (Permutation_nil Hp).
    + destruct b as [|m' b]; [|reflexivity].
      apply Permutation_sym, Permutation_nil in Hp. discriminate.
Qed.

Context `{EN : Encodings} `{ST : Store}.

(** X3. For a model that has an encoding, [SaveFromMessages] hands one row
    to the store: the user and the key of the context, the model, and as
    usage the sum of the token counts of the messages (as long as it is a
    value of [int]); it returns the error of the transaction. For one
    message it saves what [SaveFromText] saves for the message's
    [Content]. *)
Theorem SaveFromMessages_saves_sum (model : string) (tk : string -> list Z)
  (messages : list ChatCompletionMessage) :
  EncodingForModel model = inr tk ->
  (sum_of_lengths tk messages <= int_max)%Z ->
  SaveFromMessages model messages
  = Some ([{| UserId := GetUserId; ApiKey := GetApiKey;
              TokenUsage := sum_of_lengths tk messages; Model := model |}],
          RunInTransaction
            (SaveLlmUsage
               {| UserId := GetUserId; ApiKey := GetApiKey;
                  TokenUsage := sum_of_lengths tk messages; Model := model |}))
  /\
  (forall m, messages = [m] ->
     SaveFromText model (Content m) = SaveFromMessages model [m]).
Proof.
  intros Henc Hfit. unfold SaveFromMessages, SaveFromText, NewTikToken.
  rewrite Henc. split.
  - rewrite (Calculate_fits _ _ Hfit). reflexivity.
  - intros m ->. rewrite (Calculate_fits _ _ Hfit).
    cbn [Encode Tiktoken sum_of_lengths]. now rewrite Z.add_0_r.
Qed.

(** X4. For a model tiktoken has no encoding for, [NewTikToken] logs the
    error and keeps a nil encoding: [SaveFromText] then panics for every
    text and [SaveFromMessages] for every list with a message in it, and
    nothing is saved; for the empty list a row with usage 0 is saved. *)
Theorem unknown_model_panics (model : string) (err : error) :
  EncodingForModel model = inl err ->
  (forall text, SaveFromText model text = None) /\
  (forall m rest, SaveFromMessages model (m :: rest) = None) /\
  SaveFromMessages model [] = Some (Save model 0).
Proof.
  intros Henc. unfold SaveFromMessages, SaveFromText, NewTikToken.
  rewrite Henc. repeat split.
Qed.

End UsageMore.

Lemma CalculateTotalTokensFromMessages_any_order_witness :
  Usage.CalculateTotalTokensFromMessages
    {| Usage.Tiktoken := Some Sample.bytes_tokenizer |}
    [{| Usage.Role := "system"; Usage.Content := "Be brief."; Usage.Name := "" |};
     {| Usage.Role := "user"; Usage.Content := "Hi"; Usage.Name := "" |}]
  = Usage.CalculateTotalTokensFromMessages
      {| Usage.Tiktoken := Some Sample.bytes_tokenizer |}
      [{| Usage.Role := "user"; Usage.Content := "Hi"; Usage.Name := "" |};
       {| Usage.Role := "system"; Usage.Content := "Be brief.";
          Usage.Name := "" |}].
Proof.
  apply CalculateTotalTokensFromMessages_any_order. apply perm_swap.
Defined.

Lemma SaveFromMessages_saves_sum_witness :
  UsageSave.SaveFromMessages (EN := Sample.encodings) (ST := Sample.store)
    "gpt-4"
    [{| Usage.Role := "user"; Usage.Content := "Hi"; Usage.Name := "" |}]
  = Some ([{| UsageSave.UserId := "user"; UsageSave.ApiKey := "key";
              UsageSave.TokenUsage := 2; UsageSave.Model := "gpt-4" |}],
          None)
  /\
  (forall m,
     [{| Usage.Role := "user"; Usage.Content := "Hi"; Usage.Name := "" |}] = [m] ->
     UsageSave.SaveFromText (EN := Sample.encodings) (ST := Sample.store)
       "gpt-4" (Usage.Content m)
     = UsageSave.SaveFromMessages (EN := Sample.encodings) (ST := Sample.store)
         "gpt-4" [m]).
Proof.
  apply (SaveFromMessages_saves_sum (EN := Sample.encodings)
           (ST := Sample.store) "gpt-4" (tk := Sample.bytes_tokenizer)
           [{| Usage.Role := "user"; Usage.Content := "Hi"; Usage.Name := "" |}]).
  - reflexivity.
  - vm_compute. discriminate.
Defined.

Lemma unknown_model_panics_witness :
  (forall text,
     UsageSave.SaveFromText (EN := Sample.encodings) (ST := Sample.store)
       "gpt-9" text = None) /\
  (forall m rest,
     UsageSave.SaveFromMessages (EN := Sample.encodings) (ST := Sample.store)
       "gpt-9" (m :: rest) = None) /\
  UsageSave.SaveFromMessages (EN := Sample.encodings) (ST := Sample.store)
    "gpt-9" []
  = Some (UsageSave.Save (ST := Sample.store) "gpt-9" 0).
Proof.
  apply (unknown_model_panics (EN := Sample.encodings) (ST := Sample.store)
           "gpt-9" (err := errors_New "no encoding for model")).
  reflexivity.
Defined.

(** ** The relay loops, record by record *)

Section RelayMore.
Import HTTP Handler Goroutines.
Context {Req Data : Type} `{EC : Echo Data}.

Lemma frames_length (ds : list Data) : List.length (frames ds) = List.length ds.
Proof. apply length_map. Qed.

Lemma written_relay (ds : list Data) : written (relay ds) = frames ds.
Proof.
  induction ds as [|d ds IH]; [reflexivity|].
  cbn [relay frames flat_map map app written].
  f_equal. exact IH.
Qed.

Lemma written_app (a b : list effect) : written (a ++ b) = written a ++ written b.
Proof.
  induction a as [|x a IH]; [reflexivity|].
  destruct x; cbn [app written]; rewrite IH; reflexivity.
Qed.

Lemma marshal_encode (d : Data) :
  (exists msg, json_Marshal d = inr msg) -> json_Marshal d = inr (encode d).
Proof. intros [msg H]. unfold encode. now rewrite H. Qed.

(** The loop of [LLMHandler.chatStream] over records that are encoded, while
    the writes succeed: one frame and one flush for each, and on with what
    arrives next. *)
Lemma select_loop_records (k : nat) (ds : list Data) (rest : list (action Req Data))
  (w : list string) :
  Forall (fun d => exists msg, json_Marshal d = inr msg) ds ->
  (forall w' chunk, List.length w' < k -> response_Write w' chunk = None) ->
  List.length w + List.length ds <= k ->
  select_loop w (map SendData ds ++ rest)
  = (relay ds ++ fst (select_loop (w ++ frames ds) rest),
     snd (select_loop (w ++ frames ds) rest)).
Proof.
  intros Hm Hw. revert w; induction Hm as [|d ds Hd Hm IH]; intros w Hk.
  - cbn [map app relay frames flat_map].
    rewrite app_nil_r. now destruct (select_loop w rest).
  - cbn [map app select_loop select_case]. cbn [List.length] in Hk.
    rewrite (marshal_encode d Hd). rewrite Hw by lia. cbn [written].
    rewrite IH by (rewrite length_app; cbn [List.length]; lia).
    cbn [relay frames flat_map map app].
    rewrite <- app_assoc. reflexivity.
Qed.

Lemma select_loop_upstream (ups : list Req) (rest : list (action Req Data)) w :
  select_loop w (map Upstream ups ++ rest) = select_loop w rest.
Proof.
  induction ups as [|u ups IH]; [reflexivity|].
  cbn [map app select_loop select_case written]. rewrite app_nil_r, IH.
  now destruct (select_loop w rest).
Qed.

Lemma drains_writes :
  drains ->
  forall ds : list Data,
    Forall (fun d => exists msg, json_Marshal d = inr msg) ds.
Proof. intros [Hm _] ds. apply Forall_forall. intros d _. apply Hm. Qed.

(** X5. When every record is encoded and every write succeeds,
    [LLMHandler.chatStream] and [LLMHandler.createMessageStream] write, after
    the three headers and the status, one frame [data: ...] followed by a
    flush for each record the goroutine sends, in the order of the sends,
    and end at the terminal signal with the line [data: [DONE]] for
    [io.EOF] or with the error's text and status 500; the chunks written
    are the frames of the records. *)
Theorem LLM_chatStream_relays_in_order (ups : list Req) (ds : list Data)
  (e : error) :
  drains ->
  LLM_chatStream (map Upstream ups ++ map SendData ds ++ [SendErr e])
  = (SetHeader "Content-Type" "text/event-stream"
       :: SetHeader "Cache-Control" "no-cache"
       :: SetHeader "Connection" "keep-alive"
       :: WriteHeader StatusOK
       :: relay ds ++ [respond e],
     true) /\
  Messages.LLM_createMessageStream
    (map Upstream ups ++ map SendData ds ++ [SendErr e])
  = LLM_chatStream (map Upstream ups ++ map SendData ds ++ [SendErr e]) /\
  written (fst (LLM_chatStream
                  (map Upstream ups ++ map SendData ds ++ [SendErr e])))
  = frames ds.
Proof.
  intros Hd.
  assert (Hloop :
            select_loop [] (map Upstream ups ++ map SendData ds ++ [SendErr e])
            = (relay ds ++ [respond e], true)).
  { rewrite select_loop_upstream.
    rewrite (select_loop_records (k := List.length ds) [SendErr e] []
               (drains_writes Hd ds));
      [| intros; apply Hd | cbn [List.length]; lia].
    rewrite LLM_select_loop_stops_at_terminal. reflexivity. }
  unfold LLM_chatStream, Messages.LLM_createMessageStream. rewrite Hloop.
  repeat split. cbn [fst written]. rewrite written_app, written_relay.
  unfold respond.
  destruct (errors_Is e io_EOF); cbn [written]; apply app_nil_r.
Qed.

(** X6. Whatever the goroutine sends, [LLMHandler.chatStream] responds at
    most once: when it returns, its last action is the one response and
    nothing before it is a response; as long as it has not returned it has
    not responded. *)
Theorem LLM_chatStream_responds_once (producer : list (action Req Data)) :
  (snd (LLM_chatStream producer) = true ->
   exists before code body,
     fst (LLM_chatStream producer) = before ++ [Respond code body] /\
     responses before = []) /\
  (snd (LLM_chatStream producer) = false ->
   responses (fst (LLM_chatStream producer)) = []).
Proof.
  unfold LLM_chatStream.
  destruct (LLM_select_loop_one_response [] producer) as [H1 H2].
  destruct (select_loop [] producer) as [l b]. cbn [fst snd] in *. split.
  - intros Hb. destruct (H1 Hb) as (before & code & body & -> & Hr).
    eexists (_ :: _ :: _ :: _ :: before), code, body. split; [reflexivity|].
    exact Hr.
  - intros Hb. exact (H2 Hb).
Qed.

(** X7. [LLMHandler.chatStream] stops at the first record that cannot be
    encoded or written: after the frames of the records before it, it
    responds with status 500 and the text of the error, and it looks at
    nothing the goroutine sends afterwards. *)
Theorem LLM_chatStream_stops_at_first_failure (ups : list Req) (ds : list Data)
  (bad : Data) (err : error) (rest : list (action Req Data)) :
  Forall (fun d => exists msg, json_Marshal d = inr msg) ds ->
  (forall w chunk, List.length w < List.length ds ->
                   response_Write w chunk = None) ->
  (json_Marshal bad = inl err \/
   exists msg, json_Marshal bad = inr msg /\
               response_Write (frames ds) (data_frame msg) = Some err) ->
  LLM_chatStream (map Upstream ups ++ map SendData ds ++ SendData bad :: rest)
  = (SetHeader "Content-Type" "text/event-stream"
       :: SetHeader "Cache-Control" "no-cache"
       :: SetHeader "Connection" "keep-alive"
       :: WriteHeader StatusOK
       :: relay ds ++ [Respond StatusInternalServerError (Error err)],
     true).
Proof.
  intros Hm Hw Hbad. unfold LLM_chatStream.
  rewrite select_loop_upstream.
  rewrite (select_loop_records (k := List.length ds) (SendData bad :: rest) []
             Hm Hw) by (cbn [List.length]; lia).
  cbn [app select_loop select_case].
  destruct Hbad as [Hb | (msg & Hb & Hwr)]; rewrite Hb; [reflexivity|].
  rewrite Hwr. reflexivity.
Qed.

(** The loop of [OpenAIHandler.chatStream] over results of [Recv] none of
    which is [io.EOF]. *)
Lemma recv_loop_records (pre rest : list (Data * option error)) w :
  drains ->
  Forall (fun p => match snd p with
                   | Some e => errors_Is e io_EOF = false
                   | None => True
                   end) pre ->
  recv_loop w (pre ++ rest)
  = relay (map fst pre) ++ recv_loop (w ++ frames (map fst pre)) rest.
Proof.
  intros [Hm Hw] Hpre. revert w; induction Hpre as [|[d oe] pre Hp Hpre IH];
    intros w.
  - cbn [map app relay frames flat_map].
    now rewrite app_nil_r.
  - cbn [app recv_loop]. cbn [snd] in Hp.
    replace (match oe with Some e => errors_Is e io_EOF | None => false end)
      with false by (destruct oe; [now rewrite Hp | reflexivity]).
    rewrite (marshal_encode d (Hm d)), Hw, IH.
    cbn [map fst relay frames flat_map app].
    rewrite <- app_assoc. reflexivity.
Qed.

(** X8. When every response is encoded and every write succeeds,
    [OpenAIHandler.chatStream] writes one frame, followed by a flush, for
    every result of [Recv] that comes before the first [io.EOF], whether
    that result came with an error or not, and then ends with status 200
    and the line [data: [DONE]], at the [io.EOF] or when the stream is
    used up. *)
Theorem OpenAI_chatStream_relays_until_EOF
  (pre rest : list (Data * option error)) :
  drains ->
  Forall (fun p => match snd p with
                   | Some e => errors_Is e io_EOF = false
                   | None => True
                   end) pre ->
  match rest with
  | [] => True
  | (_, oe) :: _ =>
      match oe with Some e => errors_Is e io_EOF = true | None => False end
  end ->
  OpenAI_chatStream (inr (pre ++ rest))
  = SetHeader "Content-Type" "application/json; charset=UTF-8"
      :: WriteHeader StatusOK
      :: relay (map fst pre) ++ [Respond StatusOK done_line].
Proof.
  intros Hd Hpre Hrest. unfold OpenAI_chatStream.
  rewrite (recv_loop_records rest [] Hd Hpre). do 3 f_equal.
  destruct rest as [|[r [e|]] rest]; [reflexivity | | contradiction].
  cbn [recv_loop]. now rewrite Hrest.
Qed.

End RelayMore.

Lemma LLM_chatStream_relays_in_order_witness :
  Handler.LLM_chatStream (EC := Sample.echo None)
    (map Upstream [tt] ++ map SendData ["Hel"; "lo"] ++ [SendErr io_EOF])
  = ([Handler.SetHeader "Content-Type" "text/event-stream";
      Handler.SetHeader "Cache-Control" "no-cache";
      Handler.SetHeader "Connection" "keep-alive";
      Handler.WriteHeader 200;
      Handler.Write (Handler.data_frame "Hel"); Handler.Flush;
      Handler.Write (Handler.data_frame "lo"); Handler.Flush;
      Handler.Respond 200 Handler.done_line],
     true).
Proof.
  exact (proj1 (LLM_chatStream_relays_in_order (EC := Sample.echo None)
                  [tt] ["Hel"; "lo"] io_EOF sample_echo_drains)).
Defined.

(** After one frame the client goes away: the second write fails. *)
Lemma LLM_chatStream_stops_at_first_failure_witness :
  Handler.LLM_chatStream (EC := Sample.echo (Some 1))
    (map Upstream [tt] ++ map SendData ["Hel"]
       ++ SendData "lo" :: [SendData "!"; SendErr io_EOF])
  = ([Handler.SetHeader "Content-Type" "text/event-stream";
      Handler.SetHeader "Cache-Control" "no-cache";
      Handler.SetHeader "Connection" "keep-alive";
      Handler.WriteHeader 200;
      Handler.Write (Handler.data_frame "Hel"); Handler.Flush;
      Handler.Respond 500 "write: broken pipe"],
     true).
Proof.
  apply (LLM_chatStream_stops_at_first_failure (EC := Sample.echo (Some 1))
           [tt] (ds := ["Hel"]) "lo"
           (err := errors_New "write: broken pipe")
           [SendData "!"; SendErr io_EOF]).
  - repeat constructor. exists "Hel". reflexivity.
  - intros w chunk Hlt. cbn [Handler.response_Write Sample.echo].
    apply Nat.ltb_lt in Hlt. cbn [List.length] in Hlt. now rewrite Hlt.
  - right. exists "lo". split; reflexivity.
Defined.

(** A stream whose second [Recv] fails with an error other than [io.EOF]
    and whose fourth reports [io.EOF]. *)
Lemma OpenAI_chatStream_relays_until_EOF_witness :
  Handler.OpenAI_chatStream (EC := Sample.echo None)
    (inr ([("Hel", None); ("", Some (errors_New "stream error")); ("lo", None)]
            ++ [("", Some io_EOF); ("never", None)]))
  = [Handler.SetHeader "Content-Type" "application/json; charset=UTF-8";
     Handler.WriteHeader 200;
     Handler.Write (Handler.data_frame "Hel"); Handler.Flush;
     Handler.Write (Handler.data_frame ""); Handler.Flush;
     Handler.Write (Handler.data_frame "lo"); Handler.Flush;
     Handler.Respond 200 Handler.done_line].
Proof.
  apply (OpenAI_chatStream_relays_until_EOF (EC := Sample.echo None)
           (pre := [("Hel", None); ("", Some (errors_New "stream error"));
                    ("lo", None)])
           [("", Some io_EOF); ("never", None)] sample_echo_drains).
  - repeat constructor.
  - reflexivity.
Defined.

(** ** The goroutines when the contract is broken *)

Section GoroutinesMore.
Import LLM HTTP Goroutines.
Context {P ChatResponse Data : Type} `{E : Together.Env P ChatResponse Data}
  `{EC : Handler.Echo Data}.

(** Chunks go through in two hand-overs each as long as the writes
    succeed. *)
Lemma run_chunks_while_writes (k : nat) datas rest w l :
  (forall d : Data, exists msg, Handler.json_Marshal d = inr msg) ->
  (forall w' chunk, List.length w' < k -> Handler.response_Write w' chunk = None) ->
  List.length w + List.length datas <= k ->
  run (2 * List.length datas)
    {| parser := map Together.InnerData datas ++ rest; adapter_of := Selecting;
       handler_of := Looping w; log := l; panicked := false |}
  = Some {| parser := rest; adapter_of := Selecting;
            handler_of :=
              Looping (w ++ frames (map Together.ToChatCompletionStreamResponse datas));
            log := l ++ relay (map Together.ToChatCompletionStreamResponse datas);
            panicked := false |}.
Proof.
  intros Hm Hw. revert w l; induction datas as [|d datas IH]; intros w l Hk.
  - simpl. now rewrite !app_nil_r.
  - replace (2 * List.length (d :: datas)) with (2 + 2 * List.length datas)
      by (simpl; lia).
    rewrite run_app.
    cbn [run step map app parser adapter_of handler_of log panicked].
    unfold receive. cbn [Handler.select_case]. cbn [List.length] in Hk.
    rewrite (marshal_encode _ (Hm _)). rewrite Hw by lia.
    cbn [Handler.written parser log].
    rewrite IH by (rewrite length_app; cbn [List.length]; lia).
    cbn [map frames relay flat_map]. rewrite <- !app_assoc. reflexivity.
Qed.

(** X9. When the handler's write fails at a record before the last one (the
    client went away), the handler responds with status 500 and returns,
    closing its channels, while the adapter still has something to send: its
    next send is on a closed channel and panics. Here the first [k] writes
    succeed, the next one fails, and [llm.ParseSSE] has more than [k] chunks
    and a terminal signal to send. *)
Theorem handler_write_failure_panics
  (datas : list Together.TogetherChatResponse) (e : error) (k : nat)
  (werr : error) :
  (forall d : Data, exists msg, Handler.json_Marshal d = inr msg) ->
  (forall w chunk, List.length w < k -> Handler.response_Write w chunk = None) ->
  (forall w chunk, List.length w = k ->
                   Handler.response_Write w chunk = Some werr) ->
  k < List.length datas ->
  exists s,
    run (2 * k + 4)
      {| parser := Together.parsed datas e; adapter_of := Selecting;
         handler_of := Looping []; log := []; panicked := false |} = Some s /\
    panicked s = true /\
    handler_of s = Finished /\
    log s
    = relay (map Together.ToChatCompletionStreamResponse (firstn k datas))
        ++ [Handler.Respond StatusInternalServerError (Error werr)].
Proof.
  intros Hm Hw Hfail Hk.
  assert (Hlen : List.length (firstn k datas) = k)
    by (rewrite length_firstn; lia).
  pose proof (firstn_skipn k datas) as Hsplit.
  destruct (skipn k datas) as [|d after] eqn:Hskip.
  { pose proof (length_skipn k datas) as Hs. rewrite Hskip in Hs.
    cbn [List.length] in Hs. lia. }
  apply (f_equal (fun x => map Together.InnerData x ++ [Together.InnerErr e]))
    in Hsplit.
  unfold Together.parsed. rewrite <- Hsplit. rewrite map_app, <- app_assoc.
  replace (2 * k + 4) with (2 * List.length (firstn k datas) + (2 + 2)) by lia.
  rewrite run_app.
  rewrite (run_chunks_while_writes (k := k) _ _ [] [] Hm Hw)
    by (cbn [List.length]; lia).
  cbn [map app]. rewrite run_app.
  cbn [run step parser adapter_of handler_of log panicked].
  unfold receive. cbn [Handler.select_case].
  rewrite (marshal_encode _ (Hm _)).
  rewrite Hfail by (cbn [app]; rewrite frames_length, length_map; exact Hlen).
  cbn [parser adapter_of handler_of log panicked app].
  destruct after as [|d' after]; cbn [map app];
    eexists; (split; [reflexivity|]); repeat split.
Qed.

(** X10. When [llm.ParseSSE] stops without a signal on its error channel,
    the request never ends: once the chunks are relayed the adapter waits in
    its [select] and the handler in its own, and no hand-over is possible
    any more. *)
Theorem missing_terminal_blocks_for_ever
  (datas : list Together.TogetherChatResponse) :
  drains ->
  exists s,
    run (2 * List.length datas)
      {| parser := map Together.InnerData datas; adapter_of := Selecting;
         handler_of := Looping []; log := []; panicked := false |} = Some s /\
    stuck s /\
    adapter_of s = Selecting /\
    handler_of s
    = Looping (frames (map Together.ToChatCompletionStreamResponse datas)) /\
    log s = relay (map Together.ToChatCompletionStreamResponse datas).
Proof.
  intros Hd. eexists. split.
  - rewrite <- (app_nil_r (map Together.InnerData datas)).
    apply (run_chunks _ _ _ _ Hd).
  - repeat split. intros (_ & Ha & _). discriminate Ha.
Qed.

(** X11. The adapter returns at the first signal on the inner error channel
    and closes both inner channels: if [llm.ParseSSE] sends anything after
    its signal, that send panics, although the handler has by then given its
    complete response. *)
Theorem send_after_terminal_panics
  (datas : list Together.TogetherChatResponse) (e : error)
  (m : Together.inner Together.TogetherChatResponse)
  (more : list (Together.inner Together.TogetherChatResponse)) :
  drains ->
  exists s,
    run (2 * List.length datas + 3)
      {| parser := Together.parsed datas e ++ m :: more;
         adapter_of := Selecting;
         handler_of := Looping []; log := []; panicked := false |} = Some s /\
    panicked s = true /\
    adapter_of s = Returned /\
    handler_of s = Finished /\
    log s
    = relay (map Together.ToChatCompletionStreamResponse datas) ++ [respond e].
Proof.
  intros Hd. unfold Together.parsed. rewrite <- app_assoc.
  rewrite run_app, (run_chunks _ _ _ _ Hd).
  cbn [app run step parser adapter_of handler_of log panicked].
  rewrite receive_terminal.
  cbn [parser adapter_of handler_of log panicked].
  eexists. split; [reflexivity|]. repeat split.
Qed.

End GoroutinesMore.

Lemma sample_echo_encodes limit (d : string) :
  exists msg, Handler.json_Marshal (Echo := Sample.echo limit) d = inr msg.
Proof. exists d. reflexivity. Qed.

(** Two chunks and the end of the stream, to a handler whose second write
    fails. *)
Lemma handler_write_failure_panics_witness :
  exists s,
    Goroutines.run (E := Sample.together) (EC := Sample.echo (Some 1))
      (2 * 1 + 4)
      {| Goroutines.parser := Together.parsed (E := Sample.together) ["Hel"; "lo"] io_EOF;
         Goroutines.adapter_of := Goroutines.Selecting;
         Goroutines.handler_of := Goroutines.Looping [];
         Goroutines.log := []; Goroutines.panicked := false |} = Some s /\
    Goroutines.panicked s = true /\
    Goroutines.handler_of s = Goroutines.Finished /\
    Goroutines.log s
    = Goroutines.relay (EC := Sample.echo (Some 1))
        (map (Together.ToChatCompletionStreamResponse (Env := Sample.together))
           (firstn 1 ["Hel"; "lo"]))
        ++ [Handler.Respond HTTP.StatusInternalServerError
              (Error (errors_New "write: broken pipe"))].
Proof.
  apply (handler_write_failure_panics (E := Sample.together)
           (EC := Sample.echo (Some 1)) ["Hel"; "lo"] io_EOF (k := 1)
           (werr := errors_New "write: broken pipe")).
  - apply sample_echo_encodes.
  - intros w chunk Hlt. cbn [Handler.response_Write Sample.echo].
    apply Nat.ltb_lt in Hlt. now rewrite Hlt.
  - intros w chunk Heq. cbn [Handler.response_Write Sample.echo].
    rewrite Heq. reflexivity.
  - cbn [List.length]. lia.
Defined.

Lemma missing_terminal_blocks_for_ever_witness :
  exists s,
    Goroutines.run (E := Sample.together) (EC := Sample.echo None)
      (2 * List.length ["Hel"; "lo"])
      {| Goroutines.parser := map (@Together.InnerData
                  (Together.TogetherChatResponse (Env := Sample.together)))
             ["Hel"; "lo"];
         Goroutines.adapter_of := Goroutines.Selecting;
         Goroutines.handler_of := Goroutines.Looping [];
         Goroutines.log := []; Goroutines.panicked := false |} = Some s /\
    Goroutines.stuck (EC := Sample.echo None) s /\
    Goroutines.adapter_of s = Goroutines.Selecting /\
    Goroutines.handler_of s
    = Goroutines.Looping
        (Goroutines.frames (EC := Sample.echo None)
           (map (Together.ToChatCompletionStreamResponse (Env := Sample.together))
              ["Hel"; "lo"])) /\
    Goroutines.log s
    = Goroutines.relay (EC := Sample.echo None)
        (map (Together.ToChatCompletionStreamResponse (Env := Sample.together))
           ["Hel"; "lo"]).
Proof.
  exact (missing_terminal_blocks_for_ever (E := Sample.together)
           (EC := Sample.echo None) ["Hel"; "lo"] sample_echo_drains).
Defined.

Lemma send_after_terminal_panics_witness :
  exists s,
    Goroutines.run (E := Sample.together) (EC := Sample.echo None)
      (2 * List.length ["Hel"] + 3)
      {| Goroutines.parser :=
           Together.parsed (E := Sample.together) ["Hel"] io_EOF ++ Together.InnerData "lo" :: [];
         Goroutines.adapter_of := Goroutines.Selecting;
         Goroutines.handler_of := Goroutines.Looping [];
         Goroutines.log := []; Goroutines.panicked := false |} = Some s /\
    Goroutines.panicked s = true /\
    Goroutines.adapter_of s = Goroutines.Returned /\
    Goroutines.handler_of s = Goroutines.Finished /\
    Goroutines.log s
    = Goroutines.relay (EC := Sample.echo None)
        (map (Together.ToChatCompletionStreamResponse (Env := Sample.together))
           ["Hel"])
        ++ [Goroutines.respond io_EOF].
Proof.
  exact (send_after_terminal_panics (E := Sample.together)
           (EC := Sample.echo None) ["Hel"] io_EOF (Together.InnerData "lo") []
           sample_echo_drains).
Defined.

(** ** The Claude web client: what a result tells *)

Section ClaudeWebMore.
Import HTTP ClaudeWeb.
Context {O : Type} `{S : Session O}.

Lemma error_eqb_EOF (e : error) : error_eqb e io_EOF = true -> e = io_EOF.
Proof. destruct e; [reflexivity | discriminate | discriminate]. Qed.

Lemma stream_lines_EOF ls last (e : error) :
  In e (terminals (stream_lines ls last)) -> errors_Is e io_EOF = true ->
  last = io_EOF /\ exists vs, decode_each (filter long ls) = inr vs.
Proof.
  induction ls as [|line rest IH]; cbn [stream_lines filter].
  - cbn [terminals In]. unfold stream_end. intros [<-|[]].
    destruct (error_eqb last io_EOF) eqn:Hl; [|discriminate].
    intros _. split; [now apply error_eqb_EOF | now exists []].
  - destruct (long line); [|exact IH]. cbn [decode_each].
    destruct (json_Unmarshal (drop 6 line) zero_ChatMessageResponse) as [err|v].
    + cbn [terminals In]. intros [<-|[]]. discriminate.
    + cbn [terminals]. intros Hin He.
      destruct (IH Hin He) as (Hlast & vs & ->). split; [exact Hlast|].
      now exists (v :: vs).
Qed.

(** X12. In a run of [CreateChatMessageStream] the value on the error
    channel is [io.EOF] (for [errors.Is]) exactly when the session answered
    with a status below 400, the body was read to its end, and every long
    line decoded; the records sent are then all the decoded lines. The
    lines are the newline-terminated ones: bytes after the last newline
    take no part. *)
Theorem CreateChatMessageStream_EOF_iff_complete (c : ClaudeWeb)
  (id prompt : string) :
  (exists e, In e (terminals (CreateChatMessageStream c id prompt)) /\
             errors_Is e io_EOF = true)
  <->
  (exists r vs,
      session_Do (sent_request c id prompt) = inr r /\
      (StatusCode r < StatusBadRequest)%Z /\
      end_of_body (RespBody r) = io_EOF /\
      decode_each (filter long (lines (content (RespBody r)))) = inr vs /\
      records (CreateChatMessageStream c id prompt) = vs).
Proof.
  unfold CreateChatMessageStream. rewrite createChatMessage_answer.
  destruct (session_Do (sent_request c id prompt)) as [err|r].
  - split.
    + intros (e & [<-|[]] & He). discriminate.
    + intros (r & vs & Hr & _). discriminate.
  - destruct (StatusBadRequest <=? StatusCode r)%Z eqn:Hs.
    + split.
      * intros (e & [<-|[]] & He). discriminate.
      * intros (r' & vs & [= <-] & Hlt & _). apply Z.leb_le in Hs. lia.
    + rewrite Hs, stream_loop_lines. cbn [terminals records]. split.
      * intros (e & Hin & He).
        destruct (stream_lines_EOF _ _ _ Hin He) as (Hend & vs & Hd).
        exists r, vs. apply Z.leb_gt in Hs.
        repeat split; try assumption.
        rewrite (stream_lines_each _ _ Hd), records_app, records_data.
        apply app_nil_r.
      * intros (r' & vs & [= <-] & _ & Hend & Hd & _).
        exists io_EOF. rewrite (stream_lines_each _ _ Hd), Hend.
        rewrite terminals_app, terminals_data. split; [now left | reflexivity].
Qed.

(** X15. [CreateChatMessage] returns a response only when the session
    answered with a status below 400, the body was read to its end and
    every long line decoded; its [Completion] is then the concatenation of
    what the lines left. After a read error or a line that does not decode
    it returns the error alone, never the part of the completion read so
    far. *)
Theorem CreateChatMessage_all_or_nothing (c : ClaudeWeb) (id prompt : string)
  (resp : ChatMessageResponse O) :
  snd (CreateChatMessage c id prompt) = inr resp ->
  exists r vs,
    session_Do (sent_request c id prompt) = inr r /\
    (StatusCode r < StatusBadRequest)%Z /\
    end_of_body (RespBody r) = io_EOF /\
    decode_into zero_ChatMessageResponse
      (filter long (lines (content (RespBody r)))) = inr vs /\
    Completion resp = completions vs.
Proof.
  destruct (session_Do (sent_request c id prompt)) as [err|r] eqn:Hdo.
  - unfold CreateChatMessage. rewrite createChatMessage_answer, Hdo.
    discriminate.
  - destruct (StatusBadRequest <=? StatusCode r)%Z eqn:Hs.
    + unfold CreateChatMessage. rewrite createChatMessage_answer, Hdo, Hs.
      discriminate.
    + apply Z.leb_gt in Hs. rewrite (CreateChatMessage_answer _ _ _ Hdo Hs).
      destruct (decode_into _ _) as [err|vs] eqn:Hd; [discriminate|].
      destruct (error_eqb _ _) eqn:Hend; [|discriminate].
      intros [= <-]. exists r, vs. apply error_eqb_EOF in Hend. auto.
Qed.

Lemma lines_from_fragment cur s f :
  cut_line f = None -> lines_from cur (s ++ f) = lines_from cur s.
Proof.
  intros Hf. revert cur; induction s as [|ch s IH]; intros cur.
  - cbn [String.append lines_from]. rewrite lines_from_cut, Hf. reflexivity.
  - cbn [String.append lines_from]. now rewrite !IH.
Qed.

(** X14. Bytes after the last newline of a body never reach the decoder:
    both read loops do on a body that ends with bytes [f] without a newline
    what they do on the body without those bytes. A last frame that is not
    followed by a newline is lost without an error. *)
Theorem unterminated_tail_is_dropped (s f : string) (fl : option error)
  (v : ChatMessageResponse O) (sb : string) :
  cut_line f = None ->
  stream_loop {| content := s ++ f; failure := fl |}
  = stream_loop {| content := s; failure := fl |} /\
  message_loop v sb {| content := s ++ f; failure := fl |}
  = message_loop v sb {| content := s; failure := fl |}.
Proof.
  intros Hf. rewrite !stream_loop_lines, !message_loop_lines.
  unfold lines, end_of_body. cbn [content failure].
  now rewrite (lines_from_fragment "" s f Hf).
Qed.

End ClaudeWebMore.

Lemma CreateChatMessage_all_or_nothing_witness :
  exists r vs,
    ClaudeWeb.session_Do (Session := Sample.claudeweb)
      (ClaudeWeb.sent_request (S := Sample.claudeweb) Sample.web "conv"
         Sample.two_frames) = inr r /\
    (HTTP.StatusCode r < HTTP.StatusBadRequest)%Z /\
    HTTP.end_of_body (HTTP.RespBody r) = io_EOF /\
    ClaudeWeb.decode_into (S := Sample.claudeweb)
      (ClaudeWeb.zero_ChatMessageResponse (S := Sample.claudeweb))
      (filter ClaudeWeb.long (HTTP.lines (HTTP.content (HTTP.RespBody r))))
    = inr vs /\
    ClaudeWeb.Completion
      {| ClaudeWeb.Completion := "Hello"; ClaudeWeb.Other := tt |}
    = ClaudeWeb.completions vs.
Proof.
  apply (CreateChatMessage_all_or_nothing (S := Sample.claudeweb)
           Sample.web "conv" Sample.two_frames).
  reflexivity.
Defined.

(** A body whose second frame is not followed by a newline. *)
Lemma unterminated_tail_is_dropped_witness :
  ClaudeWeb.stream_loop (S := Sample.claudeweb)
    {| HTTP.content := ("data: Hel" ++ Sample.nl) ++ "data: lo";
       HTTP.failure := None |}
  = ClaudeWeb.stream_loop (S := Sample.claudeweb)
      {| HTTP.content := "data: Hel" ++ Sample.nl; HTTP.failure := None |} /\
  ClaudeWeb.message_loop (S := Sample.claudeweb)
    (ClaudeWeb.zero_ChatMessageResponse (S := Sample.claudeweb)) ""
    {| HTTP.content := ("data: Hel" ++ Sample.nl) ++ "data: lo";
       HTTP.failure := None |}
  = ClaudeWeb.message_loop (S := Sample.claudeweb)
      (ClaudeWeb.zero_ChatMessageResponse (S := Sample.claudeweb)) ""
      {| HTTP.content := "data: Hel" ++ Sample.nl; HTTP.failure := None |}.
Proof.
  apply (unterminated_tail_is_dropped (S := Sample.claudeweb)).
  reflexivity.
Defined.

(** ** The Claude web client: headers, organizations, conversations *)

Section ClaudeWebAPIFacts.
Import HTTP ClaudeWebAPI.
Context {O Organization Conversation : Type} `{S : ClaudeWeb.Session O}
  `{C : Codec Organization Conversation}.








(** The header [createChatMessage] sets is looked up in lower case. *)
Example setReqHeaders_content_type_lower_case id prompt :
  Header_Values "content-type"
    (ClaudeWeb.sent_request (S := Sample.claudeweb) Sample.web id prompt)
  = ["application/json"].
Proof. reflexivity. Qed.

(** X16. [New] returns a client only after one GET of
    [/api/organizations], sent with the session key as a cookie, was
    answered with a status below 400 and a body that decodes to at least
    one organization; the client then holds the session key, the default
    model, and the UUID of the first organization. *)
Theorem New_client_of_first_organization (sessionKey : string)
  (c : ClaudeWeb.ClaudeWeb) :
  snd (New sessionKey) = Returns (Some c) ->
  ClaudeWeb.sessionKey c = sessionKey /\
  ClaudeWeb.model c = ClaudeWeb.defaultModel /\
  exists sent r body org orgs,
    fst (New sessionKey) = [sent] /\
    Method sent = "GET" /\
    URL sent = "https://claude.ai/api/organizations" /\
    Cookies sent = [("sessionKey", sessionKey)] /\
    ClaudeWeb.session_Do sent = inr r /\
    (StatusCode r < StatusBadRequest)%Z /\
    ReadAll (RespBody r) = (body, None) /\
    Unmarshal_orgs body = inr (Some org :: orgs) /\
    ClaudeWeb.orgId c = UUID org.
Proof.
  unfold New, GetOrganizations, ClaudeWeb.request. cbn [fst snd].
  match goal with |- context [ClaudeWeb.session_Do ?req] =>
    set (sent := req) end.
  destruct (ClaudeWeb.session_Do sent) as [err|r] eqn:Hdo; [discriminate|].
  destruct (StatusBadRequest <=? StatusCode r)%Z eqn:Hs; [discriminate|].
  unfold read_and_decode.
  destruct (ReadAll (RespBody r)) as [body [err|]] eqn:Hread; [discriminate|].
  destruct (Unmarshal_orgs body) as [err|[|[org|] orgs]] eqn:Hun;
    try discriminate.
  intros [= <-]. cbn [ClaudeWeb.sessionKey ClaudeWeb.model ClaudeWeb.orgId].
  repeat split. exists sent, r, body, org, orgs.
  apply Z.leb_gt in Hs. repeat split; assumption.
Qed.

(** X17. When the server answers a request with a status of 400 or more,
    no function of the client returns a value read from that answer: each
    returns an error (and [New] no client), after its one request. *)
Theorem error_status_is_an_error (c : ClaudeWeb.ClaudeWeb)
  (sessionKey id name prompt : string) :
  (forall req, exists r,
      ClaudeWeb.session_Do req = inr r /\ (StatusBadRequest <= StatusCode r)%Z) ->
  (exists sent e, GetOrganizations c = ([sent], inl e)) /\
  (exists sent, New sessionKey = ([sent], Returns None)) /\
  (exists sent e, ListConversations c = ([sent], inl e)) /\
  (exists sent e, GetConversation c id = ([sent], inl e)) /\
  (exists sent e, DeleteConversation c id = ([sent], Some e)) /\
  (exists sent e, CreateConversation c name = ([sent], inl e)) /\
  (exists sent e, UpdateConversation c id name = ([sent], Some e)) /\
  (exists e, snd (ClaudeWeb.CreateChatMessage c id prompt) = inl e) /\
  (exists sent e,
      ClaudeWeb.CreateChatMessageStream c id prompt = [Upstream sent; SendErr e]).
Proof.
  intros Hall.
  assert (Hreq : forall c' req, exists sent code e,
             ClaudeWeb.request c' req = (sent, (code, inl e))).
  { intros c' req. unfold ClaudeWeb.request.
    destruct (Hall (ClaudeWeb.setReqHeaders c' req)) as (r & -> & Hs).
    apply Z.leb_le in Hs. rewrite Hs. eauto. }
  unfold New, GetOrganizations, ListConversations, GetConversation,
    DeleteConversation, CreateConversation, UpdateConversation,
    ClaudeWeb.CreateChatMessage, ClaudeWeb.CreateChatMessageStream,
    ClaudeWeb.createChatMessage.
  repeat match goal with |- _ /\ _ => split end.
  all: match goal with |- context [ClaudeWeb.request ?c' ?req] =>
         destruct (Hreq c' req) as (sent & code & e & ->) end.
  all: cbn [snd]; eauto.
Qed.

End ClaudeWebAPIFacts.

Lemma New_client_of_first_organization_witness :
  ClaudeWeb.sessionKey
    {| ClaudeWeb.sessionKey := "sk"; ClaudeWeb.orgId := "org-1";
       ClaudeWeb.model := "claude-2" |} = "sk" /\
  ClaudeWeb.model
    {| ClaudeWeb.sessionKey := "sk"; ClaudeWeb.orgId := "org-1";
       ClaudeWeb.model := "claude-2" |} = ClaudeWeb.defaultModel /\
  exists sent r body org orgs,
    fst (ClaudeWebAPI.New (S := Sample.claudeweb_org)
           (C := Sample.claudeweb_codec) "sk") = [sent] /\
    HTTP.Method sent = "GET" /\
    HTTP.URL sent = "https://claude.ai/api/organizations" /\
    HTTP.Cookies sent = [("sessionKey", "sk")] /\
    ClaudeWeb.session_Do (Session := Sample.claudeweb_org) sent = inr r /\
    (HTTP.StatusCode r < HTTP.StatusBadRequest)%Z /\
    ClaudeWebAPI.ReadAll (HTTP.RespBody r) = (body, None) /\
    ClaudeWebAPI.Unmarshal_orgs (Codec := Sample.claudeweb_codec) body
    = inr (Some org :: orgs) /\
    ClaudeWeb.orgId
      {| ClaudeWeb.sessionKey := "sk"; ClaudeWeb.orgId := "org-1";
         ClaudeWeb.model := "claude-2" |}
    = ClaudeWebAPI.UUID (Codec := Sample.claudeweb_codec) org.
Proof.
  apply (New_client_of_first_organization (S := Sample.claudeweb_org)
           (C := Sample.claudeweb_codec) "sk").
  reflexivity.
Defined.

Lemma error_status_is_an_error_witness :
  exists sent e,
    ClaudeWebAPI.DeleteConversation (S := Sample.claudeweb_denied) Sample.web
      "conv" = ([sent], Some e).
Proof.
  refine (proj1 (proj2 (proj2 (proj2 (proj2
            (error_status_is_an_error (S := Sample.claudeweb_denied)
               (C := Sample.claudeweb_codec) Sample.web "sk" "conv" "name"
               "Hi" _)))))).
  intros req. eexists. split; [reflexivity|]. vm_compute. discriminate.
Defined.

(** ** The Together client: the list of models *)

Section TogetherModelsFacts.
Import HTTP TogetherModels.
Context {J : Type} `{F : Files J}.

Lemma chat_names_spec (models : list Model) (n : string) :
  In n (chat_names models) <->
  exists m, In m models /\ DisplayType m = "chat" /\ Name m = n.
Proof.
  induction models as [|m models IH]; cbn [chat_names].
  - split; [intros [] | intros (m & [] & _)].
  - destruct (String.eqb_spec (DisplayType m) "chat") as [Hc|Hc]; cbn [In];
      rewrite ?IH; split.
    + intros [<-|(m' & Hin & H)]; [exists m; auto | exists m'; tauto].
    + intros (m' & [<-|Hin] & Hd & Hn); [now left | right; eauto].
    + intros (m' & Hin & H). exists m'. tauto.
    + intros (m' & [<-|Hin] & Hd & Hn); [contradiction | eauto].
Qed.

(** X18. [ListModels] asks the server only when the cache file is absent,
    and it writes the file whatever the server answered. So when the first
    fetch fails (the call fails, or the answer does not decode), the empty
    list is cached: that call and every later one return no model, and the
    later ones send no request. Likewise a cache file that does not decode
    is never replaced. *)
Theorem failed_fetch_is_cached (c : Together.Client) (bytes : string) :
  (forall resp,
      session_Do
        (Together.setHeaders c
           (NewRequest "GET" (Together.baseUrl c ++ "/models/info") ""))
      = inr resp ->
      exists err, Decode_any (RespBody resp) = inl err) ->
  os_Create = None ->
  Encode_any [] = inr bytes ->
  Decode_models bytes = inr [] ->
  ListModels c None
  = ([Together.setHeaders c
        (NewRequest "GET" (Together.baseUrl c ++ "/models/info") "")],
     Some bytes, []) /\
  ListModels c (Some bytes) = ([], Some bytes, []) /\
  (forall corrupt err,
      Decode_models corrupt = inl err ->
      ListModels c (Some corrupt) = ([], Some corrupt, [])).
Proof.
  intros Hfetch Hcreate Henc Hdec.
  assert (Hmodels : snd (getModelsFromServer c) = []).
  { unfold getModelsFromServer. cbn [snd].
    destruct (session_Do _) as [err|resp] eqn:Hdo; [reflexivity|].
    destruct (Hfetch resp eq_refl) as [err ->]. reflexivity. }
  repeat split.
  - unfold ListModels.
    destruct (getModelsFromServer c) as [calls models] eqn:Hget.
    cbn [snd] in Hmodels. subst models.
    unfold getModelsFromServer in Hget. injection Hget as <- _.
    unfold saveModelsCache, readModelsCache. now rewrite Hcreate, Henc, Hdec.
  - unfold ListModels, readModelsCache. now rewrite Hdec.
  - intros corrupt err Hc. unfold ListModels, readModelsCache. now rewrite Hc.
Qed.

(** X19. When the cache file is absent and the server answers with a list
    that is written to the file and read back, [ListModels] returns the
    names of the models whose display type is [chat], in the order of the
    list, after one request; a second call returns the same names from the
    file and sends no request. *)
Theorem ListModels_fetches_once (c : Together.Client) (resp : Response)
  (fetched : list J) (bytes : string) (models : list Model) :
  session_Do
    (Together.setHeaders c
       (NewRequest "GET" (Together.baseUrl c ++ "/models/info") ""))
  = inr resp ->
  Decode_any (RespBody resp) = inr fetched ->
  os_Create = None ->
  Encode_any fetched = inr bytes ->
  Decode_models bytes = inr models ->
  ListModels c None
  = ([Together.setHeaders c
        (NewRequest "GET" (Together.baseUrl c ++ "/models/info") "")],
     Some bytes, chat_names models) /\
  ListModels c (Some bytes) = ([], Some bytes, chat_names models) /\
  (forall n, In n (chat_names models) <->
             exists m, In m models /\ DisplayType m = "chat" /\ Name m = n).
Proof.
  intros Hdo Hany Hcreate Henc Hdec. repeat split.
  - unfold ListModels, getModelsFromServer, saveModelsCache, readModelsCache.
    now rewrite Hdo, Hany, Hcreate, Henc, Hdec.
  - unfold ListModels, readModelsCache. now rewrite Hdec.
  - apply chat_names_spec.
  - apply chat_names_spec.
Qed.

End TogetherModelsFacts.

Lemma failed_fetch_is_cached_witness :
  TogetherModels.ListModels (F := Sample.files false) Sample.together_client None
  = ([Together.setHeaders Sample.together_client
        (HTTP.NewRequest "GET"
           (Together.baseUrl Sample.together_client ++ "/models/info") "")],
     Some "", []) /\
  TogetherModels.ListModels (F := Sample.files false) Sample.together_client
    (Some "") = ([], Some "", []) /\
  (forall corrupt err,
      TogetherModels.Decode_models (Files := Sample.files false) corrupt
      = inl err ->
      TogetherModels.ListModels (F := Sample.files false)
        Sample.together_client (Some corrupt) = ([], Some corrupt, [])).
Proof.
  apply (failed_fetch_is_cached (F := Sample.files false)
           Sample.together_client (bytes := "")).
  - intros resp Hdo. discriminate Hdo.
  - reflexivity.
  - reflexivity.
  - reflexivity.
Defined.

Lemma ListModels_fetches_once_witness :
  TogetherModels.ListModels (F := Sample.files true) Sample.together_client None
  = ([Together.setHeaders Sample.together_client
        (HTTP.NewRequest "GET"
           (Together.baseUrl Sample.together_client ++ "/models/info") "")],
     Some ("chat-llama" ++ Sample.nl ++ "bert" ++ Sample.nl ++ "code-llama"
             ++ Sample.nl)%string,
     ["chat-llama"; "code-llama"]).
Proof.
  refine (proj1 (ListModels_fetches_once (F := Sample.files true)
                   Sample.together_client
                   (models := map Sample.model_of_line
                                ["chat-llama" ++ Sample.nl; "bert" ++ Sample.nl;
                                 "code-llama" ++ Sample.nl]%string)
                   _ _ _ _ _)); reflexivity.
Defined.

(** ** The Together client: errors *)

Section TogetherErrors.
Import LLM HTTP Together.
Context {P ChatResponse StreamResponse : Type}
  `{E : Env P ChatResponse StreamResponse} `{EC : Handler.Echo StreamResponse}.

Lemma error_eqb_refl (e : error) : error_eqb e e = true.
Proof.
  induction e as [|msg|prefix inner IH]; cbn [error_eqb];
    rewrite ?String.eqb_refl, ?IH; reflexivity.
Qed.

Lemma errors_Is_refl (e : error) : errors_Is e e = true.
Proof. destruct e; cbn [errors_Is]; now rewrite error_eqb_refl. Qed.

Lemma errors_Is_wrap (prefix : string) (cause : error) :
  errors_Is (fmt_Errorf_w prefix cause) cause = true.
Proof. cbn [errors_Is]. rewrite errors_Is_refl. apply orb_true_r. Qed.

(** X20. Every error [CreateChatCompletion] returns wraps its cause, the
    error of [json.Marshal], of the session or of the decoder, so that
    [errors.Is] finds the cause; when marshalling fails no request has been
    sent, and otherwise exactly one. *)
Theorem CreateChatCompletion_errors_wrap (c : Client)
  (req : ChatCompletionRequest P) (e : error) :
  snd (CreateChatCompletion c req) = inl e ->
  exists prefix cause,
    e = fmt_Errorf_w prefix cause /\
    errors_Is e cause = true /\
    ((json_Marshal (completion_request req) = inl cause /\
      snd (fst (CreateChatCompletion c req)) = []) \/
     exists reqBody,
       json_Marshal (completion_request req) = inr reqBody /\
       snd (fst (CreateChatCompletion c req)) = [post c reqBody] /\
       (session_Do (post c reqBody) = inl cause \/
        exists resp,
          session_Do (post c reqBody) = inr resp /\
          json_Decode (RespBody resp) = inl cause)).
Proof.
  unfold CreateChatCompletion.
  destruct (json_Marshal (completion_request req)) as [err|reqBody] eqn:Hm;
    cbn [fst snd].
  - intros [= <-]. eexists _, err.
    split; [reflexivity|]. split; [apply errors_Is_wrap|]. left. now split.
  - destruct (session_Do (post c reqBody)) as [err|resp] eqn:Hdo.
    + intros [= <-]. eexists _, err.
      split; [reflexivity|]. split; [apply errors_Is_wrap|].
      right. exists reqBody. repeat split. now left.
    + destruct (json_Decode (RespBody resp)) as [err|togResp] eqn:Hdec;
        [|discriminate].
      intros [= <-]. eexists _, err.
      split; [reflexivity|]. split; [apply errors_Is_wrap|].
      right. exists reqBody. repeat split. right. exists resp. now split.
Qed.

(** X21. When the upstream call of the streaming adapter fails, how
    [LLMHandler.chatStream] ends depends on the cause, which the adapter
    wraps: for a cause that is or wraps [io.EOF] (the connection was closed
    before an answer) its last call is [c.String(200, "data: [DONE]\n\n")],
    the call it makes for a complete stream with no record; for any other
    cause its last call is [c.String(500, message)]. Either call comes
    after the header with status 200 has been written. *)
Theorem failed_call_with_EOF_reported_as_done (c : Client)
  (req : ChatCompletionRequest P) (reqBody : string) (err : error) :
  json_Marshal (stream_request req) = inr reqBody ->
  session_Do (post c reqBody) = inl err ->
  Handler.LLM_chatStream (stream_actions c req)
  = ([Handler.SetHeader "Content-Type" "text/event-stream";
      Handler.SetHeader "Cache-Control" "no-cache";
      Handler.SetHeader "Connection" "keep-alive";
      Handler.WriteHeader StatusOK;
      if errors_Is err io_EOF then Handler.Respond StatusOK Handler.done_line
      else Handler.Respond StatusInternalServerError
             ("create chat completion stream error: " ++ Error err)],
     true).
Proof.
  intros Hm Hdo.
  unfold stream_actions, CreateChatCompletionStream. rewrite Hm, Hdo.
  cbn [fst snd]. unfold Handler.LLM_chatStream.
  cbn [Handler.select_loop Handler.select_case Handler.written app errors_Is
       error_eqb orb].
  destruct (errors_Is err io_EOF); reflexivity.
Qed.

End TogetherErrors.

Lemma CreateChatCompletion_errors_wrap_witness :
  exists prefix cause,
    fmt_Errorf_w "create chat completion marshal request error: "
      (errors_New "json: unsupported value")
    = fmt_Errorf_w prefix cause /\
    errors_Is
      (fmt_Errorf_w "create chat completion marshal request error: "
         (errors_New "json: unsupported value")) cause = true /\
    ((Together.json_Marshal (Env := Sample.together)
        (Together.completion_request (E := Sample.together) (Sample.request ""))
      = inl cause /\
      snd (fst (Together.CreateChatCompletion (E := Sample.together)
                  Sample.together_client (Sample.request ""))) = []) \/
     exists reqBody,
       Together.json_Marshal (Env := Sample.together)
         (Together.completion_request (E := Sample.together) (Sample.request ""))
       = inr reqBody /\
       snd (fst (Together.CreateChatCompletion (E := Sample.together)
                   Sample.together_client (Sample.request "")))
       = [Together.post Sample.together_client reqBody] /\
       (Together.session_Do (Env := Sample.together)
          (Together.post Sample.together_client reqBody) = inl cause \/
        exists resp,
          Together.session_Do (Env := Sample.together)
            (Together.post Sample.together_client reqBody) = inr resp /\
          Together.json_Decode (Env := Sample.together) (HTTP.RespBody resp)
          = inl cause)).
Proof.
  apply (CreateChatCompletion_errors_wrap (E := Sample.together)
           Sample.together_client (Sample.request "")).
  reflexivity.
Defined.

Lemma failed_call_with_EOF_reported_as_done_witness :
  Handler.LLM_chatStream (EC := Sample.echo None)
    (Together.stream_actions (E := Sample.together_closed)
       Sample.together_client (Sample.request "llama"))
  = ([Handler.SetHeader "Content-Type" "text/event-stream";
      Handler.SetHeader "Cache-Control" "no-cache";
      Handler.SetHeader "Connection" "keep-alive";
      Handler.WriteHeader 200;
      Handler.Respond 200 Handler.done_line],
     true).
Proof.
  apply (failed_call_with_EOF_reported_as_done (E := Sample.together_closed)
           (EC := Sample.echo None) Sample.together_client
           (Sample.request "llama") (reqBody := "llama")
           (err := fmt_Errorf_w
                     "Post https://api.together.xyz/v1/completions: " io_EOF));
    reflexivity.
Defined.

(** ** The Bard client: asking *)

Section BardMore.
Import HTTP Bard BardAsk.
Context {Answer : Type} `{N : Net} `{C : Codec Answer}.

Lemma Split_from_length cur s :
  List.length (Split_from cur s) = S (newlines s).
Proof.
  revert cur; induction s as [|ch s IH]; intros cur; [reflexivity|].
  cbn [Split_from newlines]. destruct (Ascii.eqb ch newline).
  - cbn [List.length]. now rewrite IH.
  - apply IH.
Qed.

(** X22. [Ask] reads the answer off the fourth line of the body, whatever
    the status of the response: when the body has fewer than three newline
    bytes there is no fourth piece and [Ask] panics (index out of range)
    instead of returning an error; when it has at least three, [Ask]
    returns what [parse] makes of the piece between the third newline and
    the next. *)
Theorem Ask_needs_four_lines (jar : list (string * string)) (b : Client)
  (prompt conversationID responseID choiceID : string) (reqID : Z)
  (req : Request) (resp : Response) (body : string) :
  buildRequest b prompt conversationID responseID choiceID reqID = inr req ->
  session_Do (fold_left (fun r kv => AddCookie (fst kv) (snd kv) r) jar req)
  = inr resp ->
  ReadAll (RespBody resp) = (body, None) ->
  (newlines body < 3 ->
   snd (Ask jar b prompt conversationID responseID choiceID reqID) = Panics) /\
  (3 <= newlines body ->
   exists piece,
     nth_error (Split body) 3 = Some piece /\
     snd (Ask jar b prompt conversationID responseID choiceID reqID)
     = Returns (fst (parse piece)) (snd (parse piece))).
Proof.
  intros Hreq Hdo Hread. unfold Ask. rewrite Hreq. cbn [snd].
  rewrite Hdo, Hread.
  pose proof (Split_from_length "" body) as Hlen. fold (Split body) in Hlen.
  split; intros Hn.
  - assert (Hnone : nth_error (Split body) 3 = None)
      by (apply nth_error_None; lia).
    now rewrite Hnone.
  - destruct (nth_error (Split body) 3) as [piece|] eqn:Hnth.
    + exists piece. split; [reflexivity|]. now destruct (parse piece).
    + apply nth_error_None in Hnth. lia.
Qed.










End BardMore.

(** The page has no newline: asking panics. *)
Lemma Ask_needs_four_lines_witness :
  (BardAsk.newlines "page" < 3 ->
   snd (BardAsk.Ask (N := Sample.bard_net) (C := Sample.bard_codec)
          [(Bard.cookieTokenKey, "abcd.")] Sample.bard_client "Hi" "" "" "" 0)
   = BardAsk.Panics) /\
  (3 <= BardAsk.newlines "page" ->
   exists piece,
     nth_error (BardAsk.Split "page") 3 = Some piece /\
     snd (BardAsk.Ask (N := Sample.bard_net) (C := Sample.bard_codec)
            [(Bard.cookieTokenKey, "abcd.")] Sample.bard_client "Hi" "" "" "" 0)
     = BardAsk.Returns
         (fst (BardAsk.parse (Codec := Sample.bard_codec) piece))
         (snd (BardAsk.parse (Codec := Sample.bard_codec) piece))).
Proof.
  eapply (Ask_needs_four_lines (N := Sample.bard_net) (C := Sample.bard_codec));
    reflexivity.
Defined.

(** An answer of five lines: the fourth is parsed. *)
Example Ask_parses_fourth_line :
  snd (BardAsk.FirstAsk (N := Sample.bard_answers) (C := Sample.bard_codec)
         [(Bard.cookieTokenKey, "abcd.")] Sample.bard_client "Hi")
  = BardAsk.Returns (Some "answer") None.
Proof. reflexivity. Qed.


(** An option cookie with the name of the token cookie replaces it in the
    jar, where the token cookie was put first. *)
Example NewBardClient_option_cookie_replaces_token_cookie :
  map HTTP.Cookies
    (fst (Bard.NewBardClient (N := Sample.bard_net) "abcd."
            [Bard.WithCookies [("NID", "x"); ("__Secure-1PSID", "other")]]))
  = [[("__Secure-1PSID", "other"); ("NID", "x")]].
Proof. reflexivity. Qed.
